(** * ursula-cli: the heat provisioning path of [ursula_cli/shell.py]

    A shallow embedding of [_run_heat] and [test_ssh]: the Python code is
    written as functions in a small trace-passing error monad.  Everything the
    code talks to (the process environment, the keystone and heat clients,
    paramiko, the clock) is an oracle of a [World]; every call the code makes
    is appended to a trace of [event]s, so that statements such as "exactly
    one create call is issued" are statements about that trace.

    The [while] loops of the source have no bound; here each takes a [fuel]
    and ends in [OutOfFuel] when it is used up.  Writing a file, [chmod] and
    starting [ssh-add] are taken to succeed. *)

From Stdlib Require Import String Ascii List Bool Arith Lia Permutation.
Import ListNotations.
Open Scope string_scope.

(** [++] is string concatenation throughout; traces are joined with [+++]. *)
Infix "+++" := (@app _) (at level 60, right associativity).

(** ** Python values and builtins used by the code *)

Module Py.

(** The values the code tests for truth: [None], strings and booleans. *)
Inductive pyval : Type :=
| PyNone
| PyStr (s : string)
| PyBool (b : bool).

(** Python truthiness: [None], the empty string and [False] are falsy. *)
Definition truthy (v : pyval) : bool :=
  match v with
  | PyNone => false
  | PyStr "" => false
  | PyStr _ => true
  | PyBool b => b
  end.

(** [str(v)], as [format] and [%s] apply it. *)
Definition str (v : pyval) : string :=
  match v with
  | PyNone => "None"
  | PyStr s => s
  | PyBool true => "True"
  | PyBool false => "False"
  end.

Definition is_none (v : pyval) : bool :=
  match v with PyNone => true | _ => false end.

(** [all(xs)] *)
Definition all (xs : list pyval) : bool := forallb truthy xs.

(** [xs.index(None)]: position of the first [None]; [None] here stands for
    the [ValueError] Python raises when there is none. *)
Fixpoint index_none (xs : list pyval) : option nat :=
  match xs with
  | [] => None
  | x :: xs' => if is_none x then Some 0
                else option_map S (index_none xs')
  end.

(** Keyword lookup, [kwargs[name]]. *)
Fixpoint kw_lookup (name : string) (kw : list (string * pyval)) : option pyval :=
  match kw with
  | [] => None
  | (k, v) :: kw' => if String.eqb k name then Some v else kw_lookup name kw'
  end.

(** [tmpl.format] with keyword arguments [kw], for the templates of this program: literal text and
    replacement fields [{name}].  [field] holds the name being read after an
    opening brace.  [None] stands for the [KeyError]/[ValueError] of a field
    without argument or an unbalanced brace. *)
Fixpoint format_go (tmpl : string) (field : option string)
         (kw : list (string * pyval)) : option string :=
  match tmpl with
  | EmptyString =>
      match field with None => Some "" | Some _ => None end
  | String c rest =>
      match field with
      | None =>
          if Ascii.eqb c "{" then format_go rest (Some "") kw
          else if Ascii.eqb c "}" then None
          else option_map (String c) (format_go rest None kw)
      | Some name =>
          if Ascii.eqb c "}" then
            match kw_lookup name kw with
            | Some v => option_map (append (str v)) (format_go rest None kw)
            | None => None
            end
          else format_go rest (Some (name ++ String c "")) kw
      end
  end.

Definition format (tmpl : string) (kw : list (string * pyval)) : option string :=
  format_go tmpl None kw.

(** [fmt % args] with [%s] conversions only; [None] stands for the
    [TypeError] of a wrong number of arguments. *)
Fixpoint percent (fmt : string) (args : list string) : option string :=
  match fmt with
  | EmptyString => match args with [] => Some "" | _ => None end
  | String "%" (String "s" rest) =>
      match args with
      | a :: args' => option_map (append a) (percent rest args')
      | [] => None
      end
  | String c rest => option_map (String c) (percent rest args)
  end.

(** [os.path.basename]: what follows the last slash. *)
Fixpoint basename (p : string) : string :=
  match p with
  | EmptyString => ""
  | String c rest =>
      if existsb (Ascii.eqb "/") (list_ascii_of_string rest) then basename rest
      else if Ascii.eqb c "/" then rest else p
  end.

Fixpoint ends_with_slash (p : string) : bool :=
  match p with
  | EmptyString => false
  | String c EmptyString => Ascii.eqb c "/"
  | String _ rest => ends_with_slash rest
  end.

(** [os.path.join(a, b)] (posixpath). *)
Definition path_join (a b : string) : string :=
  match b with
  | String "/" _ => b
  | _ => if orb (String.eqb a "") (ends_with_slash a) then a ++ b
         else a ++ "/" ++ b
  end.

(** The newline character and [sep.join(xs)] for the newline separator: the
    triple-quoted templates of the source are written as lists of lines. *)
Definition nl : string := String (ascii_of_nat 10) "".

Fixpoint join_lines (xs : list string) : string :=
  match xs with
  | [] => ""
  | [x] => x
  | x :: xs' => x ++ nl ++ join_lines xs'
  end.

(** [sub in s] *)
Fixpoint contains (sub s : string) : bool :=
  orb (String.prefix sub s)
      (match s with
       | EmptyString => false
       | String _ rest => contains sub rest
       end).

End Py.

(** ** Exceptions, external calls and the world *)

(** An exception object raised inside a client library (keystone, heat,
    paramiko): [exc_code] is its [code] attribute, when it has one. *)
Record client_exc : Type := mkExc {
  exc_code : option nat;
  exc_text : string
}.

(** The exceptions that can leave [_run_heat]. *)
Inductive exn : Type :=
| OpenStackConfigurationError (msg : string)
| ValueError (msg : string)
| AttributeError (msg : string)
| FormatError
| PyException (msg : string)
| ClientException (e : client_exc).

(** A stack as [heatclient.stacks.get] returns it: its [status] and the
    list [outputs] of [output_key]/[output_value] pairs. *)
Record Stack : Type := mkStack {
  status : string;
  outputs : list (string * string)
}.

(** The [STACK] dictionary handed to create and update. *)
Record StackRequest : Type := mkRequest {
  req_stack_name : string;
  req_template : string;
  req_parameters : option (list (string * string))
}.

(** What [ssh.connect] does on one attempt: it returns, or raises one of the
    exceptions [test_ssh] names, or something else. *)
Inductive connect_result : Type :=
| Connected
| BadHostKeyException (e : client_exc)
| AuthenticationException (e : client_exc)
| SSHException (e : client_exc)
| socket_error (e : client_exc)
| OtherConnectError (e : client_exc).

(** Every call the code makes on its surroundings, in program order. *)
Inductive event : Type :=
| EvLog (level msg : string)
| EvKeystoneClient (creds : list (string * Py.pyval))
| EvUrlFor
| EvHeatClient (endpoint : string)
| EvStacksGet (name : string)
| EvStacksCreate (req : StackRequest)
| EvStacksUpdate (name : string) (req : StackRequest)
| EvSleep (seconds : nat)
| EvWrite (path mode content : string)
| EvChmod (path : string) (mode : nat)
| EvSshAdd (keyfile : string)
| EvAppendEnvvar (key value : string)
| EvSshConnect (host user key_file : string) (r : connect_result).

(** The parsed command line, as far as [_run_heat] reads it.  [main] replaces
    a missing [ursula_user] by a string before [run] is called. *)
Record Args : Type := mkArgs {
  environment : string;
  heat_stack_name : Py.pyval;
  heat_stack_update : bool;
  heat_parameters : option (list string);
  ursula_user : string
}.

(** The surroundings of one run.  [dict_order] is the iteration order of a
    Python 2 dictionary, given its keys in insertion order; [stacks_get n] is
    the answer to the [n]-th [stacks.get] of the run (counting from 0) and
    [ssh_connect h n] the outcome of the [n]-th connection attempt to [h];
    [no_code_text e] is the text of the [AttributeError] that reading
    [e.code] raises when [e] has no such attribute, which names the class
    of [e]. *)
Record World : Type := mkWorld {
  environ : string -> option string;
  heat_import : option client_exc;
  dict_order : list string -> list string;
  format_parameters : list string -> client_exc + list (string * string);
  keystone_client : option client_exc;
  url_for : client_exc + string;
  stacks_get : nat -> client_exc + Stack;
  stacks_create : option client_exc;
  stacks_update : option client_exc;
  ssh_connect : string -> nat -> connect_result;
  abspath : string -> string;
  isfile : string -> bool;
  no_code_text : exn -> string
}.

(** A dictionary order is sound when it lists exactly the keys it is given. *)
Definition order_ok (w : World) : Prop :=
  forall ks : list string, NoDup ks -> Permutation (dict_order w ks) ks.

(** ** The monad: a trace of events, an exception, or a loop cut short *)

Inductive result (A : Type) : Type :=
| Ok (a : A)
| Raise (e : exn)
| OutOfFuel.
Arguments Ok {A} a.
Arguments Raise {A} e.
Arguments OutOfFuel {A}.

Definition M (A : Type) : Type := list event -> result A * list event.

Definition ret {A} (a : A) : M A := fun tr => (Ok a, tr).

Definition bind {A B} (m : M A) (k : A -> M B) : M B :=
  fun tr =>
    match m tr with
    | (Ok a, tr') => k a tr'
    | (Raise e, tr') => (Raise e, tr')
    | (OutOfFuel, tr') => (OutOfFuel, tr')
    end.

Definition raise {A} (e : exn) : M A := fun tr => (Raise e, tr).
Definition out_of_fuel {A} : M A := fun tr => (OutOfFuel, tr).
Definition emit (e : event) : M unit := fun tr => (Ok tt, tr +++ [e]).

Notation "x <- m ;; k" := (bind m (fun x => k))
  (at level 61, m at next level, right associativity).
Notation "m ;; k" := (bind m (fun _ => k))
  (at level 61, right associativity).

(** A formatting step: the formatted string, or the error of a bad template. *)
Definition fmt (o : option string) : M string :=
  match o with Some s => ret s | None => raise FormatError end.

Definition LOG_debug (msg : string) : M unit := emit (EvLog "DEBUG" msg).
Definition LOG_error (msg : string) : M unit := emit (EvLog "ERROR" msg).
Definition sleep (n : nat) : M unit := emit (EvSleep n).

(** [for x in xs: body(x)] *)
Fixpoint for_each {A} (xs : list A) (body : A -> M unit) : M unit :=
  match xs with
  | [] => ret tt
  | x :: xs' => body x ;; for_each xs' body
  end.

(** ** Reading the trace *)

Definition is_get (e : event) : bool :=
  match e with EvStacksGet _ => true | _ => false end.
Definition is_create (e : event) : bool :=
  match e with EvStacksCreate _ => true | _ => false end.
Definition is_update (e : event) : bool :=
  match e with EvStacksUpdate _ _ => true | _ => false end.
Definition is_connect_to (h : string) (e : event) : bool :=
  match e with EvSshConnect h' _ _ _ => String.eqb h' h | _ => false end.
Definition is_connect (e : event) : bool :=
  match e with EvSshConnect _ _ _ _ => true | _ => false end.
Definition is_connected_to (h : string) (e : event) : bool :=
  match e with EvSshConnect h' _ _ Connected => String.eqb h' h | _ => false end.

(** A call that leaves the process for the provider or the network. *)
Definition is_provider_call (e : event) : bool :=
  match e with
  | EvKeystoneClient _ | EvUrlFor | EvStacksGet _ | EvStacksCreate _
  | EvStacksUpdate _ _ | EvSshConnect _ _ _ _ => true
  | _ => false
  end.

Definition count (p : event -> bool) (tr : list event) : nat :=
  length (filter p tr).
Arguments count p !tr /.

(** The content of the file at [path] after the writes of [tr], from content
    [init]: mode [w] truncates, mode [a] appends. *)
Fixpoint file_content (path : string) (tr : list event) (init : string) : string :=
  match tr with
  | [] => init
  | EvWrite p mode s :: tr' =>
      if String.eqb p path then
        file_content path tr' (if String.eqb mode "w" then s else init ++ s)
      else file_content path tr' init
  | _ :: tr' => file_content path tr' init
  end.

(** The pieces written to [path], in order, since it was last truncated. *)
Fixpoint file_chunks (path : string) (tr : list event) (acc : list string) : list string :=
  match tr with
  | [] => acc
  | EvWrite p mode s :: tr' =>
      if String.eqb p path then
        file_chunks path tr' (if String.eqb mode "w" then [s] else acc +++ [s])
      else file_chunks path tr' acc
  | _ :: tr' => file_chunks path tr' acc
  end.

(** ** Dictionaries *)

Fixpoint assoc {V} (k : string) (d : list (string * V)) : option V :=
  match d with
  | [] => None
  | (k', v) :: d' => if String.eqb k' k then Some v else assoc k d'
  end.

(** [d[k] = v]: replaces the value of an existing key, else adds the key. *)
Fixpoint dict_set {V} (k : string) (v : V) (d : list (string * V)) : list (string * V) :=
  match d with
  | [] => [(k, v)]
  | (k', v') :: d' =>
      if String.eqb k' k then (k', v) :: d' else (k', v') :: dict_set k v d'
  end.

(** ** [test_ssh] (lines 108-118) *)

Section Program.

Variable w : World.

(** Iteration over a dictionary: its items in the order of [dict_order]. *)
Definition dict_items {V} (d : list (string * V)) : list (string * V) :=
  flat_map (fun k => match assoc k d with Some v => [(k, v)] | None => [] end)
           (dict_order w (map fst d)).

Definition attempts (host : string) (tr : list event) : nat :=
  count (is_connect_to host) tr.

(** [ssh.connect(hostname=host, username=user, key_filename=key_file)] *)
Definition connect (host user key_file : string) : M connect_result :=
  fun tr =>
    let r := ssh_connect w host (attempts host tr) in
    (Ok r, tr +++ [EvSshConnect host user key_file r]).

Definition connect_failed (host : string) (e : client_exc) : M Py.pyval :=
  LOG_debug (exc_text e) ;;
  msg <- fmt (Py.format "Connect to {0} failed. Retrying... " [("0", Py.PyStr host)]) ;;
  LOG_debug msg ;;
  ret Py.PyNone.

Definition test_ssh (host user key_file : string) : M Py.pyval :=
  r <- connect host user key_file ;;
  match r with
  | Connected =>
      msg <- fmt (Py.format "Connect to {0} successfully" [("0", Py.PyStr host)]) ;;
      LOG_debug msg ;;
      ret (Py.PyBool true)
  | BadHostKeyException e | AuthenticationException e
  | SSHException e | socket_error e => connect_failed host e
  | OtherConnectError e => raise (ClientException e)
  end.

(** [while not test_ssh(host, user, key_file): LOG.debug(msg); time.sleep(5)]
    (lines 390-392 and 395-397); [fuel] bounds the number of iterations. *)
Fixpoint wait_ssh (fuel : nat) (host user key_file msg : string) : M unit :=
  match fuel with
  | 0 => out_of_fuel
  | S fuel' =>
      r <- test_ssh host user key_file ;;
      if negb (Py.truthy r) then
        LOG_debug msg ;; sleep 5 ;; wait_ssh fuel' host user key_file msg
      else ret tt
  end.

(** The readiness gate (lines 389-397). *)
Definition readiness_gate (fuel : nat) (floating_ip : Py.pyval)
           (servers : list (string * string)) (user ssh_key_path : string) : M unit :=
  if Py.truthy floating_ip then
    wait_ssh fuel (Py.str floating_ip) user ssh_key_path
             "waiting for SSH connectivity..."
  else
    for_each (map snd (dict_items servers)) (fun ip =>
      msg <- fmt (Py.format "waiting for {} SSH connectivity..." [("", Py.PyStr ip)]) ;;
      wait_ssh fuel ip user ssh_key_path msg).

(** ** [_run_heat] (lines 234-397) *)

(** Lines 235-241. *)
Definition import_heat : M unit :=
  match heat_import w with
  | None => ret tt
  | Some e =>
      LOG_error "You must have python-heatclient in your python path" ;;
      raise (PyException (exc_text e))
  end.

Definition environ_get (k : string) : Py.pyval :=
  match environ w k with Some v => Py.PyStr v | None => Py.PyNone end.

Definition environ_get_default (k : string) (d : Py.pyval) : Py.pyval :=
  match environ w k with Some v => Py.PyStr v | None => d end.

(** The [CREDS] literal, keys in source order (lines 243-253). *)
Definition CREDS_literal : list (string * Py.pyval) :=
  [ ("username", environ_get "OS_USERNAME");
    ("password", environ_get "OS_PASSWORD");
    ("tenant_name",
     environ_get_default "OS_TENANT_NAME" (environ_get "OS_PROJECT_NAME"));
    ("project_name",
     environ_get_default "OS_TENANT_NAME" (environ_get "OS_PROJECT_NAME"));
    ("auth_url", environ_get "OS_AUTH_URL") ].

Definition CREDS : list (string * Py.pyval) := dict_items CREDS_literal.

Definition ex_msg : string :=
  "%s, ensure your environment (probably the stackrc file) is properly "
  ++ "configured with OpenStack credentials".

(** Lines 259-264. *)
Definition check_creds : M unit :=
  if negb (Py.all (map snd CREDS)) then
    match Py.index_none (map snd CREDS) with
    | None => raise (ValueError "None is not in list")
    | Some i =>
        match nth_error (map fst CREDS) i with
        | None => raise (ValueError "list index out of range")
        | Some name =>
            namestr <- fmt (Py.percent "%s is missing" [name]) ;;
            msg <- fmt (Py.percent ex_msg [namestr]) ;;
            raise (OpenStackConfigurationError msg)
        end
    end
  else ret tt.

(** Lines 266-269. *)
Definition stack_name_of (args : Args) : string :=
  if Py.truthy (heat_stack_name args) then Py.str (heat_stack_name args)
  else Py.basename (environment args).

(** Lines 271-277. *)
Definition build_request (args : Args) (hot : string) : M StackRequest :=
  match heat_parameters args with
  | Some (p :: ps) =>
      match format_parameters w (p :: ps) with
      | inr params => ret (mkRequest (stack_name_of args) hot (Some params))
      | inl e => raise (ClientException e)
      end
  | _ => ret (mkRequest (stack_name_of args) hot None)
  end.

(** Lines 279-284. *)
Definition login : M unit :=
  LOG_debug "Logging into heat" ;;
  emit (EvKeystoneClient CREDS) ;;
  match keystone_client w with
  | Some e => raise (ClientException e)
  | None =>
      emit EvUrlFor ;;
      match url_for w with
      | inl e => raise (ClientException e)
      | inr heat_endpoint => emit (EvHeatClient heat_endpoint)
      end
  end.

(** [heatclient.stacks.get(stack_name)]: the answer depends on how many
    [get]s the run has made. *)
Definition stacks_get_call (stack_name : string) : M Stack :=
  fun tr =>
    match stacks_get w (count is_get tr) with
    | inr st => (Ok st, tr +++ [EvStacksGet stack_name])
    | inl e => (Raise (ClientException e), tr +++ [EvStacksGet stack_name])
    end.

(** [try: m except Exception as e: handler(e)] *)
Definition try_except {A} (m : M A) (handler : exn -> M A) : M A :=
  fun tr =>
    match m tr with
    | (Raise e, tr') => handler e tr'
    | r => r
    end.

(** [e.code], for the exception caught at line 291. *)
Definition code_of (e : exn) : option nat :=
  match e with
  | ClientException ce => exc_code ce
  | _ => None
  end.

Definition text_of (e : exn) : string :=
  match e with
  | ClientException ce => exc_text ce
  | OpenStackConfigurationError m | ValueError m | AttributeError m
  | PyException m => m
  | FormatError => ""
  end.

(** The existence check (lines 286-295): [true] when the stack exists,
    [false] when the provider answers 404. *)
Definition stack_lookup (stack_name : string) : M bool :=
  try_except
    (msg <- fmt (Py.percent "Checking for existence of heat stack: %s" [stack_name]) ;;
     LOG_debug msg ;;
     stacks_get_call stack_name ;;
     LOG_debug "Already exists" ;;
     ret true)
    (fun e =>
       match code_of e with
       | None => raise (AttributeError (no_code_text w e))
       | Some c => if Nat.eqb c 404 then ret false
                   else raise (PyException (text_of e))
       end).

(** Lines 297-307: returns [stack_action]. *)
Definition submit (args : Args) (req : StackRequest) (stack_exists : bool) : M string :=
  if andb stack_exists (heat_stack_update args) then
    LOG_debug "Updating stack" ;;
    emit (EvStacksUpdate (req_stack_name req) req) ;;
    match stacks_update w with
    | Some e => raise (ClientException e)
    | None => sleep 5 ;; ret "update"
    end
  else if negb stack_exists then
    LOG_debug "Creating stack" ;;
    emit (EvStacksCreate req) ;;
    match stacks_create w with
    | Some e => raise (ClientException e)
    | None => sleep 5 ;; ret "create"
    end
  else ret "create".

(** The polling loop (lines 309-311). *)
Fixpoint wait_stack (fuel : nat) (stack_name : string) : M unit :=
  match fuel with
  | 0 => out_of_fuel
  | S fuel' =>
      st <- stacks_get_call stack_name ;;
      if String.eqb (status st) "IN_PROGRESS" then
        LOG_debug "Waiting on stack..." ;; sleep 5 ;; wait_stack fuel' stack_name
      else ret tt
  end.

(** Lines 313-318. *)
Definition fetch_stack (stack_name stack_action : string) : M Stack :=
  stack <- stacks_get_call stack_name ;;
  if negb (String.eqb (status stack) "COMPLETE") then
    msg <- fmt (Py.percent "stack %s returned an unexpected status (%s)"
                           [stack_name; status stack]) ;;
    raise (PyException msg)
  else
    msg <- fmt (Py.percent "Stack %sd!" [stack_action]) ;;
    LOG_debug msg ;;
    ret stack.

(** The loop over [stack.outputs] (lines 320-332): the [servers] dictionary,
    [floating_ip] and [private_key]. *)
Fixpoint read_outputs (outs : list (string * string))
         (servers : list (string * string)) (floating_ip private_key : Py.pyval)
  : M (list (string * string) * Py.pyval * Py.pyval) :=
  match outs with
  | [] => ret (servers, floating_ip, private_key)
  | (output_key, output_value) :: outs' =>
      if String.eqb output_key "floating_ip" then
        msg <- fmt (Py.percent "floating_ip : %s" [output_value]) ;;
        LOG_debug msg ;;
        read_outputs outs' servers (Py.PyStr output_value) private_key
      else if String.eqb output_key "private_key" then
        read_outputs outs' servers floating_ip (Py.PyStr output_value)
      else
        msg <- fmt (Py.percent "server : %s (%s) " [output_key; output_value]) ;;
        LOG_debug msg ;;
        read_outputs outs' (dict_set output_key output_value servers)
                     floating_ip private_key
  end.

(** The templates of lines 334-341, 359-362, 369-372 and 374-375. *)
Definition header_template : string :=
  Py.join_lines [""; "Host *"; "  User {user}"; "  ForwardAgent yes";
                 "  UserKnownHostsFile /dev/null"; "  StrictHostKeyChecking no";
                 "  PasswordAuthentication no"; ""].

Definition floating_ip_template : string :=
  Py.join_lines [""; "Host floating_ip"; "  Hostname {floating_ip}"; ""].

Definition server_template : string :=
  Py.join_lines [""; "Host {server}"; "  Hostname {ip}"; ""].

Definition proxy_template : string :=
  "  ProxyCommand ssh -W %h:%p -o StrictHostKeyChecking=no"
  ++ " {user}@{floating_ip}" ++ Py.nl ++ Py.nl.

Definition ssh_key_path_of (args : Args) : string :=
  Py.path_join (environment args) ".ssh_key".

Definition ssh_config_path_of (args : Args) : string :=
  Py.path_join (environment args) ".ssh_config".

(** [_ssh_add] (lines 220-231): [returncode] is read right after [Popen],
    before the process was waited for, so it is [None] and nothing is raised. *)
Definition _ssh_add (keyfile : string) : M unit := emit (EvSshAdd keyfile).

(** [_append_envvar] (lines 83-87), seen from outside. *)
Definition _append_envvar (key value : string) : M unit :=
  emit (EvAppendEnvvar key value).

(** Lines 346-353: the key file and the [IdentityFile] line. *)
Definition write_private_key (args : Args) (private_key : Py.pyval)
           (ssh_config : string) : M string :=
  if Py.truthy private_key then
    msg <- fmt (Py.percent "writing ssh_key to %s" [ssh_key_path_of args]) ;;
    LOG_debug msg ;;
    emit (EvWrite (ssh_key_path_of args) "w" (Py.str private_key)) ;;
    emit (EvChmod (ssh_key_path_of args) 384) ;;
    _ssh_add (ssh_key_path_of args) ;;
    ret (ssh_config ++ "  IdentityFile " ++ ssh_key_path_of args)
  else ret ssh_config.

(** One iteration of the loop of lines 367-379. *)
Definition write_server (args : Args) (floating_ip : Py.pyval)
           (item : string * string) : M unit :=
  let (server, ip) := item in
  let ssh_config_pre :=
    if Py.truthy floating_ip then server_template ++ proxy_template
    else server_template in
  ssh_config <- fmt (Py.format ssh_config_pre
                       [("server", Py.PyStr server); ("ip", Py.PyStr ip);
                        ("user", Py.PyStr (ursula_user args));
                        ("floating_ip", floating_ip)]) ;;
  emit (EvWrite (ssh_config_path_of args) "a" ssh_config).

(** Lines 334-383: the routing document. *)
Definition write_ssh_config (args : Args) (servers : list (string * string))
           (floating_ip private_key : Py.pyval) : M unit :=
  ssh_config <- fmt (Py.format header_template
                       [("user", Py.PyStr (ursula_user args))]) ;;
  ssh_config <- write_private_key args private_key ssh_config ;;
  msg <- fmt (Py.percent "writing ssh_config to %s" [ssh_config_path_of args]) ;;
  LOG_debug msg ;;
  emit (EvWrite (ssh_config_path_of args) "w" ssh_config) ;;
  (if Py.truthy floating_ip then
     ssh_config <- fmt (Py.format floating_ip_template
                          [("floating_ip", floating_ip)]) ;;
     emit (EvWrite (ssh_config_path_of args) "a" ssh_config)
   else ret tt) ;;
  for_each (dict_items servers) (write_server args floating_ip) ;;
  let ansible_ssh_config_file := abspath w (ssh_config_path_of args) in
  if isfile w ansible_ssh_config_file then
    arg <- fmt (Py.percent "-F %s" [ansible_ssh_config_file]) ;;
    _append_envvar "ANSIBLE_SSH_ARGS" arg
  else ret tt.

(** [_run_heat(args, hot)]; [fuel] bounds each of its [while] loops. *)
Definition _run_heat (fuel : nat) (args : Args) (hot : string) : M unit :=
  import_heat ;;
  check_creds ;;
  STACK <- build_request args hot ;;
  login ;;
  stack_exists <- stack_lookup (stack_name_of args) ;;
  stack_action <- submit args STACK stack_exists ;;
  wait_stack fuel (stack_name_of args) ;;
  stack <- fetch_stack (stack_name_of args) stack_action ;;
  out <- read_outputs (outputs stack) [] Py.PyNone Py.PyNone ;;
  let '(servers, floating_ip, private_key) := out in
  write_ssh_config args servers floating_ip private_key ;;
  LOG_debug "waiting for SSH connectivity..." ;;
  readiness_gate fuel floating_ip servers (ursula_user args) (ssh_key_path_of args).

End Program.

(** ** The pure content of the loops *)

(** What [read_outputs] computes, without its log lines. *)
Fixpoint servers_of (outs : list (string * string))
         (servers : list (string * string)) : list (string * string) :=
  match outs with
  | [] => servers
  | (k, v) :: outs' =>
      if String.eqb k "floating_ip" then servers_of outs' servers
      else if String.eqb k "private_key" then servers_of outs' servers
      else servers_of outs' (dict_set k v servers)
  end.

Fixpoint floating_ip_of (outs : list (string * string)) (acc : Py.pyval) : Py.pyval :=
  match outs with
  | [] => acc
  | (k, v) :: outs' =>
      floating_ip_of outs' (if String.eqb k "floating_ip" then Py.PyStr v else acc)
  end.

Fixpoint private_key_of (outs : list (string * string)) (acc : Py.pyval) : Py.pyval :=
  match outs with
  | [] => acc
  | (k, v) :: outs' =>
      private_key_of outs'
        (if String.eqb k "floating_ip" then acc
         else if String.eqb k "private_key" then Py.PyStr v else acc)
  end.

(** The blocks of the routing document: the templates of lines 334-341,
    359-362, 369-372 and 374-375 with their fields filled in. *)
Definition default_block (user : string) (identity : option string) : string :=
  Py.nl ++ "Host *" ++ Py.nl
  ++ "  User " ++ user ++ Py.nl
  ++ "  ForwardAgent yes" ++ Py.nl
  ++ "  UserKnownHostsFile /dev/null" ++ Py.nl
  ++ "  StrictHostKeyChecking no" ++ Py.nl
  ++ "  PasswordAuthentication no" ++ Py.nl
  ++ match identity with
     | Some key => "  IdentityFile " ++ key
     | None => ""
     end.

Definition gateway_block (floating_ip : string) : string :=
  Py.nl ++ "Host floating_ip" ++ Py.nl
  ++ "  Hostname " ++ floating_ip ++ Py.nl.

Definition direct_block (item : string * string) : string :=
  Py.nl ++ "Host " ++ fst item ++ Py.nl
  ++ "  Hostname " ++ snd item ++ Py.nl.

Definition proxy_directive (user floating_ip : string) : string :=
  "  ProxyCommand ssh -W %h:%p -o StrictHostKeyChecking=no "
  ++ user ++ "@" ++ floating_ip ++ Py.nl ++ Py.nl.

Definition proxied_block (user floating_ip : string) (item : string * string) : string :=
  direct_block item ++ proxy_directive user floating_ip.

(** ** The run in stages *)

(** Everything up to and including the login (lines 235-284). *)
Definition prelude (w : World) (args : Args) (hot : string) : M StackRequest :=
  import_heat w ;;
  check_creds w ;;
  STACK <- build_request w args hot ;;
  login w ;;
  ret STACK.

(** Everything after the stack was fetched (lines 320-397). *)
Definition configure (w : World) (fuel : nat) (args : Args) (stack : Stack) : M unit :=
  out <- read_outputs (outputs stack) [] Py.PyNone Py.PyNone ;;
  let '(servers, floating_ip, private_key) := out in
  write_ssh_config w args servers floating_ip private_key ;;
  LOG_debug "waiting for SSH connectivity..." ;;
  readiness_gate w fuel floating_ip servers (ursula_user args) (ssh_key_path_of args).

(** Everything after the submission (lines 309-397). *)
Definition complete (w : World) (fuel : nat) (args : Args) (stack_action : string) : M unit :=
  wait_stack w fuel (stack_name_of args) ;;
  stack <- fetch_stack w (stack_name_of args) stack_action ;;
  configure w fuel args stack.

(** ** Kinds of events, and what a piece of code may emit *)

Definition k_log (e : event) : bool :=
  match e with EvLog _ _ | EvSleep _ => true | _ => false end.
Definition k_auth (e : event) : bool :=
  match e with EvKeystoneClient _ | EvUrlFor | EvHeatClient _ => true | _ => false end.
Definition k_file (e : event) : bool :=
  match e with
  | EvWrite _ _ _ | EvChmod _ _ | EvSshAdd _ | EvAppendEnvvar _ _ => true
  | _ => false
  end.

Definition k_prelude (e : event) : bool := k_log e || k_auth e.
Definition k_poll (e : event) : bool := k_log e || is_get e.
Definition k_submit (e : event) : bool := k_log e || is_create e || is_update e.
Definition k_config (e : event) : bool := k_log e || k_file e.
Definition k_gate (e : event) : bool := k_log e || is_connect e.
Definition k_after_submit (e : event) : bool :=
  k_log e || is_get e || k_file e || is_connect e.

(** [m] only appends to the trace, and only events of kind [q]. *)
Definition emits (q : event -> bool) {A} (m : M A) : Prop :=
  forall tr, exists es, snd (m tr) = tr +++ es /\ forallb q es = true.

(** [test_ssh] returns [None]: [ssh.connect] raised one of the four
    exceptions of line 115. *)
Definition probe_fails (r : connect_result) : bool :=
  match r with
  | BadHostKeyException _ | AuthenticationException _
  | SSHException _ | socket_error _ => true
  | _ => false
  end.

(** The identity file named in the default block: the key path when the
    stack returned a private key. *)
Definition identity_of (args : Args) (private_key : Py.pyval) : option string :=
  if Py.truthy private_key then Some (ssh_key_path_of args) else None.

(** The routing document [_run_heat] leaves behind for the outputs [outs]:
    the pieces written to the [.ssh_config] of the environment. *)
Definition routing_document (w : World) (args : Args) (outs : list (string * string))
  : list string :=
  file_chunks (ssh_config_path_of args)
    (snd (write_ssh_config w args (servers_of outs []) (floating_ip_of outs Py.PyNone)
            (private_key_of outs Py.PyNone) []))
    [].

(** The addresses of the connection attempts of a trace, in order. *)
Definition probed (tr : list event) : list string :=
  flat_map (fun e => match e with EvSshConnect h _ _ _ => [h] | _ => [] end) tr.

(** The text of a file written piece by piece. *)
Definition flatten (xs : list string) : string := fold_right append "" xs.

(** The output keys that are not reserved. *)
Definition reserved (k : string) : bool :=
  String.eqb k "floating_ip" || String.eqb k "private_key".

Definition host_keys (outs : list (string * string)) : list string :=
  filter (fun k => negb (reserved k)) (map fst outs).

(** The required credential fields, as [CREDS] names them. *)
Definition cred_keys : list string :=
  ["username"; "password"; "tenant_name"; "project_name"; "auth_url"].

(** A required credential is missing: its environment variable is unset. *)
Definition missing_credential (w : World) : Prop :=
  environ w "OS_USERNAME" = None \/
  environ w "OS_PASSWORD" = None \/
  (environ w "OS_TENANT_NAME" = None /\ environ w "OS_PROJECT_NAME" = None) \/
  environ w "OS_AUTH_URL" = None.

(** The message of lines 255-264 for the field [name]. *)
Definition config_error_text (name : string) : string :=
  (name ++ " is missing")
  ++ ", ensure your environment (probably the stackrc file) is properly "
  ++ "configured with OpenStack credentials".

(** The message of lines 315-316. *)
Definition unexpected_status_text (name st : string) : string :=
  "stack " ++ name ++ " returned an unexpected status (" ++ st ++ ")".

(** The block written for one server: proxied through the floating ip when
    there is one (lines 373-375). *)
Definition server_block (user : string) (floating_ip : Py.pyval)
           (item : string * string) : string :=
  if Py.truthy floating_ip then proxied_block user (Py.str floating_ip) item
  else direct_block item.

(** The events of lines 346-353. *)
Definition key_events (args : Args) (private_key : Py.pyval) : list event :=
  if Py.truthy private_key then
    [EvLog "DEBUG" ("writing ssh_key to " ++ ssh_key_path_of args);
     EvWrite (ssh_key_path_of args) "w" (Py.str private_key);
     EvChmod (ssh_key_path_of args) 384;
     EvSshAdd (ssh_key_path_of args)]
  else [].

(** The events of lines 334-383, in order. *)
Definition routing_events (w : World) (args : Args) (servers : list (string * string))
           (floating_ip private_key : Py.pyval) : list event :=
  let cfg := ssh_config_path_of args in
  key_events args private_key
  +++ [EvLog "DEBUG" ("writing ssh_config to " ++ cfg);
       EvWrite cfg "w" (default_block (ursula_user args) (identity_of args private_key))]
  +++ (if Py.truthy floating_ip
       then [EvWrite cfg "a" (gateway_block (Py.str floating_ip))] else [])
  +++ map (fun item => EvWrite cfg "a" (server_block (ursula_user args) floating_ip item))
          (dict_items w servers)
  +++ (if isfile w (abspath w cfg)
       then [EvAppendEnvvar "ANSIBLE_SSH_ARGS" ("-F " ++ abspath w cfg)] else []).

(** The shape claimed for a document with a floating ip [v]: the default
    block, the gateway block for [v], then host blocks that all proxy through
    [user] at [v]. *)
Definition gateway_and_proxies (user v : string) (doc : list string) : Prop :=
  exists identity hosts,
    doc = default_block user identity :: gateway_block v
          :: map (proxied_block user v) hosts.

(** The events of one failed and of the successful attempt of [wait_ssh]. *)
Definition connect_exc_text (r : connect_result) : string :=
  match r with
  | Connected => ""
  | BadHostKeyException e | AuthenticationException e | SSHException e
  | socket_error e | OtherConnectError e => exc_text e
  end.

Definition failed_attempt (host user key_file msg : string) (r : connect_result)
  : list event :=
  [EvSshConnect host user key_file r;
   EvLog "DEBUG" (connect_exc_text r);
   EvLog "DEBUG" ("Connect to " ++ host ++ " failed. Retrying... ");
   EvLog "DEBUG" msg;
   EvSleep 5].

Definition successful_attempt (host user key_file : string) : list event :=
  [EvSshConnect host user key_file Connected;
   EvLog "DEBUG" ("Connect to " ++ host ++ " successfully")].

(** The events of [n] failed attempts in a row, the first being attempt
    number [a] on that host. *)
Fixpoint failed_attempts (w : World) (host user key msg : string) (a n : nat) : list event :=
  match n with
  | 0 => []
  | S n' => failed_attempt host user key msg (ssh_connect w host a)
            +++ failed_attempts w host user key msg (S a) n'
  end.

Definition is_sleep (e : event) : bool :=
  match e with EvSleep _ => true | _ => false end.

(** ** Sample surroundings, for concrete runs *)

Definition sample_env : list (string * string) :=
  [("OS_USERNAME", "admin"); ("OS_PASSWORD", "secret");
   ("OS_TENANT_NAME", "demo"); ("OS_AUTH_URL", "http://keystone:5000/v3")].

Definition sample_world (env : list (string * string))
           (gets : nat -> client_exc + Stack)
           (ssh : string -> nat -> connect_result) : World :=
  {| environ := fun k => assoc k env;
     heat_import := None;
     dict_order := fun ks => ks;
     format_parameters := fun _ => inr [];
     keystone_client := None;
     url_for := inr "http://heat:8004/v1";
     stacks_get := gets;
     stacks_create := None;
     stacks_update := None;
     ssh_connect := ssh;
     abspath := fun p => "/srv/" ++ p;
     isfile := fun _ => true;
     no_code_text := fun _ => "'ConnectionError' object has no attribute 'code'" |}.

Definition not_found : client_exc := mkExc (Some 404) "The Stack could not be found.".

Definition always_connected : string -> nat -> connect_result :=
  fun _ _ => Connected.

Definition sample_args (update : bool) : Args :=
  mkArgs "envs/test" Py.PyNone update None "ops".

(** The outputs of the scenario: two nodes behind a floating ip. *)
Definition scenario_outputs : list (string * string) :=
  [("node1", "10.0.0.5"); ("node2", "10.0.0.6"); ("floating_ip", "203.0.113.9")].

Definition direct_outputs : list (string * string) :=
  [("node1", "10.0.0.5"); ("node2", "10.0.0.6")].

(** Outputs whose [floating_ip] is present and empty. *)
Definition empty_ip_outputs : list (string * string) :=
  [("node1", "10.0.0.5"); ("floating_ip", "")].

Definition plain_world : World :=
  sample_world sample_env (fun _ => inl not_found) always_connected.



Definition complete_stack : Stack := mkStack "COMPLETE" scenario_outputs.
Definition in_progress_stack : Stack := mkStack "IN_PROGRESS" [].
Definition failed_stack : Stack := mkStack "FAILED" [].

(** The stack is absent at the lookup and complete afterwards. *)
Definition absent_world : World :=
  sample_world sample_env
    (fun n => match n with 0 => inl not_found | _ => inr complete_stack end)
    always_connected.

(** The stack exists and is complete. *)
Definition existing_world : World :=
  sample_world sample_env (fun _ => inr complete_stack) always_connected.

(** Absent at the lookup, then IN_PROGRESS twice, then COMPLETE. *)
Definition polling_world : World :=
  sample_world sample_env
    (fun n => match n with
              | 0 => inl not_found
              | 1 | 2 => inr in_progress_stack
              | _ => inr complete_stack
              end)
    always_connected.

(** The stack exists and has failed. *)
Definition failed_world : World :=
  sample_world sample_env (fun _ => inr failed_stack) always_connected.

(** [OS_PASSWORD] is not set. *)
Definition no_password_world : World :=
  sample_world
    [("OS_USERNAME", "admin"); ("OS_TENANT_NAME", "demo");
     ("OS_AUTH_URL", "http://keystone:5000/v3")]
    (fun _ => inl not_found) always_connected.

(** [OS_PASSWORD] is set to the empty string. *)
Definition empty_password_world : World :=
  sample_world
    [("OS_USERNAME", "admin"); ("OS_PASSWORD", ""); ("OS_TENANT_NAME", "demo");
     ("OS_AUTH_URL", "http://keystone:5000/v3")]
    (fun _ => inl not_found) always_connected.

(** The trace of a run after the prelude, after the lookup and after the
    submission. *)
Definition after_prelude (w : World) (args : Args) (hot : string) : list event :=
  snd (prelude w args hot []).

Definition after_lookup (w : World) (args : Args) (hot : string) : list event :=
  snd (stack_lookup w (stack_name_of args) (after_prelude w args hot)).

Definition after_submit (w : World) (args : Args) (hot : string)
           (stack_exists : bool) : list event :=
  snd (submit w args (mkRequest (stack_name_of args) hot None) stack_exists
         (after_lookup w args hot)).

(** ** Further readings of the heat run *)

(** The value of the last entry of [outs] with key [k]. *)
Fixpoint last_value (k : string) (outs : list (string * string)) : option string :=
  match outs with
  | [] => None
  | (k', v) :: outs' =>
      match last_value k outs' with
      | Some v' => Some v'
      | None => if String.eqb k' k then Some v else None
      end
  end.

(** What every event of a run has in common: the provider is asked about
    one stack only, every connection is made as the operator user with the
    key file of the environment, and the files touched are the two files of
    the environment. *)
Definition event_of_run (args : Args) (e : event) : bool :=
  match e with
  | EvStacksGet name => String.eqb name (stack_name_of args)
  | EvStacksCreate req => String.eqb (req_stack_name req) (stack_name_of args)
  | EvStacksUpdate name req =>
      String.eqb name (stack_name_of args)
      && String.eqb (req_stack_name req) (stack_name_of args)
  | EvSshConnect _ user key_file _ =>
      String.eqb user (ursula_user args) && String.eqb key_file (ssh_key_path_of args)
  | EvWrite path _ _ =>
      String.eqb path (ssh_key_path_of args) || String.eqb path (ssh_config_path_of args)
  | EvChmod path _ => String.eqb path (ssh_key_path_of args)
  | EvSshAdd path => String.eqb path (ssh_key_path_of args)
  | _ => true
  end.

(** The stack never leaves IN_PROGRESS. *)
Definition stuck_world : World :=
  sample_world sample_env (fun _ => inr in_progress_stack) always_connected.

(** No host ever answers. *)
Definition never_connected : string -> nat -> connect_result :=
  fun _ _ => socket_error (mkExc None "Connection refused").

Definition unreachable_world : World :=
  sample_world sample_env (fun _ => inl not_found) never_connected.

(** The key file cannot be read on the second attempt. *)
Definition key_error : client_exc := mkExc None "No such file or directory".

Definition broken_key_world : World :=
  sample_world sample_env (fun _ => inl not_found)
    (fun _ n => match n with
                | 0 => socket_error (mkExc None "Connection refused")
                | _ => OtherConnectError key_error
                end).

Definition forbidden : client_exc := mkExc (Some 403) "Forbidden".

(** The provider refuses the lookup. *)
Definition forbidden_world : World :=
  sample_world sample_env (fun _ => inl forbidden) always_connected.

(** The provider refuses to create the stack. *)
Definition rejecting_world : World :=
  {| environ := fun k => assoc k sample_env;
     heat_import := None;
     dict_order := fun ks => ks;
     format_parameters := fun _ => inr [];
     keystone_client := None;
     url_for := inr "http://heat:8004/v1";
     stacks_get := fun _ => inl not_found;
     stacks_create := Some forbidden;
     stacks_update := None;
     ssh_connect := always_connected;
     abspath := fun p => "/srv/" ++ p;
     isfile := fun _ => true;
     no_code_text := fun _ => "'ConnectionError' object has no attribute 'code'" |}.

(** Keystone refuses the login. *)
Definition unauthorized_world : World :=
  {| environ := fun k => assoc k sample_env;
     heat_import := None;
     dict_order := fun ks => ks;
     format_parameters := fun _ => inr [];
     keystone_client := Some (mkExc (Some 401) "Unauthorized");
     url_for := inr "http://heat:8004/v1";
     stacks_get := fun _ => inr complete_stack;
     stacks_create := None;
     stacks_update := None;
     ssh_connect := always_connected;
     abspath := fun p => "/srv/" ++ p;
     isfile := fun _ => true;
     no_code_text := fun _ => "'ConnectionError' object has no attribute 'code'" |}.

(** Outputs that name [node1] twice. *)
Definition repeated_outputs : list (string * string) :=
  [("node1", "10.0.0.5"); ("node2", "10.0.0.6"); ("node1", "10.0.0.7")].






(** ** The rest of [shell.py]: environment, subprocesses, [run] and [main]

    The code outside [_run_heat] is written in a second monad, over the
    environment of the process and the list of what it has done.  The file
    system, the subprocesses and the installed ansible are oracles of a
    [Host], which answer the same throughout a run.  Creating a directory,
    touching the log file, opening a file for reading or writing and
    starting a process are taken to succeed; loading the vagrant settings
    and [shutil.copy2] can raise, and the recursion of
    [_vagrant_ssh_config] is stopped by the recursion limit of the
    interpreter. *)

From Stdlib Require Import ZArith.

Module Shell.

(** *** [os.environ] and the functions that change it (lines 83-105) *)

Definition Env : Type := list (string * string).

(** [os.environ[key] = value] *)
Definition env_set (key value : string) (env : Env) : Env := dict_set key value env.

(** The body of [_append_envvar]: the old value, a space and the new one
    when the key is set, the new value alone when it is not. *)
Definition env_append (key value : string) (env : Env) : Env :=
  match assoc key env with
  | Some old => env_set key (old ++ " " ++ value) env
  | None => env_set key value env
  end.

(** *** Strings *)

(** [s.rstrip(chars)]: [s] without its trailing characters in [p]. *)
Fixpoint rstrip_chars (p : ascii -> bool) (s : string) : string :=
  match s with
  | EmptyString => EmptyString
  | String c rest =>
      match rstrip_chars p rest with
      | EmptyString => if p c then EmptyString else String c EmptyString
      | r => String c r
      end
  end.

Definition is_char (c : ascii) : ascii -> bool := Ascii.eqb c.

(** The whitespace of [str.rstrip()]: space, tab, newline, return, vertical
    tab and form feed. *)
Definition is_space (c : ascii) : bool :=
  let n := nat_of_ascii c in
  Nat.eqb n 32 || (Nat.leb 9 n && Nat.leb n 13).

Definition rstrip : string -> string := rstrip_chars is_space.

(** [sep.join(xs)] *)
Fixpoint join (sep : string) (xs : list string) : string :=
  match xs with
  | [] => ""
  | [x] => x
  | x :: xs' => x ++ sep ++ join sep xs'
  end.

(** *** The surroundings of the process *)

(** A finished subprocess: the lines of its output and its exit status. *)
Record process : Type := mkProcess {
  stdout : list string;
  exit_status : Z
}.

(** What the process does to its surroundings, in program order.  [Popen]
    and [PopenShell] carry the copy of the environment the child is given. *)
Inductive act : Type :=
| Makedirs (path : string)
| Touch (path : string)
| Popen (command : list string) (child_env : Env)
| PopenShell (command : string) (child_env : Env)
| Print (line : string)
| Log (level msg : string)
| LogCommand (fmt command : string) (env : Env)
| LoggerInit (level : string)
| Sleep (seconds : nat)
| OpenWrite (path : string)
| FileWrite (path text : string)
| Copy2 (src dst : string)
| Heat (e : event).

(** The oracles of one invocation.  [popen n command] is the process started
    as the [n]-th of the run; [yaml_vms path] stands for
    [yaml.load(open(path))['vms'].keys()]; [copy2 src dst] is the exception
    of [shutil.copy2], if any; [environ_str] is [str(os.environ)];
    [cfg_log_path] stands for the [log_path]
    of [ansible.cfg], [None] when the option or its section is missing;
    [heat] holds the oracles of the heat run.  The interpreter bounds the
    depth of recursion: [recursion_room] is the number of levels of
    [_vagrant_ssh_config] it lets run in full, [recursion_error] the
    [RuntimeError] it raises on the next level, and [overflow_acts] how far
    that level gets before it is raised. *)
Record Host : Type := mkHost {
  path_exists : string -> bool;
  path_isfile : string -> bool;
  path_abspath : string -> string;
  expanduser : string -> string;
  file_text : string -> string;
  popen : nat -> list string -> process;
  popen_shell : nat -> string -> process;
  yaml_vms : string -> client_exc + list string;
  copy2 : string -> string -> option client_exc;
  environ_str : Env -> string;
  cfg_log_path : Py.pyval;
  ansible_version : string;
  heat : World;
  recursion_room : nat;
  recursion_error : client_exc;
  overflow_acts : nat
}.

(** The state of the process: its environment and what it has done. *)
Record state : Type := mkState {
  os_environ : Env;
  acts : list act
}.

Definition Sh (A : Type) : Type := state -> result A * state.

Definition sret {A} (a : A) : Sh A := fun st => (Ok a, st).

Definition sbind {A B} (m : Sh A) (k : A -> Sh B) : Sh B :=
  fun st =>
    match m st with
    | (Ok a, st') => k a st'
    | (Raise e, st') => (Raise e, st')
    | (OutOfFuel, st') => (OutOfFuel, st')
    end.

Definition sraise {A} (e : exn) : Sh A := fun st => (Raise e, st).
Definition sout_of_fuel {A} : Sh A := fun st => (OutOfFuel, st).

Definition do (a : act) : Sh unit :=
  fun st => (Ok tt, mkState (os_environ st) (acts st +++ [a])).

Definition get_environ : Sh Env := fun st => (Ok (os_environ st), st).

Definition modify_environ (f : Env -> Env) : Sh unit :=
  fun st => (Ok tt, mkState (f (os_environ st)) (acts st)).

Notation "x <~ m ;; k" := (sbind m (fun x => k))
  (at level 61, m at next level, right associativity).
Notation "m ;;; k" := (sbind m (fun _ => k))
  (at level 61, right associativity).

(** [for x in xs: body(x)] *)
Fixpoint sfor {A} (xs : list A) (body : A -> Sh unit) : Sh unit :=
  match xs with
  | [] => sret tt
  | x :: xs' => body x ;;; sfor xs' body
  end.

(** [_set_envvar] (lines 90-91) and [_append_envvar] (lines 83-87). *)
Definition _set_envvar (key value : string) : Sh unit := modify_environ (env_set key value).
Definition _append_envvar (key value : string) : Sh unit := modify_environ (env_append key value).

Definition is_popen (a : act) : bool :=
  match a with Popen _ _ | PopenShell _ _ => true | _ => false end.

(** The processes started so far with [subprocess.Popen] whose output the
    code reads, which are all of them but the [ssh-add] of the heat run; the
    [popen] oracles are asked for the [n]-th of them. *)
Definition started (st : state) : nat := length (filter is_popen (acts st)).

(** [subprocess.Popen(command, env=os.environ.copy(), shell=False, ...)] *)
Definition Popen_call (h : Host) (command : list string) : Sh process :=
  fun st =>
    (Ok (popen h (started st) command),
     mkState (os_environ st) (acts st +++ [Popen command (os_environ st)])).

(** [subprocess.Popen(command, env=os.environ.copy(), shell=True, ...)] *)
Definition Popen_shell_call (h : Host) (command : string) : Sh process :=
  fun st =>
    (Ok (popen_shell h (started st) command),
     mkState (os_environ st) (acts st +++ [PopenShell command (os_environ st)])).

(** [for line in iter(proc.stdout.readline, b''): print line.rstrip()] *)
Definition print_output (proc : process) : Sh unit :=
  sfor (stdout proc) (fun line => do (Print (rstrip line))).

(** [_set_default_env] (lines 94-105). *)
Definition _set_default_env (h : Host) : Sh unit :=
  let cm_path := expanduser h "~/.ssh/controlmasters" in
  (if negb (path_exists h cm_path) then do (Makedirs cm_path) else sret tt) ;;;
  _set_envvar "PYTHONUNBUFFERED" "1" ;;;
  _set_envvar "PYTHONIOENCODING" "UTF-8" ;;;
  _set_envvar "ANSIBLE_FORCE_COLOR" "yes" ;;;
  _append_envvar "ANSIBLE_SSH_ARGS" "-o ControlMaster=auto" ;;;
  _append_envvar "ANSIBLE_SSH_ARGS" "-o ControlPath=~/.ssh/controlmasters/u-%r@%h:%p" ;;;
  _append_envvar "ANSIBLE_SSH_ARGS" "-o ControlPersist=300".

(** The command of [_run_ansible] (lines 123-136). *)
Definition ansible_command (inventory playbook user module_path : string)
           (sudo : bool) (extra_args : list string) : list string :=
  ["ansible-playbook"; "--inventory-file"; inventory; "--user"; user;
   "--module-path"; module_path; playbook]
  +++ (if sudo then ["--become"; "--become-method"; "sudo"] else [])
  +++ extra_args.

(** [_run_ansible] (lines 121-148): the exit status of the playbook run. *)
Definition _run_ansible (h : Host) (inventory playbook user module_path : string)
           (sudo : bool) (extra_args : list string) : Sh Z :=
  let command := ansible_command inventory playbook user module_path sudo extra_args in
  env <~ get_environ ;;
  do (LogCommand "Running command: %s with environment: %s" (join " " command) env) ;;;
  proc <~ Popen_call h command ;;
  print_output proc ;;;
  sret (exit_status proc).

(** The command of [_run_module] (lines 154-170). *)
Definition module_command (inventory module module_args module_hosts user
                           module_path : string)
           (sudo : bool) (extra_args : list string) : option (list string) :=
  option_map
    (fun args =>
       ["ansible"; module_hosts; "--inventory-file"; inventory;
        "--module-name"; module; "--user"; user; "--module-path"; module_path]
       +++ (if sudo then ["--become"; "--become-method"; "sudo"] else [])
       +++ extra_args
       +++ [args])
    (Py.format "--args='{}'" [("", Py.PyStr module_args)]).

(** [_run_module] (lines 151-183): the command goes to the shell as one
    string. *)
Definition _run_module (h : Host) (inventory module module_args module_hosts user
                        module_path : string)
           (sudo : bool) (extra_args : list string) : Sh Z :=
  match module_command inventory module module_args module_hosts user module_path
                       sudo extra_args with
  | None => sraise FormatError
  | Some command =>
      env <~ get_environ ;;
      do (LogCommand "Running command: %s with environment: %s" (join " " command) env) ;;;
      proc <~ Popen_shell_call h (join " " command) ;;
      print_output proc ;;;
      sret (exit_status proc)
  end.

(** *** Vagrant (lines 186-217 and 400-449) *)

(** [proc.returncode] of a [Popen] object on which neither [poll], [wait]
    nor [communicate] was called: the attribute is still [None]. *)
Definition returncode_unwaited : Py.pyval := Py.PyNone.

Definition sfmt (o : option string) : Sh string :=
  match o with Some s => sret s | None => sraise FormatError end.

Definition get_acts : Sh (list act) := fun st => (Ok (acts st), st).

(** What was written to [path] since it was last opened for writing. *)
Fixpoint file_written (path : string) (tr : list act) (acc : string) : string :=
  match tr with
  | [] => acc
  | OpenWrite p :: tr' =>
      file_written path tr' (if String.eqb p path then "" else acc)
  | FileWrite p text :: tr' =>
      file_written path tr' (if String.eqb p path then acc ++ text else acc)
  | _ :: tr' => file_written path tr' acc
  end.

Definition vagrant_ssh_config_file (h : Host) (environment : string) : string :=
  path_abspath h (Py.path_join environment ".ssh_config").

(** The loop of lines 190-206 for one box. *)
Definition write_box (h : Host) (ssh_config_file box : string) : Sh unit :=
  proc <~ Popen_call h ["vagrant"; "ssh-config"; box] ;;
  sfor (stdout proc) (fun line =>
    text <~ sfmt (Py.percent ("%s" ++ Py.nl) [rstrip line]) ;;
    do (FileWrite ssh_config_file text)) ;;;
  if Py.truthy returncode_unwaited then
    msg <~ sfmt (Py.percent "Failed to write SSH config to %s" [ssh_config_file]) ;;
    sraise (PyException msg)
  else sret tt.

(** Lines 189-212 of one level of [_vagrant_ssh_config], without the call
    of line 213: [true] when the level goes on to call itself. *)
Definition ssh_config_round (h : Host) (ssh_config_file : string) (boxes : list string)
  : Sh bool :=
  do (OpenWrite ssh_config_file) ;;;
  sfor boxes (write_box h ssh_config_file) ;;;
  tr <~ get_acts ;;
  if Py.contains "not yet ready for SSH" (file_written ssh_config_file tr "") then
    do (Log "DEBUG" "waiting for Vagrant to be ready for SSH") ;;;
    do (Sleep 5) ;;;
    sret true
  else sret false.

(** The level on which the recursion limit strikes.  The [RuntimeError]
    is raised by one of the calls the level makes, at the latest by the
    call of line 213: of what the level would do up to there, it does the
    first [overflow_acts h] things, and raises.  A level that is through
    before that point, and does not call itself, ends as any other. *)
Definition overflow_level (h : Host) (ssh_config_file : string) (boxes : list string)
           (finish : Sh Z) : Sh Z :=
  fun st =>
    match ssh_config_round h ssh_config_file boxes st with
    | (Ok waits, st') =>
        let done := skipn (length (acts st)) (acts st') in
        if negb waits && Nat.leb (length done) (overflow_acts h) then finish st'
        else (Raise (ClientException (recursion_error h)),
              mkState (os_environ st) (acts st +++ firstn (overflow_acts h) done))
    | (Raise e, st') => (Raise e, st')
    | (OutOfFuel, st') => (OutOfFuel, st')
    end.

(** [_vagrant_ssh_config] (lines 186-217), with room for [room] levels of
    its recursion. *)
Fixpoint _vagrant_ssh_config (h : Host) (room : nat) (environment : string)
         (boxes : list string) : Sh Z :=
  match room with
  | 0 =>
      let ssh_config_file := vagrant_ssh_config_file h environment in
      overflow_level h ssh_config_file boxes
        (arg <~ sfmt (Py.percent "-F %s" [ssh_config_file]) ;;
         _append_envvar "ANSIBLE_SSH_ARGS" arg ;;;
         sret 0%Z)
  | S room' =>
      let ssh_config_file := vagrant_ssh_config_file h environment in
      do (OpenWrite ssh_config_file) ;;;
      sfor boxes (write_box h ssh_config_file) ;;;
      tr <~ get_acts ;;
      (if Py.contains "not yet ready for SSH" (file_written ssh_config_file tr "") then
         do (Log "DEBUG" "waiting for Vagrant to be ready for SSH") ;;;
         do (Sleep 5) ;;;
         _vagrant_ssh_config h room' environment boxes ;;;
         sret tt
       else sret tt) ;;;
      arg <~ sfmt (Py.percent "-F %s" [ssh_config_file]) ;;
      _append_envvar "ANSIBLE_SSH_ARGS" arg ;;;
      sret 0%Z
  end.

(** [_vagrant_copy_yml] (lines 400-403). *)
Definition _vagrant_copy_yml (h : Host) (environment : string) : Sh unit :=
  src <~ sfmt (Py.percent "%s/vagrant.yml" [environment]) ;;
  do (Copy2 src ".vagrant/vagrant.yml") ;;;
  match copy2 h src ".vagrant/vagrant.yml" with
  | Some e => sraise (ClientException e)
  | None => sret tt
  end.

(** [yaml.load(open(path, 'r'))] and the keys of its [vms]. *)
Definition load_vms (h : Host) (path : string) : Sh (list string) :=
  match yaml_vms h path with
  | inr vms => sret vms
  | inl e => sraise (ClientException e)
  end.

(** [_run_vagrant] (lines 406-449). *)
Definition _run_vagrant (h : Host) (environment : string) : Sh Z :=
  vagrant_config_file <~ sfmt (Py.percent "%s/vagrant.yml" [environment]) ;;
  vms <~ (if path_isfile h vagrant_config_file then
            _set_envvar "SETTINGS_FILE" vagrant_config_file ;;;
            load_vms h vagrant_config_file
          else load_vms h "vagrant.yml") ;;
  let command := ["vagrant"; "up"; "--no-provision"] +++ vms in
  env <~ get_environ ;;
  do (LogCommand ("Running command: %s" ++ Py.nl ++ "Envs:%s") (join " " command) env) ;;;
  proc <~ Popen_call h command ;;
  print_output proc ;;;
  if Py.truthy returncode_unwaited then
    env <~ get_environ ;;
    msg <~ sfmt (Py.percent "Failed to run %s with environment: %s"
                            [join " " command; environ_str h env]) ;;
    sraise (PyException msg)
  else
    do (Print "**************************************************") ;;;
    do (Print "Ursula <3 Vagrant") ;;;
    do (Print "To interact with your environment via Vagrant set:") ;;;
    line <~ sfmt (Py.percent "$ export SETTINGS_FILE=%s" [vagrant_config_file]) ;;
    do (Print line) ;;;
    do (Print "**************************************************") ;;;
    rc <~ _vagrant_ssh_config h (recursion_room h) environment vms ;;
    if negb (Z.eqb rc 0) then sret rc else sret 0%Z.

(** *** The version check (lines 73-80), with [distutils]' [LooseVersion] *)

(** A component of a parsed version: a number or a string. *)
Inductive component : Type :=
| CInt (n : nat)
| CStr (s : string).

(** The classes of [component_re]: digits, lower-case letters, the dot, and
    the text between matches. *)
Inductive char_class : Type := Digit | Lower | Dot | Other.

Definition classify (c : ascii) : char_class :=
  let n := nat_of_ascii c in
  if Nat.leb 48 n && Nat.leb n 57 then Digit
  else if Nat.leb 97 n && Nat.leb n 122 then Lower
  else if Nat.eqb n 46 then Dot
  else Other.

Definition same_class (a b : char_class) : bool :=
  match a, b with
  | Digit, Digit | Lower, Lower | Other, Other => true
  | _, _ => false
  end.

(** [int(s)] for a run of digits, most significant first. *)
Fixpoint int_of_digits (acc : nat) (s : string) : nat :=
  match s with
  | EmptyString => acc
  | String c rest => int_of_digits (10 * acc + (nat_of_ascii c - 48)) rest
  end.

(** The component made of a finished run; the dot and the empty string are
    filtered out. *)
Definition component_of (k : char_class) (run : string) : list component :=
  match run with
  | EmptyString => []
  | _ => match k with
         | Digit => [CInt (int_of_digits 0 run)]
         | Dot => []
         | _ => [CStr run]
         end
  end.

(** [LooseVersion.parse]: [component_re.split], the filter and [int].
    [k] and [run] are the class and the text of the run being read. *)
Fixpoint parse_from (s : string) (k : char_class) (run : string) : list component :=
  match s with
  | EmptyString => component_of k run
  | String c rest =>
      if same_class (classify c) k then parse_from rest k (run ++ String c "")
      else component_of k run +++ parse_from rest (classify c) (String c "")
  end.

Definition parse_version (vstring : string) : list component :=
  parse_from vstring Dot "".

(** [cmp] of Python 2 on two components: numbers by value, strings by
    characters, and a number below any string. *)
Definition cmp_component (a b : component) : comparison :=
  match a, b with
  | CInt m, CInt n => Nat.compare m n
  | CStr s, CStr t => String.compare s t
  | CInt _, CStr _ => Lt
  | CStr _, CInt _ => Gt
  end.

(** [cmp] on two lists: the first difference decides, a proper prefix is
    smaller. *)
Fixpoint cmp_version (a b : list component) : comparison :=
  match a, b with
  | [], [] => Eq
  | [], _ :: _ => Lt
  | _ :: _, [] => Gt
  | x :: a', y :: b' =>
      match cmp_component x y with
      | Eq => cmp_version a' b'
      | c => c
      end
  end.

(** [LooseVersion(a) >= LooseVersion(b)], for two versions that were
    parsed. *)
Definition version_ge (a b : string) : bool :=
  match cmp_version (parse_version a) (parse_version b) with
  | Lt => false
  | _ => true
  end.

Definition MINIMUM_ANSIBLE_VERSION : string := "1.9".

Definition version_error_template : string :=
  "You are using ansible-playbook '%s'. "
  ++ "Current required version is at least: '%s'. You may "
  ++ "install the correct version with 'pip install -U -r "
  ++ "requirements.txt'".

(** [LooseVersion(vstring)]: the string is parsed only when it is not
    empty; otherwise the object has no [version] to compare. *)
Definition LooseVersion (vstring : string) : option (list component) :=
  match vstring with
  | EmptyString => None
  | _ => Some (parse_version vstring)
  end.

Definition no_version_text : string :=
  "LooseVersion instance has no attribute 'version'".

(** [_check_ansible_version] (lines 73-80): the comparison reads the
    [version] of both objects first. *)
Definition _check_ansible_version (h : Host) : Sh unit :=
  let version := ansible_version h in
  match LooseVersion version, LooseVersion MINIMUM_ANSIBLE_VERSION with
  | Some _, Some _ =>
      if negb (version_ge version MINIMUM_ANSIBLE_VERSION) then
        msg <~ sfmt (Py.percent version_error_template [version; MINIMUM_ANSIBLE_VERSION]) ;;
        sraise (PyException msg)
      else sret tt
  | _, _ => sraise (AttributeError no_version_text)
  end.

(** *** [run] (lines 452-528) and [main] (lines 582-602) *)

(** The namespace [parse_args] returns. *)
Record CliArgs : Type := mkCliArgs {
  environment : string;
  playbook : string;
  ursula_user : Py.pyval;
  ursula_ssh_config : Py.pyval;
  ursula_forward : bool;
  ursula_test : bool;
  ursula_debug : bool;
  provisioner : Py.pyval;
  adhoc : Py.pyval;
  module : Py.pyval;
  module_args : Py.pyval;
  module_hosts : Py.pyval;
  heat_stack_name : Py.pyval;
  heat_stack_update : bool;
  heat_parameters : option (list string);
  vagrant : bool;
  ursula_sudo : bool
}.

Definition set_environment (v : string) (a : CliArgs) : CliArgs :=
  mkCliArgs v (playbook a) (ursula_user a) (ursula_ssh_config a) (ursula_forward a)
    (ursula_test a) (ursula_debug a) (provisioner a) (adhoc a) (module a)
    (module_args a) (module_hosts a) (heat_stack_name a) (heat_stack_update a)
    (heat_parameters a) (vagrant a) (ursula_sudo a).

Definition set_ursula_user (v : Py.pyval) (a : CliArgs) : CliArgs :=
  mkCliArgs (environment a) (playbook a) v (ursula_ssh_config a) (ursula_forward a)
    (ursula_test a) (ursula_debug a) (provisioner a) (adhoc a) (module a)
    (module_args a) (module_hosts a) (heat_stack_name a) (heat_stack_update a)
    (heat_parameters a) (vagrant a) (ursula_sudo a).

Definition set_provisioner (v : Py.pyval) (a : CliArgs) : CliArgs :=
  mkCliArgs (environment a) (playbook a) (ursula_user a) (ursula_ssh_config a)
    (ursula_forward a) (ursula_test a) (ursula_debug a) v (adhoc a) (module a)
    (module_args a) (module_hosts a) (heat_stack_name a) (heat_stack_update a)
    (heat_parameters a) (vagrant a) (ursula_sudo a).

Definition set_module (m margs : Py.pyval) (a : CliArgs) : CliArgs :=
  mkCliArgs (environment a) (playbook a) (ursula_user a) (ursula_ssh_config a)
    (ursula_forward a) (ursula_test a) (ursula_debug a) (provisioner a) (adhoc a) m
    margs (module_hosts a) (heat_stack_name a) (heat_stack_update a)
    (heat_parameters a) (vagrant a) (ursula_sudo a).

Definition set_module_hosts (v : Py.pyval) (a : CliArgs) : CliArgs :=
  mkCliArgs (environment a) (playbook a) (ursula_user a) (ursula_ssh_config a)
    (ursula_forward a) (ursula_test a) (ursula_debug a) (provisioner a) (adhoc a)
    (module a) (module_args a) v (heat_stack_name a) (heat_stack_update a)
    (heat_parameters a) (vagrant a) (ursula_sudo a).

Definition set_ursula_sudo (v : bool) (a : CliArgs) : CliArgs :=
  mkCliArgs (environment a) (playbook a) (ursula_user a) (ursula_ssh_config a)
    (ursula_forward a) (ursula_test a) (ursula_debug a) (provisioner a) (adhoc a)
    (module a) (module_args a) (module_hosts a) (heat_stack_name a)
    (heat_stack_update a) (heat_parameters a) (vagrant a) v.

(** [if not args.ursula_user: args.ursula_user = name] *)
Definition default_user (name : string) (a : CliArgs) : CliArgs :=
  if negb (Py.truthy (ursula_user a)) then set_ursula_user (Py.PyStr name) a else a.

(** [if not args.ursula_sudo: args.ursula_sudo = True] *)
Definition default_sudo (a : CliArgs) : CliArgs :=
  if negb (ursula_sudo a) then set_ursula_sudo true a else a.

(** [v == s] for a string [s]. *)
Definition is_str (v : Py.pyval) (s : string) : bool :=
  match v with Py.PyStr s' => String.eqb s' s | _ => false end.

(** [init_logfile] (lines 43-59). *)
Definition init_logfile (h : Host) : Sh unit :=
  let logfile := if Py.truthy (cfg_log_path h)
                 then expanduser h (Py.str (cfg_log_path h))
                 else "ursula.log" in
  if negb (path_exists h logfile) then do (Touch logfile) else sret tt.

(** [_initialize_logger] (lines 62-70). *)
Definition _initialize_logger (h : Host) (level : string) : Sh unit :=
  init_logfile h ;;;
  do (LoggerInit level).

(** The oracles of the heat run, reading the environment of the process. *)
Definition world_of (h : Host) (env : Env) : World :=
  mkWorld (fun k => assoc k env) (heat_import (heat h)) (dict_order (heat h))
          (format_parameters (heat h)) (keystone_client (heat h)) (url_for (heat h))
          (stacks_get (heat h)) (stacks_create (heat h)) (stacks_update (heat h))
          (ssh_connect (heat h)) (path_abspath h) (isfile (heat h))
          (no_code_text (heat h)).

(** What [_run_heat] reads of the arguments. *)
Definition heat_args (a : CliArgs) : Args :=
  mkArgs (environment a) (heat_stack_name a) (heat_stack_update a)
         (heat_parameters a) (Py.str (ursula_user a)).

(** The effect of one event of the heat run on [os.environ]. *)
Definition env_after (env : Env) (e : event) : Env :=
  match e with
  | EvAppendEnvvar key value => env_append key value env
  | _ => env
  end.

(** [_run_heat(args=args, hot=hot)], run inside this process. *)
Definition run_heat (h : Host) (fuel : nat) (a : CliArgs) (hot : string) : Sh unit :=
  fun st =>
    let (r, tr) := _run_heat (world_of h (os_environ st)) fuel (heat_args a) hot [] in
    (r, mkState (fold_left env_after tr (os_environ st)) (acts st +++ map Heat tr)).

(** The vagrant branch of [run] (lines 481-492). *)
Definition provision_vagrant (h : Host) (a : CliArgs)
           (extra_args : list string) : Sh (Z * CliArgs * list string) :=
  let extra_args :=
    if path_exists h "envs/example/vagrant.yml"
       && path_isfile h "envs/example/vagrant.yml"
    then extra_args +++ ["--extra-vars"; "@envs/example/vagrant.yml"]
    else extra_args in
  rc <~ _run_vagrant h (environment a) ;;
  if negb (Z.eqb rc 0) then sret (rc, a, extra_args)
  else
    _vagrant_copy_yml h (environment a) ;;;
    sret (0%Z, default_sudo (default_user "vagrant" a), extra_args).

(** The heat branch of [run] (lines 493-509). *)
Definition provision_heat (h : Host) (fuel : nat) (a : CliArgs)
           (extra_args : list string) : Sh (CliArgs * list string) :=
  heat_file <~ sfmt (Py.percent "%s/heat_stack.yml" [environment a]) ;;
  if negb (path_exists h heat_file) then
    msg <~ sfmt (Py.percent "heat provider requires a heat file at %s" [heat_file]) ;;
    sraise (PyException msg)
  else
    let hot := file_text h heat_file in
    heat_extra_args <~ sfmt (Py.percent "%s/vars_heat.yml" [environment a]) ;;
    extra <~ sfmt (Py.percent "@%s" [heat_extra_args]) ;;
    let extra_args :=
      if path_exists h heat_extra_args && path_isfile h heat_extra_args
      then extra_args +++ ["--extra-vars"; extra]
      else extra_args in
    run_heat h fuel a hot ;;;
    sret (default_sudo (default_user "ubuntu" a), extra_args).

(** The end of [run] (lines 513-528): a module, or the playbook. *)
Definition run_playbook_or_module (h : Host) (inventory : string) (a : CliArgs)
           (extra_args : list string) : Sh Z :=
  let a := if Py.truthy (adhoc a) then set_module (Py.PyStr "shell") (adhoc a) a else a in
  if Py.truthy (module a) then
    if negb (Py.truthy (module_args a)) then
      sraise (PyException "--module also requires --module-args")
    else
      let a := if negb (Py.truthy (module_hosts a))
               then set_module_hosts (Py.PyStr "all") a else a in
      _run_module h inventory (Py.str (module a)) (Py.str (module_args a))
                  (Py.str (module_hosts a)) (Py.str (ursula_user a)) "./library"
                  (ursula_sudo a) extra_args
  else
    _run_ansible h inventory (playbook a) (Py.str (ursula_user a)) "./library"
                 (ursula_sudo a) extra_args.

(** The beginning of [run] (lines 453-479): the environment of the process,
    the two checks, and the inventory. *)
Definition prepare (h : Host) (a : CliArgs) (extra_args : list string)
  : Sh (CliArgs * string * list string) :=
  _set_default_env h ;;;
  if negb (path_exists h (environment a)) then
    msg <~ sfmt (Py.percent "Environment '%s' does not exist" [environment a]) ;;
    sraise (PyException msg)
  else
    let a := set_environment
               (rstrip_chars (is_char "\") (rstrip_chars (is_char "/") (environment a))) a in
    _set_envvar "URSULA_ENV" (path_abspath h (environment a)) ;;;
    let inventory := Py.path_join (environment a) "hosts" in
    if negb (path_exists h inventory) || negb (path_isfile h inventory) then
      msg <~ sfmt (Py.percent "Inventory file '%s' does not exist" [inventory]) ;;
      sraise (PyException msg)
    else
      let rel_ansible_ssh_config_file :=
        if Py.truthy (ursula_ssh_config a) then Py.str (ursula_ssh_config a)
        else Py.path_join (environment a) "ssh_config" in
      let ansible_ssh_config_file := path_abspath h rel_ansible_ssh_config_file in
      (if path_isfile h ansible_ssh_config_file then
         arg <~ sfmt (Py.percent "-F %s" [ansible_ssh_config_file]) ;;
         _append_envvar "ANSIBLE_SSH_ARGS" arg
       else sret tt) ;;;
      (if ursula_forward a then _append_envvar "ANSIBLE_SSH_ARGS" "-o ForwardAgent=yes"
       else sret tt) ;;;
      let extra_args :=
        if ursula_test a then extra_args +++ ["--syntax-check"; "--list-tasks"]
        else extra_args in
      sret (a, inventory, extra_args).

(** [run(args, extra_args)] (lines 452-528). *)
Definition run (h : Host) (fuel : nat) (a : CliArgs) (extra_args : list string) : Sh Z :=
  p <~ prepare h a extra_args ;;
  let '(a, inventory, extra_args) := p in
  r <~ (if is_str (provisioner a) "vagrant"
        then provision_vagrant h a extra_args
        else sret (0%Z, a, extra_args)) ;;
  let '(rc, a, extra_args) := r in
  if negb (Z.eqb rc 0) then sret rc
  else
    r <~ (if is_str (provisioner a) "heat"
          then provision_heat h fuel a extra_args
          else sret (default_user "root" a, extra_args)) ;;
    let '(a, extra_args) := r in
    run_playbook_or_module h inventory a extra_args.

(** [try: body except Exception as e: handler(e)] *)
Definition stry {A} (body : Sh A) (handler : exn -> Sh A) : Sh A :=
  fun st =>
    match body st with
    | (Raise e, st') => handler e st'
    | r => r
    end.

(** [main] (lines 582-602), after [parse_args]: the exit status of the
    process. *)
Definition main (h : Host) (fuel : nat) (args : CliArgs) (extra_args : list string) : Sh Z :=
  stry
    (_initialize_logger h (if ursula_debug args then "DEBUG" else "INFO") ;;;
     args <~ (if vagrant args then
                do (Log "WARNING" "--vagrant is depreciated, use --provisioner=vagrant") ;;;
                sret (set_provisioner (Py.PyStr "vagrant") args)
              else sret args) ;;
     _check_ansible_version h ;;;
     let args :=
       if negb (Py.truthy (ursula_user args)) then
         if is_str (provisioner args) "vagrant"
         then set_ursula_user (Py.PyStr "vagrant") args
         else set_ursula_user (Py.PyStr "ubuntu") args
       else args in
     run h fuel args extra_args)
    (fun e => do (Log "ERROR" (text_of e)) ;;; sret (-1)%Z).

End Shell.

(** ** Auxiliaries and samples for the rest of [shell.py] *)

(** The lines one box adds to the vagrant ssh configuration, when
    [vagrant ssh-config] for it is the [n]-th process of the run. *)
Definition box_text (h : Shell.Host) (n : nat) (box : string) : string :=
  flatten (map (fun line => Shell.rstrip line ++ Py.nl)
               (Shell.stdout (Shell.popen h n ["vagrant"; "ssh-config"; box]))).

(** The text of one round over [boxes], the first process being the
    [n]-th. *)
Fixpoint round_text (h : Shell.Host) (n : nat) (boxes : list string) : string :=
  match boxes with
  | [] => ""
  | box :: boxes' => box_text h n box ++ round_text h (S n) boxes'
  end.

Definition is_sleep_act (a : Shell.act) : bool :=
  match a with Shell.Sleep _ => true | _ => false end.

Definition count_acts (p : Shell.act -> bool) (tr : list Shell.act) : nat :=
  length (filter p tr).

(** The options [_set_default_env] appends to [ANSIBLE_SSH_ARGS]. *)
Definition default_ssh_args : string :=
  "-o ControlMaster=auto -o ControlPath=~/.ssh/controlmasters/u-%r@%h:%p "
  ++ "-o ControlPersist=300".

(** A string of decimal digits. *)
Definition all_digits (s : string) : bool :=
  forallb (fun c => match Shell.classify c with Shell.Digit => true | _ => false end)
          (list_ascii_of_string s).

(** The message of lines 76-80 for the version [v]. *)
Definition version_error_text (v : string) : string :=
  "You are using ansible-playbook '" ++ v
  ++ "'. Current required version is at least: '1.9'. You may "
  ++ "install the correct version with 'pip install -U -r requirements.txt'".

(** A machine on which everything is in place; vagrant needs [rounds]
    rounds of [ssh-config] before it is ready, and ansible ends with
    [status]. *)
Definition sample_process (rounds : nat) (status : Z) (n : nat) (command : list string)
  : Shell.process :=
  match command with
  | "vagrant" :: "ssh-config" :: box :: _ =>
      if Nat.ltb n (S rounds)
      then Shell.mkProcess ["The box is not yet ready for SSH" ++ Py.nl] 1%Z
      else Shell.mkProcess [("Host " ++ box ++ "  ") ++ Py.nl;
                            "  HostName 127.0.0.1" ++ Py.nl] 0%Z
  | "vagrant" :: _ => Shell.mkProcess ["Bringing machine up" ++ Py.nl] 1%Z
  | _ => Shell.mkProcess ["PLAY [all] " ++ Py.nl] status
  end.

Definition sample_host (version : string) (rounds : nat) (status : Z) (w : World)
  : Shell.Host :=
  Shell.mkHost
    (fun _ => true) (fun _ => true) (fun p => "/srv/" ++ p)
    (fun p => "/home/ops" ++ p)
    (fun _ => "heat_template_version: 2013-05-23")
    (sample_process rounds status)
    (fun n command => Shell.mkProcess ["node1 | success" ++ Py.nl] status)
    (fun _ => inr ["box1"])
    (fun _ _ => None)
    (fun _ => "{}")
    Py.PyNone version w
    990 (mkExc None "maximum recursion depth exceeded") 1.

Definition sample_cli (provisioner : Py.pyval) : Shell.CliArgs :=
  Shell.mkCliArgs "envs/test/" "site.yml" Py.PyNone Py.PyNone false false false
                  provisioner Py.PyNone Py.PyNone Py.PyNone Py.PyNone
                  Py.PyNone false None false false.

Definition start_state (env : Shell.Env) : Shell.state := Shell.mkState env [].

Definition versioned_host (version : string) : Shell.Host :=
  sample_host version 0 0%Z plain_world.

(** What one box, and one round over [boxes], add to the acts of the
    process. *)
Definition box_acts (h : Shell.Host) (env : Shell.Env) (file : string) (n : nat)
           (box : string) : list Shell.act :=
  Shell.Popen ["vagrant"; "ssh-config"; box] env
  :: map (fun line => Shell.FileWrite file (Shell.rstrip line ++ Py.nl))
         (Shell.stdout (Shell.popen h n ["vagrant"; "ssh-config"; box])).

Fixpoint round_acts (h : Shell.Host) (env : Shell.Env) (file : string) (n : nat)
         (boxes : list string) : list Shell.act :=
  match boxes with
  | [] => []
  | box :: boxes' => box_acts h env file n box +++ round_acts h env file (S n) boxes'
  end.

(** Vagrant is ready after one round of waiting. *)
Definition slow_vagrant_host : Shell.Host := sample_host "2.4.0" 1 0%Z plain_world.

(** [m] returns only values in [P] and raises only exceptions in [E]. *)
Definition only {A} (P : A -> Prop) (E : exn -> Prop) (m : Shell.Sh A) : Prop :=
  forall st,
    match fst (m st) with
    | Ok a => P a
    | Raise x => E x
    | OutOfFuel => True
    end.

(** The acts that start ansible: [ansible-playbook] as a process, or a
    shell command that begins with the word [ansible]. *)
Definition is_ansible (a : Shell.act) : bool :=
  match a with
  | Shell.Popen ("ansible-playbook" :: _) _ => true
  | Shell.PopenShell text _ => String.prefix "ansible " text
  | _ => false
  end.

Definition ansible_runs (st : Shell.state) : nat :=
  count_acts is_ansible (Shell.acts st).

(** [m] adds [n] acts of the kind [p] when it returns, and none when it
    does not. *)
Definition adds (p : Shell.act -> bool) {A} (n : nat) (m : Shell.Sh A) : Prop :=
  forall st,
    count_acts p (Shell.acts (snd (m st))) =
    count_acts p (Shell.acts st) + match fst (m st) with Ok _ => n | _ => 0 end.

(** The environment path as [run] uses it (line 458), and the inventory of
    line 462. *)
Definition stripped (environment : string) : string :=
  Shell.rstrip_chars (Shell.is_char "\")
    (Shell.rstrip_chars (Shell.is_char "/") environment).

Definition inventory_of (environment : string) : string :=
  Py.path_join (stripped environment) "hosts".

(** The last act of a process. *)
Definition last_act (st : Shell.state) : option Shell.act :=
  last (map Some (Shell.acts st)) None.

(** A machine without the environment directory, and one without the
    inventory in it. *)
Definition no_environment_host : Shell.Host :=
  Shell.mkHost
    (fun _ => false) (fun _ => false) (fun p => "/srv/" ++ p)
    (fun p => "/home/ops" ++ p) (fun _ => "")
    (sample_process 0 0%Z)
    (fun n command => Shell.mkProcess [] 0%Z)
    (fun _ => inr ["box1"]) (fun _ _ => None) (fun _ => "{}")
    Py.PyNone "2.4.0" plain_world
    990 (mkExc None "maximum recursion depth exceeded") 1.

Definition no_inventory_host : Shell.Host :=
  Shell.mkHost
    (fun p => negb (String.eqb p "envs/test/hosts")) (fun _ => true)
    (fun p => "/srv/" ++ p)
    (fun p => "/home/ops" ++ p) (fun _ => "")
    (sample_process 0 0%Z)
    (fun n command => Shell.mkProcess [] 0%Z)
    (fun _ => inr ["box1"]) (fun _ _ => None) (fun _ => "{}")
    Py.PyNone "2.4.0" plain_world
    990 (mkExc None "maximum recursion depth exceeded") 1.

(** A machine on which everything is in place and ansible ends with status
    3; the provider of its heat world rejects the stack. *)
Definition ansible_host : Shell.Host := sample_host "2.4.0" 0 3%Z rejecting_world.

(** The command line [ursula envs/test/ site.yml --adhoc uptime], and
    [ursula envs/test/ site.yml --module ping]. *)
Definition adhoc_cli : Shell.CliArgs :=
  Shell.mkCliArgs "envs/test/" "site.yml" Py.PyNone Py.PyNone false false false
                  Py.PyNone (Py.PyStr "uptime") Py.PyNone Py.PyNone Py.PyNone
                  Py.PyNone false None false false.


(** [m] comes to an end: it returns or raises. *)
Definition ends {A} (m : Shell.Sh A) : Prop :=
  forall st, fst (m st) <> OutOfFuel.

(** The exceptions that can leave [_run_vagrant]: that of loading the
    settings file, and the interpreter's. *)
Definition vagrant_error (h : Shell.Host) (x : exn) : Prop :=
  (exists path e, Shell.yaml_vms h path = inl e /\ x = ClientException e) \/
  x = ClientException (Shell.recursion_error h).

(** A machine on which vagrant never gets ready, and the interpreter has
    room for three levels of recursion. *)
Definition never_ready_host : Shell.Host :=
  Shell.mkHost
    (fun _ => true) (fun _ => true) (fun p => "/srv/" ++ p)
    (fun p => "/home/ops" ++ p) (fun _ => "")
    (fun n command => Shell.mkProcess ["The box is not yet ready for SSH" ++ Py.nl] 1%Z)
    (fun n command => Shell.mkProcess [] 0%Z)
    (fun _ => inr ["box1"]) (fun _ _ => None) (fun _ => "{}")
    Py.PyNone "2.4.0" plain_world
    3 (mkExc None "maximum recursion depth exceeded") 1.


(** * Properties *)

(** ** The Python builtins on examples *)

Example basename_ex : Py.basename "envs/prod/stack1" = "stack1".
Proof. reflexivity. Qed.

Example path_join_ex : Py.path_join "envs/prod" ".ssh_key" = "envs/prod/.ssh_key".
Proof. reflexivity. Qed.

Example format_ex :
  Py.format "a {x} b {y}." [("x", Py.PyStr "1"); ("y", Py.PyNone)] = Some "a 1 b None.".
Proof. reflexivity. Qed.

Example percent_ex :
  Py.percent "stack %s returned (%s)" ["s1"; "FAILED"] = Some "stack s1 returned (FAILED)".
Proof. reflexivity. Qed.

(** ** The monad *)

Lemma bind_ok {A B} (m : M A) (k : A -> M B) tr a tr' :
  m tr = (Ok a, tr') -> bind m k tr = k a tr'.
Proof. unfold bind. intros ->. reflexivity. Qed.

Lemma bind_raise {A B} (m : M A) (k : A -> M B) tr e tr' :
  m tr = (Raise e, tr') -> bind m k tr = (Raise e, tr').
Proof. unfold bind. intros ->. reflexivity. Qed.

Lemma bind_out_of_fuel {A B} (m : M A) (k : A -> M B) tr tr' :
  m tr = (OutOfFuel, tr') -> bind m k tr = (OutOfFuel, tr').
Proof. unfold bind. intros ->. reflexivity. Qed.

Lemma count_app p tr es : count p (tr +++ es) = count p tr + count p es.
Proof. unfold count. rewrite filter_app, length_app. reflexivity. Qed.

Lemma count_none p q es :
  forallb q es = true -> (forall e, q e = true -> p e = false) -> count p es = 0.
Proof.
  intros Hq Hpq. induction es as [|e es IH]; [reflexivity|].
  simpl in Hq. apply andb_true_iff in Hq as [He Hes].
  unfold count in *. simpl. rewrite (Hpq e He). auto.
Qed.

(** *** What each primitive emits *)

Lemma emits_ret q {A} (a : A) : emits q (ret a).
Proof. intros tr. exists []. simpl. rewrite app_nil_r. auto. Qed.

Lemma emits_raise q {A} e : emits q (@raise A e).
Proof. intros tr. exists []. simpl. rewrite app_nil_r. auto. Qed.

Lemma emits_out_of_fuel q {A} : emits q (@out_of_fuel A).
Proof. intros tr. exists []. simpl. rewrite app_nil_r. auto. Qed.

Lemma emits_emit (q : event -> bool) e : q e = true -> emits q (emit e).
Proof. intros He tr. exists [e]. simpl. rewrite He. auto. Qed.

Lemma emits_fmt q o : emits q (fmt o).
Proof. destruct o; [apply emits_ret | apply emits_raise]. Qed.

Lemma emits_bind q {A B} (m : M A) (k : A -> M B) :
  emits q m -> (forall a, emits q (k a)) -> emits q (bind m k).
Proof.
  intros Hm Hk tr. unfold bind. destruct (Hm tr) as (es & Hes & Hq).
  destruct (m tr) as [[a | e |] tr1]; simpl in Hes; subst tr1.
  - destruct (Hk a (tr +++ es)) as (es' & Hes' & Hq').
    exists (es +++ es'). rewrite Hes', app_assoc, forallb_app, Hq, Hq'. auto.
  - exists es. auto.
  - exists es. auto.
Qed.

Lemma emits_weaken (q q' : event -> bool) {A} (m : M A) :
  (forall e, q e = true -> q' e = true) -> emits q m -> emits q' m.
Proof.
  intros Hqq Hm tr. destruct (Hm tr) as (es & Hes & Hq).
  exists es. split; [assumption|].
  rewrite forallb_forall in *. auto.
Qed.

Lemma emits_for_each q {A} (xs : list A) (body : A -> M unit) :
  (forall x, emits q (body x)) -> emits q (for_each xs body).
Proof.
  intros Hb. induction xs as [|x xs IH]; simpl.
  - apply emits_ret.
  - apply emits_bind; auto.
Qed.

Lemma emits_try_except q {A} (m : M A) (h : exn -> M A) :
  emits q m -> (forall e, emits q (h e)) -> emits q (try_except m h).
Proof.
  intros Hm Hh tr. unfold try_except. destruct (Hm tr) as (es & Hes & Hq).
  destruct (m tr) as [[a | e |] tr1]; simpl in Hes; subst tr1.
  - exists es. auto.
  - destruct (Hh e (tr +++ es)) as (es' & Hes' & Hq').
    exists (es +++ es'). rewrite Hes', app_assoc, forallb_app, Hq, Hq'. auto.
  - exists es. auto.
Qed.

Lemma emits_stacks_get_call (q : event -> bool) w name :
  (forall n, q (EvStacksGet n) = true) -> emits q (stacks_get_call w name).
Proof.
  intros Hq tr. exists [EvStacksGet name]. unfold stacks_get_call.
  destruct (stacks_get w (count is_get tr)); simpl; rewrite Hq; auto.
Qed.

Lemma emits_connect (q : event -> bool) w host user key :
  (forall h u k r, q (EvSshConnect h u k r) = true) -> emits q (connect w host user key).
Proof. intros Hq tr. eexists [_]. unfold connect. simpl. rewrite Hq. auto. Qed.

(** Decomposes a goal [emits q m] along the structure of [m]. *)
Ltac emits_step :=
  match goal with
  | |- emits _ (bind _ _) => apply emits_bind; [| intros ?]
  | |- emits _ (ret _) => apply emits_ret
  | |- emits _ (raise _) => apply emits_raise
  | |- emits _ out_of_fuel => apply emits_out_of_fuel
  | |- emits _ (fmt _) => apply emits_fmt
  | |- emits _ (emit _) => apply emits_emit; reflexivity
  | |- emits _ (LOG_debug _) => apply emits_emit; reflexivity
  | |- emits _ (LOG_error _) => apply emits_emit; reflexivity
  | |- emits _ (sleep _) => apply emits_emit; reflexivity
  | |- emits _ (_ssh_add _) => apply emits_emit; reflexivity
  | |- emits _ (_append_envvar _ _) => apply emits_emit; reflexivity
  | |- emits _ (stacks_get_call _ _) => apply emits_stacks_get_call; reflexivity
  | |- emits _ (connect _ _ _ _) => apply emits_connect; reflexivity
  | |- emits _ (try_except _ _) => apply emits_try_except; [| intros ?]
  | |- emits _ (for_each _ _) => apply emits_for_each; intros ?
  | |- emits _ (match ?x with _ => _ end) => destruct x
  end.

Ltac emits_auto := repeat emits_step.

Lemma emits_test_ssh w host user key : emits k_gate (test_ssh w host user key).
Proof. unfold test_ssh, connect_failed. emits_auto. Qed.

Lemma emits_wait_ssh w fuel host user key msg :
  emits k_gate (wait_ssh w fuel host user key msg).
Proof.
  induction fuel as [|fuel IH]; simpl.
  - apply emits_out_of_fuel.
  - apply emits_bind; [apply emits_test_ssh | intros r].
    destruct (negb (Py.truthy r)); emits_auto. exact IH.
Qed.

Lemma emits_readiness_gate w fuel fip servers user key :
  emits k_gate (readiness_gate w fuel fip servers user key).
Proof.
  unfold readiness_gate. destruct (Py.truthy fip).
  - apply emits_wait_ssh.
  - emits_auto. apply emits_wait_ssh.
Qed.

Lemma emits_prelude w args hot : emits k_prelude (prelude w args hot).
Proof.
  unfold prelude, import_heat, check_creds, build_request, login. emits_auto.
Qed.

Lemma emits_stack_lookup w name : emits k_poll (stack_lookup w name).
Proof. unfold stack_lookup. emits_auto. Qed.

Lemma emits_submit w args req ex : emits k_submit (submit w args req ex).
Proof. unfold submit. emits_auto. Qed.

Lemma emits_wait_stack w fuel name : emits k_poll (wait_stack w fuel name).
Proof.
  induction fuel as [|fuel IH]; simpl; emits_auto. exact IH.
Qed.

Lemma emits_fetch_stack w name action : emits k_poll (fetch_stack w name action).
Proof. unfold fetch_stack. emits_auto. Qed.

Lemma emits_read_outputs outs : forall servers fip pk,
  emits k_log (read_outputs outs servers fip pk).
Proof.
  induction outs as [|[k v] outs IH]; intros; simpl; emits_auto; apply IH.
Qed.

Lemma emits_write_ssh_config w args servers fip pk :
  emits k_config (write_ssh_config w args servers fip pk).
Proof.
  unfold write_ssh_config, write_private_key, write_server. emits_auto.
Qed.

(** ** The run, stage by stage *)

Lemma run_heat_stages w fuel args hot tr :
  _run_heat w fuel args hot tr =
  (STACK <- prelude w args hot ;;
   stack_exists <- stack_lookup w (stack_name_of args) ;;
   stack_action <- submit w args STACK stack_exists ;;
   complete w fuel args stack_action) tr.
Proof.
  unfold _run_heat, prelude, complete, configure, bind.
  destruct (import_heat w tr) as [[[]|e|] t1]; try reflexivity.
  destruct (check_creds w t1) as [[[]|e|] t2]; try reflexivity.
  destruct (build_request w args hot t2) as [[req|e|] t3]; try reflexivity.
  destruct (login w t3) as [[[]|e|] t4]; reflexivity.
Qed.

Lemma run_heat_check_creds w fuel args hot :
  heat_import w = None ->
  forall e tr, check_creds w [] = (Raise e, tr) ->
  _run_heat w fuel args hot [] = (Raise e, tr).
Proof.
  intros Himp e tr Hc. unfold _run_heat, bind, import_heat.
  rewrite Himp. simpl. rewrite Hc. reflexivity.
Qed.

(** ** Dictionaries *)

Lemma assoc_In {V} k (v : V) d : assoc k d = Some v -> In (k, v) d.
Proof.
  induction d as [|[k' v'] d IH]; simpl; [discriminate|].
  destruct (String.eqb_spec k' k) as [->|Hne].
  - intros [= ->]. auto.
  - auto.
Qed.

Lemma In_assoc {V} k (v : V) d :
  NoDup (map fst d) -> In (k, v) d -> assoc k d = Some v.
Proof.
  induction d as [|[k' v'] d IH]; simpl; [contradiction|].
  intros Hnd [[= -> ->] | Hin].
  - rewrite String.eqb_refl. reflexivity.
  - inversion Hnd as [|? ? Hnotin Hnd']; subst.
    destruct (String.eqb_spec k' k) as [->|Hne]; [|auto].
    exfalso. apply Hnotin. apply (in_map fst) in Hin. exact Hin.
Qed.

Lemma assoc_None_notin {V} k (d : list (string * V)) :
  assoc k d = None -> ~ In k (map fst d).
Proof.
  induction d as [|[k' v'] d IH]; simpl; [tauto|].
  destruct (String.eqb_spec k' k) as [->|Hne]; [discriminate|].
  intros H [Heq|Hin]; [congruence | exact (IH H Hin)].
Qed.

Section Dict.

Variable w : World.
Hypothesis Horder : order_ok w.

Lemma In_dict_items {V} (d : list (string * V)) k v :
  NoDup (map fst d) ->
  (In (k, v) (dict_items w d) <-> In (k, v) d).
Proof.
  intros Hnd. unfold dict_items. rewrite in_flat_map. split.
  - intros (k' & _ & Hin). destruct (assoc k' d) as [v'|] eqn:Ha; [|contradiction].
    destruct Hin as [[= -> ->]|[]]. apply assoc_In. exact Ha.
  - intros Hin. exists k. split.
    + apply Permutation_in with (l := map fst d).
      * apply Permutation_sym, Horder, Hnd.
      * apply (in_map fst) in Hin. exact Hin.
    + rewrite (In_assoc _ _ _ Hnd Hin). left. reflexivity.
Qed.

Lemma dict_items_keys {V} (d : list (string * V)) :
  NoDup (map fst d) -> map fst (dict_items w d) = dict_order w (map fst d).
Proof.
  intros Hnd. unfold dict_items.
  assert (Hsub : forall k, In k (dict_order w (map fst d)) -> In k (map fst d)).
  { intros k. apply Permutation_in, Horder, Hnd. }
  induction (dict_order w (map fst d)) as [|k ks IH]; [reflexivity|].
  simpl. rewrite map_app, IH by (intros; apply Hsub; right; assumption).
  destruct (assoc k d) as [v|] eqn:Ha; [reflexivity|].
  exfalso. apply (assoc_None_notin _ _ Ha), Hsub. left. reflexivity.
Qed.

Lemma dict_items_keys_perm {V} (d : list (string * V)) :
  NoDup (map fst d) -> Permutation (map fst (dict_items w d)) (map fst d).
Proof. intros Hnd. rewrite dict_items_keys by assumption. apply Horder, Hnd. Qed.

End Dict.

(** ** The credentials check *)

Lemma all_true_iff xs : Py.all xs = true <-> forall v, In v xs -> Py.truthy v = true.
Proof. unfold Py.all. apply forallb_forall. Qed.

Lemma index_none_Some xs : forall i,
  Py.index_none xs = Some i -> nth_error xs i = Some Py.PyNone.
Proof.
  induction xs as [|x xs IH]; simpl; [discriminate|].
  intros i. destruct x; simpl.
  - intros [= <-]. reflexivity.
  - destruct (Py.index_none xs) as [j|]; simpl; [|discriminate].
    intros [= <-]. simpl. auto.
  - destruct (Py.index_none xs) as [j|]; simpl; [|discriminate].
    intros [= <-]. simpl. auto.
Qed.

Lemma index_none_None xs : Py.index_none xs = None -> ~ In Py.PyNone xs.
Proof.
  induction xs as [|x xs IH]; simpl; [tauto|].
  destruct x; simpl; try discriminate;
    (destruct (Py.index_none xs); simpl; [discriminate|]);
    intros _ [Hx|Hin]; try discriminate; exact (IH eq_refl Hin).
Qed.

Lemma nth_error_fst_snd {A B} (l : list (A * B)) i b :
  nth_error (map snd l) i = Some b ->
  exists a, nth_error (map fst l) i = Some a /\ In (a, b) l.
Proof.
  revert i. induction l as [|[a' b'] l IH]; intros [|i]; simpl; try discriminate.
  - intros [= ->]. exists a'. auto.
  - intros H. destruct (IH i H) as (a & Ha & Hin). exists a. auto.
Qed.

Lemma CREDS_keys w : map fst (CREDS_literal w) = cred_keys.
Proof. reflexivity. Qed.

Lemma cred_keys_NoDup : NoDup cred_keys.
Proof.
  unfold cred_keys.
  repeat (apply NoDup_cons; [simpl; intuition discriminate|]).
  apply NoDup_nil.
Qed.

Lemma In_CREDS w k v :
  order_ok w -> (In (k, v) (CREDS w) <-> In (k, v) (CREDS_literal w)).
Proof.
  intros Ho. unfold CREDS. apply In_dict_items; [assumption|].
  rewrite CREDS_keys. apply cred_keys_NoDup.
Qed.

Lemma missing_credential_iff w :
  missing_credential w <-> exists k, In (k, Py.PyNone) (CREDS_literal w).
Proof.
  unfold missing_credential, CREDS_literal, environ_get_default, environ_get.
  split.
  - intros [H | [H | [[H1 H2] | H]]].
    + exists "username". rewrite H. simpl. auto.
    + exists "password". rewrite H. simpl. auto.
    + exists "tenant_name". rewrite H1, H2. simpl. auto.
    + exists "auth_url". rewrite H. simpl. auto 6.
  - intros (k & Hin). simpl in Hin.
    destruct (environ w "OS_USERNAME"); [|auto].
    destruct (environ w "OS_PASSWORD"); [|auto].
    destruct (environ w "OS_AUTH_URL"); [|auto].
    destruct (environ w "OS_TENANT_NAME");
      [|destruct (environ w "OS_PROJECT_NAME"); [|auto]];
      repeat destruct Hin as [Hin|Hin]; try discriminate; contradiction.
Qed.

(** What the check does, by cases on the values of [CREDS]. *)
Lemma check_creds_cases w (Ho : order_ok w) tr :
  (exists name, In (name, Py.PyNone) (CREDS_literal w) /\
     check_creds w tr = (Raise (OpenStackConfigurationError (config_error_text name)), tr))
  \/ ((forall k, ~ In (k, Py.PyNone) (CREDS_literal w)) /\
      ((exists k v, In (k, v) (CREDS_literal w) /\ Py.truthy v = false) /\
       check_creds w tr = (Raise (ValueError "None is not in list"), tr)
       \/ (forall k v, In (k, v) (CREDS_literal w) -> Py.truthy v = true) /\
          check_creds w tr = (Ok tt, tr))).
Proof.
  unfold check_creds.
  destruct (Py.index_none (map snd (CREDS w))) as [i|] eqn:Hidx.
  - left. apply index_none_Some in Hidx.
    destruct (nth_error_fst_snd _ _ _ Hidx) as (name & Hname & Hin).
    exists name. split; [apply In_CREDS; assumption|].
    assert (Hall : Py.all (map snd (CREDS w)) = false).
    { apply not_true_is_false. rewrite all_true_iff. intros H.
      specialize (H Py.PyNone (nth_error_In _ _ Hidx)). discriminate. }
    rewrite Hall, Hname. reflexivity.
  - right. apply index_none_None in Hidx. split.
    + intros k Hin. apply Hidx. apply In_CREDS in Hin; [|assumption].
      apply (in_map snd) in Hin. exact Hin.
    + destruct (Py.all (map snd (CREDS w))) eqn:Hall; simpl.
      * right. split; [|reflexivity]. intros k v Hin.
        rewrite all_true_iff in Hall. apply Hall.
        apply In_CREDS in Hin; [|assumption]. apply (in_map snd) in Hin. exact Hin.
      * left. split; [|reflexivity].
        assert (Hex : exists v, In v (map snd (CREDS w)) /\ Py.truthy v = false).
        { unfold Py.all in Hall. clear Hidx.
          induction (map snd (CREDS w)) as [|v vs IH]; simpl in Hall; [discriminate|].
          destruct (Py.truthy v) eqn:Hv.
          - destruct (IH Hall) as (v' & Hin & Hv'). exists v'. simpl. auto.
          - exists v. simpl. auto. }
        destruct Hex as (v & Hin & Hv). apply in_map_iff in Hin as ([k v'] & Heq & Hin).
        simpl in Heq. subst v'. exists k, v. split; [|assumption].
        apply In_CREDS; assumption.
Qed.

(** C6. If a required credential field (username, password, project or
    tenant scope, auth endpoint) is missing from the configuration, the run
    fails with [OpenStackConfigurationError]; its message names a field of
    [CREDS] that is missing; and the trace is still empty: no call to the
    provider or the network, nor any other call, was made. *)
Theorem missing_credential_is_configuration_error w fuel args hot :
  order_ok w ->
  heat_import w = None ->
  missing_credential w ->
  exists name,
    In (name, Py.PyNone) (CREDS_literal w) /\
    _run_heat w fuel args hot [] =
      (Raise (OpenStackConfigurationError (config_error_text name)), []) /\
    count is_provider_call (snd (_run_heat w fuel args hot [])) = 0.
Proof.
  intros Ho Himp Hmiss. apply missing_credential_iff in Hmiss as (k & Hk).
  destruct (check_creds_cases w Ho []) as [(name & Hin & Hc) | (Hnone & _)].
  - exists name. split; [assumption|].
    rewrite (run_heat_check_creds w fuel args hot Himp _ _ Hc). auto.
  - exfalso. exact (Hnone k Hk).
Qed.

(** C10. The branch that raises the configuration error naming a field is
    taken only when some field of [CREDS] is [None]; when every field is set
    and one of them is the empty string, the check still fails, [index(None)]
    finds nothing, and the run ends in the [ValueError] of that lookup, again
    before any call. *)
Theorem empty_credential_is_value_error w :
  order_ok w ->
  (forall tr msg tr',
      check_creds w tr = (Raise (OpenStackConfigurationError msg), tr') ->
      exists k, In (k, Py.PyNone) (CREDS_literal w)) /\
  ((forall k, ~ In (k, Py.PyNone) (CREDS_literal w)) ->
   (exists k, In (k, Py.PyStr "") (CREDS_literal w)) ->
   heat_import w = None ->
   forall fuel args hot,
     _run_heat w fuel args hot [] = (Raise (ValueError "None is not in list"), [])).
Proof.
  intros Ho. split.
  - intros tr msg tr' Hc.
    destruct (check_creds_cases w Ho tr) as [(name & Hin & _) | (_ & [(_ & Hc') | (_ & Hc')])].
    + exists name. exact Hin.
    + rewrite Hc' in Hc. discriminate.
    + rewrite Hc' in Hc. discriminate.
  - intros Hset (k & Hk) Himp fuel args hot.
    apply run_heat_check_creds; [assumption|].
    destruct (check_creds_cases w Ho []) as [(name & Hin & _) | (_ & [(_ & Hc') | (Hall & _)])].
    + exfalso. exact (Hset name Hin).
    + exact Hc'.
    + specialize (Hall k _ Hk). discriminate.
Qed.

(** ** Strings *)

Lemma append_nil_r s : s ++ "" = s.
Proof. induction s as [|c s IH]; simpl; [|rewrite IH]; reflexivity. Qed.

Lemma append_assoc s1 s2 s3 : (s1 ++ s2) ++ s3 = s1 ++ s2 ++ s3.
Proof. induction s1 as [|c s1 IH]; simpl; [|rewrite IH]; reflexivity. Qed.

Lemma prefix_append s t : String.prefix s (s ++ t) = true.
Proof.
  induction s as [|c s IH]; simpl.
  - destruct t; reflexivity.
  - destruct (ascii_dec c c) as [_|Hne]; [exact IH | congruence].
Qed.

Lemma contains_unfold sub s :
  Py.contains sub s =
  orb (String.prefix sub s)
      (match s with EmptyString => false | String _ rest => Py.contains sub rest end).
Proof. destruct s; reflexivity. Qed.

Lemma contains_append pre sub post : Py.contains sub (pre ++ sub ++ post) = true.
Proof.
  induction pre as [|c pre IH].
  - change ("" ++ sub ++ post) with (sub ++ post).
    rewrite contains_unfold, prefix_append. reflexivity.
  - change (String c pre ++ sub ++ post) with (String c (pre ++ sub ++ post)).
    rewrite contains_unfold, IH. apply orb_true_r.
Qed.

(** ** The existence check *)

Lemma stack_lookup_cases w name tr :
  let checked :=
    tr +++ [EvLog "DEBUG" ("Checking for existence of heat stack: " ++ name);
            EvStacksGet name] in
  stack_lookup w name tr =
  match stacks_get w (count is_get tr) with
  | inr _ => (Ok true, checked +++ [EvLog "DEBUG" "Already exists"])
  | inl e =>
      match exc_code e with
      | None => (Raise (AttributeError (no_code_text w (ClientException e))), checked)
      | Some c => if Nat.eqb c 404 then (Ok false, checked)
                  else (Raise (PyException (exc_text e)), checked)
      end
  end.
Proof.
  unfold stack_lookup, try_except, bind, stacks_get_call, LOG_debug, emit. simpl.
  rewrite append_nil_r, count_app. simpl. rewrite Nat.add_0_r.
  destruct (stacks_get w (count is_get tr)) as [e|st]; simpl.
  - destruct (exc_code e) as [c|]; [destruct (Nat.eqb c 404)|];
      rewrite <- app_assoc; reflexivity.
  - rewrite <- !app_assoc. reflexivity.
Qed.

(** C7. When the provider answers the lookup with not-found (an exception
    whose code is 404), the lookup returns [false], the absent status, and
    raises nothing; and whenever the lookup raises, the provider had
    answered with an exception other than not-found. *)
Theorem stack_lookup_not_found_is_absent w name tr :
  (forall e, stacks_get w (count is_get tr) = inl e -> exc_code e = Some 404 ->
     fst (stack_lookup w name tr) = Ok false) /\
  (forall x, fst (stack_lookup w name tr) = Raise x ->
     exists e, stacks_get w (count is_get tr) = inl e /\ exc_code e <> Some 404).
Proof.
  rewrite stack_lookup_cases. split.
  - intros e -> ->. reflexivity.
  - intros x. destruct (stacks_get w (count is_get tr)) as [e|st]; [|discriminate].
    intros Hx. exists e. split; [reflexivity|].
    destruct (exc_code e) as [c|]; [|discriminate].
    destruct (Nat.eqb_spec c 404) as [Heq|Hne]; [discriminate|].
    intros [= Hc]. contradiction.
Qed.

Lemma stack_lookup_gets w name tr ex tr' :
  stack_lookup w name tr = (Ok ex, tr') -> count is_get tr' = S (count is_get tr).
Proof.
  rewrite stack_lookup_cases.
  destruct (stacks_get w (count is_get tr)) as [e|st].
  - destruct (exc_code e) as [c|]; [destruct (Nat.eqb c 404)|]; try discriminate.
    intros [= _ <-]. rewrite count_app. simpl. lia.
  - intros [= _ <-]. rewrite !count_app. simpl. lia.
Qed.

(** ** The submission *)

Lemma submit_counts w args req ex tr :
  count is_create (snd (submit w args req ex tr)) =
    count is_create tr + (if ex then 0 else 1) /\
  count is_update (snd (submit w args req ex tr)) =
    count is_update tr + (if ex && heat_stack_update args then 1 else 0).
Proof.
  unfold submit, bind, LOG_debug, sleep, emit.
  destruct ex, (heat_stack_update args); simpl;
    try destruct (stacks_update w); try destruct (stacks_create w); simpl;
    rewrite ?count_app; simpl; split; lia.
Qed.

Lemma submit_nothing w args req tr :
  heat_stack_update args = false ->
  submit w args req true tr = (Ok "create", tr).
Proof. unfold submit. intros ->. reflexivity. Qed.

(** Discharges the side condition that events of one kind are not of another. *)
Ltac kinds := let e := fresh "e" in intros e; destruct e; cbv; intros; congruence.

(** ** What the later stages emit *)

Lemma emits_configure w fuel args stack : emits k_after_submit (configure w fuel args stack).
Proof.
  unfold configure. apply emits_bind.
  - apply emits_weaken with (q := k_log); [|apply emits_read_outputs].
    kinds.
  - intros [[servers fip] pk]. apply emits_bind; [|intros _; apply emits_bind; [|intros _]].
    + apply emits_weaken with (q := k_config); [|apply emits_write_ssh_config].
      kinds.
    + apply emits_emit. reflexivity.
    + apply emits_weaken with (q := k_gate); [|apply emits_readiness_gate].
      kinds.
Qed.

Lemma emits_complete w fuel args action : emits k_after_submit (complete w fuel args action).
Proof.
  unfold complete. apply emits_bind; [|intros _; apply emits_bind; [|intros stack]].
  - apply emits_weaken with (q := k_poll); [|apply emits_wait_stack].
    kinds.
  - apply emits_weaken with (q := k_poll); [|apply emits_fetch_stack].
    kinds.
  - apply emits_configure.
Qed.

Lemma emits_count {A} q p (m : M A) tr :
  emits q m -> (forall e, q e = true -> p e = false) ->
  count p (snd (m tr)) = count p tr.
Proof.
  intros Hm Hqp. destruct (Hm tr) as (es & -> & Hq).
  rewrite count_app, (count_none p q es Hq Hqp). lia.
Qed.

Lemma bind_extends {A B} q (m : M A) (k : A -> M B) tr :
  (forall a, emits q (k a)) -> exists es, snd (bind m k tr) = snd (m tr) +++ es.
Proof.
  intros Hk. unfold bind. destruct (m tr) as [[a|e|] tr1]; simpl.
  - destruct (Hk a tr1) as (es & Hes & _). exists es. exact Hes.
  - exists []. rewrite app_nil_r. reflexivity.
  - exists []. rewrite app_nil_r. reflexivity.
Qed.

Lemma prelude_counts w args hot STACK tr1 :
  prelude w args hot [] = (Ok STACK, tr1) ->
  count is_get tr1 = 0 /\ count is_create tr1 = 0 /\
  count is_update tr1 = 0 /\ count k_file tr1 = 0.
Proof.
  intros H. pose proof (emits_prelude w args hot) as He.
  assert (Htr : tr1 = snd (prelude w args hot [])) by (rewrite H; reflexivity).
  subst tr1. repeat split; rewrite (emits_count k_prelude) by (assumption || kinds);
    reflexivity.
Qed.

(** The run from the submission on, once prelude and lookup are known. *)
Lemma run_heat_from_lookup w fuel args hot STACK tr1 ex tr2 :
  prelude w args hot [] = (Ok STACK, tr1) ->
  stack_lookup w (stack_name_of args) tr1 = (Ok ex, tr2) ->
  _run_heat w fuel args hot [] =
  (stack_action <- submit w args STACK ex ;; complete w fuel args stack_action) tr2.
Proof.
  intros Hp Hl. rewrite run_heat_stages.
  rewrite (bind_ok _ _ _ _ _ Hp), (bind_ok _ _ _ _ _ Hl). reflexivity.
Qed.

Lemma run_heat_from_submit w fuel args hot STACK tr1 ex tr2 action tr3 :
  prelude w args hot [] = (Ok STACK, tr1) ->
  stack_lookup w (stack_name_of args) tr1 = (Ok ex, tr2) ->
  submit w args STACK ex tr2 = (Ok action, tr3) ->
  _run_heat w fuel args hot [] = complete w fuel args action tr3.
Proof.
  intros Hp Hl Hs. rewrite (run_heat_from_lookup _ _ _ _ _ _ _ _ Hp Hl).
  rewrite (bind_ok _ _ _ _ _ Hs). reflexivity.
Qed.

Lemma wait_stack_first w fuel name tr :
  exists es, snd (wait_stack w (S fuel) name tr) = tr +++ EvStacksGet name :: es.
Proof.
  simpl.
  destruct (bind_extends k_poll (stacks_get_call w name)
              (fun st => if String.eqb (status st) "IN_PROGRESS"
                         then LOG_debug "Waiting on stack..." ;; sleep 5 ;;
                              wait_stack w fuel name
                         else ret tt) tr) as (es & Hes).
  - intros st. destruct (String.eqb (status st) "IN_PROGRESS"); emits_auto.
    apply emits_wait_stack.
  - exists es. rewrite Hes. unfold stacks_get_call.
    destruct (stacks_get w (count is_get tr)); simpl; rewrite <- app_assoc; reflexivity.
Qed.

(** C1. In a run that gets as far as the stack lookup: when the lookup
    reports the stack absent, the run issues exactly one create and no
    update; when the stack exists and the update flag is set, exactly one
    update and no create; when it exists and the flag is not set, neither,
    and the call that follows the lookup is the first status poll. *)
Theorem create_update_or_neither w fuel args hot STACK tr1 stack_exists tr2 :
  prelude w args hot [] = (Ok STACK, tr1) ->
  stack_lookup w (stack_name_of args) tr1 = (Ok stack_exists, tr2) ->
  let tr := snd (_run_heat w fuel args hot []) in
  (stack_exists = false -> count is_create tr = 1 /\ count is_update tr = 0) /\
  (stack_exists = true -> heat_stack_update args = true ->
     count is_update tr = 1 /\ count is_create tr = 0) /\
  (stack_exists = true -> heat_stack_update args = false ->
     count is_create tr = 0 /\ count is_update tr = 0 /\
     (0 < fuel -> exists rest, tr = tr2 +++ EvStacksGet (stack_name_of args) :: rest)).
Proof.
  intros Hp Hl tr.
  destruct (prelude_counts _ _ _ _ _ Hp) as (_ & Hc1 & Hu1 & _).
  assert (Hc2 : count is_create tr2 = 0).
  { replace tr2 with (snd (stack_lookup w (stack_name_of args) tr1)) by (rewrite Hl; reflexivity).
    rewrite (emits_count k_poll) by (apply emits_stack_lookup || kinds). exact Hc1. }
  assert (Hu2 : count is_update tr2 = 0).
  { replace tr2 with (snd (stack_lookup w (stack_name_of args) tr1)) by (rewrite Hl; reflexivity).
    rewrite (emits_count k_poll) by (apply emits_stack_lookup || kinds). exact Hu1. }
  destruct (submit_counts w args STACK stack_exists tr2) as (Hc3 & Hu3).
  assert (Hc : count is_create tr = count is_create (snd (submit w args STACK stack_exists tr2))
               /\ count is_update tr = count is_update (snd (submit w args STACK stack_exists tr2))).
  { subst tr. rewrite (run_heat_from_lookup _ _ _ _ _ _ _ _ Hp Hl). unfold bind.
    destruct (submit w args STACK stack_exists tr2) as [[action|e|] tr3]; simpl; auto.
    split; rewrite (emits_count k_after_submit) by (apply emits_complete || kinds);
      reflexivity. }
  destruct Hc as (Hc & Hu). rewrite Hc3, Hc2 in Hc. rewrite Hu3, Hu2 in Hu.
  split; [|split].
  - intros ->. split; [exact Hc | exact Hu].
  - intros -> Hflag. rewrite Hflag in Hu. split; [exact Hu | exact Hc].
  - intros -> Hflag. rewrite Hflag in Hu. split; [exact Hc|]. split; [exact Hu|].
    intros Hfuel. subst tr.
    rewrite (run_heat_from_submit _ _ _ _ _ _ _ _ _ _ Hp Hl (submit_nothing _ _ _ _ Hflag)).
    destruct fuel as [|fuel]; [lia|]. unfold complete.
    destruct (bind_extends k_after_submit (wait_stack w (S fuel) (stack_name_of args))
                (fun _ => stack <- fetch_stack w (stack_name_of args) "create" ;;
                          configure w (S fuel) args stack) tr2) as (es & Hes).
    + intros _. apply emits_bind; [|intros; apply emits_configure].
      apply emits_weaken with (q := k_poll); [kinds | apply emits_fetch_stack].
    + rewrite Hes. destruct (wait_stack_first w fuel (stack_name_of args) tr2) as (es' & ->).
      exists (es' +++ es). rewrite <- app_assoc. reflexivity.
Qed.

(** ** Polling and fetching *)

Lemma wait_stack_in_progress w fuel name tr st :
  stacks_get w (count is_get tr) = inr st ->
  status st = "IN_PROGRESS" ->
  wait_stack w (S fuel) name tr =
  wait_stack w fuel name
    (tr +++ [EvStacksGet name; EvLog "DEBUG" "Waiting on stack..."; EvSleep 5]).
Proof.
  intros Hget Hst. simpl. unfold bind at 1, stacks_get_call.
  rewrite Hget, Hst. simpl. unfold bind, LOG_debug, sleep, emit.
  rewrite <- !app_assoc. reflexivity.
Qed.

Lemma wait_stack_done w fuel name tr st :
  stacks_get w (count is_get tr) = inr st ->
  status st <> "IN_PROGRESS" ->
  wait_stack w (S fuel) name tr = (Ok tt, tr +++ [EvStacksGet name]).
Proof.
  intros Hget Hst. simpl. unfold bind, stacks_get_call.
  rewrite Hget. apply String.eqb_neq in Hst. rewrite Hst. reflexivity.
Qed.

Lemma fetch_stack_complete w name action tr st :
  stacks_get w (count is_get tr) = inr st ->
  status st = "COMPLETE" ->
  fetch_stack w name action tr =
  (Ok st, tr +++ [EvStacksGet name; EvLog "DEBUG" ("Stack " ++ action ++ "d!")]).
Proof.
  intros Hget Hst. unfold fetch_stack, bind, stacks_get_call.
  rewrite Hget, Hst. simpl. unfold LOG_debug, emit.
  rewrite <- app_assoc. reflexivity.
Qed.

Lemma fetch_stack_unexpected w name action tr st :
  stacks_get w (count is_get tr) = inr st ->
  status st <> "COMPLETE" ->
  fetch_stack w name action tr =
  (Raise (PyException (unexpected_status_text name (status st))),
   tr +++ [EvStacksGet name]).
Proof.
  intros Hget Hst. unfold fetch_stack, bind, stacks_get_call.
  rewrite Hget. apply String.eqb_neq in Hst. rewrite Hst. reflexivity.
Qed.

Lemma submit_gets w args req ex tr action tr' :
  submit w args req ex tr = (Ok action, tr') ->
  count is_get tr' = count is_get tr /\ count k_file tr' = count k_file tr.
Proof.
  intros H. replace tr' with (snd (submit w args req ex tr)) by (rewrite H; reflexivity).
  split; apply (emits_count k_submit); (apply emits_submit || kinds).
Qed.

Lemma count_get_poll name tr :
  count is_get (tr +++ [EvStacksGet name; EvLog "DEBUG" "Waiting on stack..."; EvSleep 5])
  = S (count is_get tr).
Proof. rewrite count_app. simpl. lia. Qed.

(** The loop in general: [N] reads in progress and one that is not make
    [N + 1] polls. *)
Lemma wait_stack_polls w name N : forall fuel tr st,
  (forall i, i < N ->
     exists s, stacks_get w (count is_get tr + i) = inr s /\ status s = "IN_PROGRESS") ->
  stacks_get w (count is_get tr + N) = inr st ->
  status st <> "IN_PROGRESS" ->
  N < fuel ->
  exists tr', wait_stack w fuel name tr = (Ok tt, tr') /\
              count is_get tr' = count is_get tr + N + 1.
Proof.
  induction N as [|N IH]; intros fuel tr st Hprog Hlast Hst Hfuel;
    (destruct fuel as [|fuel]; [lia|]).
  - rewrite Nat.add_0_r in Hlast. rewrite (wait_stack_done w fuel name tr st Hlast Hst).
    eexists. split; [reflexivity|]. rewrite count_app. simpl. lia.
  - destruct (Hprog 0 (Nat.lt_0_succ N)) as (s & Hs & Hss). rewrite Nat.add_0_r in Hs.
    rewrite (wait_stack_in_progress w fuel name tr s Hs Hss).
    destruct (IH fuel (tr +++ [EvStacksGet name; EvLog "DEBUG" "Waiting on stack..."; EvSleep 5]) st)
      as (tr' & Hrun & Hcount).
    + intros i Hi. rewrite count_get_poll.
      replace (S (count is_get tr) + i) with (count is_get tr + S i) by lia.
      apply Hprog. lia.
    + rewrite count_get_poll.
      replace (S (count is_get tr) + N) with (count is_get tr + S N) by lia. exact Hlast.
    + exact Hst.
    + lia.
    + exists tr'. split; [exact Hrun|]. rewrite Hcount, count_get_poll. lia.
Qed.

(** C5. When the status reads that follow the lookup return IN_PROGRESS,
    IN_PROGRESS and COMPLETE, the polling loop asks the provider for the
    stack exactly three times and ends; the next call of the run is the
    [stacks.get] of line 313 that fetches the stack with its outputs, and
    when that stack is (still) COMPLETE the run goes on with its outputs. *)
Theorem three_polls_then_fetch w fuel args hot STACK tr1 ex tr2 action tr3 s1 s2 s3 :
  prelude w args hot [] = (Ok STACK, tr1) ->
  stack_lookup w (stack_name_of args) tr1 = (Ok ex, tr2) ->
  submit w args STACK ex tr2 = (Ok action, tr3) ->
  stacks_get w 1 = inr s1 -> status s1 = "IN_PROGRESS" ->
  stacks_get w 2 = inr s2 -> status s2 = "IN_PROGRESS" ->
  stacks_get w 3 = inr s3 -> status s3 = "COMPLETE" ->
  3 <= fuel ->
  let name := stack_name_of args in
  let polls := [EvStacksGet name; EvLog "DEBUG" "Waiting on stack..."; EvSleep 5;
                EvStacksGet name; EvLog "DEBUG" "Waiting on stack..."; EvSleep 5;
                EvStacksGet name] in
  wait_stack w fuel name tr3 = (Ok tt, tr3 +++ polls) /\
  count is_get polls = 3 /\
  (exists rest,
      snd (_run_heat w fuel args hot []) = tr3 +++ polls +++ EvStacksGet name :: rest) /\
  (forall st, stacks_get w 4 = inr st -> status st = "COMPLETE" ->
      _run_heat w fuel args hot [] =
      configure w fuel args st
        (tr3 +++ polls +++
           [EvStacksGet name; EvLog "DEBUG" ("Stack " ++ action ++ "d!")])).
Proof.
  intros Hp Hl Hs H1 Hs1 H2 Hs2 H3 Hs3 Hfuel name polls.
  destruct (prelude_counts _ _ _ _ _ Hp) as (Hg1 & _).
  pose proof (stack_lookup_gets _ _ _ _ _ Hl) as Hg2. rewrite Hg1 in Hg2.
  destruct (submit_gets _ _ _ _ _ _ _ Hs) as (Hg3 & _). rewrite Hg2 in Hg3.
  destruct fuel as [|[|[|fuel]]]; try lia.
  assert (Hw : wait_stack w (S (S (S fuel))) name tr3 = (Ok tt, tr3 +++ polls)).
  { rewrite (wait_stack_in_progress w _ name tr3 s1) by (rewrite ?Hg3; assumption).
    rewrite (wait_stack_in_progress w _ name _ s2)
      by (rewrite ?count_get_poll, ?Hg3; assumption).
    rewrite (wait_stack_done w _ name _ s3).
    - rewrite <- !app_assoc. reflexivity.
    - rewrite !count_get_poll, Hg3. assumption.
    - rewrite Hs3. discriminate. }
  assert (Hg4 : count is_get (tr3 +++ polls) = 4).
  { rewrite count_app, Hg3. reflexivity. }
  split; [exact Hw|]. split; [reflexivity|]. split.
  - rewrite (run_heat_from_submit _ _ _ _ _ _ _ _ _ _ Hp Hl Hs).
    unfold complete. rewrite (bind_ok _ _ _ _ _ Hw).
    destruct (bind_extends k_after_submit (fetch_stack w name action)
                (fun stack => configure w (S (S (S fuel))) args stack)
                (tr3 +++ polls)) as (es & Hes).
    + intros stack. apply emits_configure.
    + fold name. rewrite Hes. unfold fetch_stack, bind at 1, stacks_get_call.
      destruct (stacks_get w (count is_get (tr3 +++ polls))) as [e|st]; simpl.
      * exists es. rewrite <- !app_assoc. reflexivity.
      * destruct (negb (String.eqb (status st) "COMPLETE")); simpl.
        -- exists es. rewrite <- !app_assoc. reflexivity.
        -- unfold bind, LOG_debug, emit. simpl. eexists.
           rewrite <- !app_assoc. simpl. reflexivity.
  - intros st H4 Hs4.
    rewrite (run_heat_from_submit _ _ _ _ _ _ _ _ _ _ Hp Hl Hs).
    unfold complete. rewrite (bind_ok _ _ _ _ _ Hw).
    assert (Hf : fetch_stack w name action (tr3 +++ polls) =
                 (Ok st, (tr3 +++ polls) +++
                           [EvStacksGet name; EvLog "DEBUG" ("Stack " ++ action ++ "d!")])).
    { apply fetch_stack_complete; [rewrite Hg4|]; assumption. }
    fold name. rewrite (bind_ok _ _ _ _ _ Hf), <- !app_assoc. reflexivity.
Qed.

(** C8. When the polling loop has ended and the stack then read (line 313)
    has a status other than COMPLETE, the run ends in an exception whose
    message holds the stack name and that status, the last one seen; nothing
    was written: neither the routing document nor any other file. *)
Theorem unexpected_status_is_fatal w fuel args hot STACK tr1 ex tr2 action tr3 tr4 st :
  prelude w args hot [] = (Ok STACK, tr1) ->
  stack_lookup w (stack_name_of args) tr1 = (Ok ex, tr2) ->
  submit w args STACK ex tr2 = (Ok action, tr3) ->
  wait_stack w fuel (stack_name_of args) tr3 = (Ok tt, tr4) ->
  stacks_get w (count is_get tr4) = inr st ->
  status st <> "COMPLETE" ->
  let name := stack_name_of args in
  let msg := "stack " ++ name ++ " returned an unexpected status (" ++ status st ++ ")" in
  _run_heat w fuel args hot [] = (Raise (PyException msg), tr4 +++ [EvStacksGet name]) /\
  Py.contains name msg = true /\
  Py.contains (status st) msg = true /\
  count k_file (snd (_run_heat w fuel args hot [])) = 0.
Proof.
  intros Hp Hl Hs Hw Hget Hst name msg.
  assert (Hrun : _run_heat w fuel args hot [] =
                 (Raise (PyException msg), tr4 +++ [EvStacksGet name])).
  { rewrite (run_heat_from_submit _ _ _ _ _ _ _ _ _ _ Hp Hl Hs).
    unfold complete. rewrite (bind_ok _ _ _ _ _ Hw).
    apply bind_raise. apply fetch_stack_unexpected; assumption. }
  split; [exact Hrun|]. split; [|split].
  - apply (contains_append "stack " name).
  - subst msg. rewrite <- (append_assoc name), <- (append_assoc "stack ").
    apply contains_append.
  - rewrite Hrun. simpl. rewrite count_app. simpl.
    destruct (prelude_counts _ _ _ _ _ Hp) as (_ & _ & _ & Hf1).
    destruct (submit_gets _ _ _ _ _ _ _ Hs) as (_ & Hf3).
    replace tr4 with (snd (wait_stack w fuel (stack_name_of args) tr3))
      by (rewrite Hw; reflexivity).
    rewrite (emits_count k_poll) by (apply emits_wait_stack || kinds).
    rewrite Hf3.
    replace tr2 with (snd (stack_lookup w (stack_name_of args) tr1))
      by (rewrite Hl; reflexivity).
    rewrite (emits_count k_poll) by (apply emits_stack_lookup || kinds).
    rewrite Hf1. reflexivity.
Qed.

(** ** The outputs of the stack *)

Lemma read_outputs_spec outs : forall servers fip pk tr,
  exists logs,
    read_outputs outs servers fip pk tr =
    (Ok (servers_of outs servers, floating_ip_of outs fip, private_key_of outs pk),
     tr +++ logs)
    /\ forallb k_log logs = true.
Proof.
  induction outs as [|[k v] outs IH]; intros servers fip pk tr; simpl.
  - exists []. rewrite app_nil_r. auto.
  - destruct (String.eqb k "floating_ip"); [|destruct (String.eqb k "private_key")].
    + unfold bind, LOG_debug, emit. simpl.
      match goal with |- context [read_outputs outs servers ?f pk ?t] =>
        destruct (IH servers f pk t) as (logs & -> & Hlogs) end.
      eexists. rewrite <- app_assoc. split; [reflexivity|]. simpl. exact Hlogs.
    + apply IH.
    + unfold bind, LOG_debug, emit. simpl.
      match goal with |- context [read_outputs outs ?s fip pk ?t] =>
        destruct (IH s fip pk t) as (logs & -> & Hlogs) end.
      eexists. rewrite <- app_assoc. split; [reflexivity|]. simpl. exact Hlogs.
Qed.

Lemma floating_ip_of_absent outs : forall acc,
  (forall v, ~ In ("floating_ip", v) outs) -> floating_ip_of outs acc = acc.
Proof.
  induction outs as [|[k v] outs IH]; intros acc Hno; simpl; [reflexivity|].
  destruct (String.eqb_spec k "floating_ip") as [->|Hne].
  - exfalso. apply (Hno v). left. reflexivity.
  - apply IH. intros v' Hin. apply (Hno v'). right. exact Hin.
Qed.

Lemma dict_set_keys {V} k (v : V) d k' :
  In k' (map fst (dict_set k v d)) <-> k' = k \/ In k' (map fst d).
Proof.
  induction d as [|[k0 v0] d IH]; simpl.
  - intuition.
  - destruct (String.eqb_spec k0 k) as [->|Hne]; simpl.
    + intuition.
    + rewrite IH. intuition.
Qed.

Lemma dict_set_NoDup {V} k (v : V) d :
  NoDup (map fst d) -> NoDup (map fst (dict_set k v d)).
Proof.
  induction d as [|[k0 v0] d IH]; simpl; intros Hnd.
  - constructor; [simpl; tauto | constructor].
  - inversion Hnd as [|? ? Hnotin Hnd']; subst.
    destruct (String.eqb_spec k0 k) as [->|Hne]; simpl.
    + constructor; assumption.
    + constructor; [|auto]. rewrite dict_set_keys. intros [Heq|Hin]; auto.
Qed.

Lemma dict_set_In {V} k (v : V) d k' v' :
  In (k', v') (dict_set k v d) -> (k' = k /\ v' = v) \/ In (k', v') d.
Proof.
  induction d as [|[k0 v0] d IH]; simpl.
  - intros [[= <- <-]|[]]. auto.
  - destruct (String.eqb_spec k0 k) as [->|Hne]; simpl.
    + intros [[= <- <-]|Hin]; auto.
    + intros [Heq|Hin]; [auto|]. destruct (IH Hin); auto.
Qed.

Lemma servers_of_NoDup outs : forall acc,
  NoDup (map fst acc) -> NoDup (map fst (servers_of outs acc)).
Proof.
  induction outs as [|[k v] outs IH]; intros acc Hnd; simpl; [assumption|].
  destruct (String.eqb k "floating_ip"); [auto|].
  destruct (String.eqb k "private_key"); [auto|].
  apply IH, dict_set_NoDup, Hnd.
Qed.

Lemma servers_of_keys outs : forall acc k,
  In k (map fst (servers_of outs acc)) <-> In k (map fst acc) \/ In k (host_keys outs).
Proof.
  unfold host_keys, reserved.
  induction outs as [|[k0 v0] outs IH]; intros acc k; simpl; [tauto|].
  destruct (String.eqb k0 "floating_ip"); simpl; [apply IH|].
  destruct (String.eqb k0 "private_key"); simpl; [apply IH|].
  rewrite IH, dict_set_keys. intuition.
Qed.

Lemma servers_of_In outs : forall acc k v,
  In (k, v) (servers_of outs acc) -> In (k, v) acc \/ In (k, v) outs.
Proof.
  induction outs as [|[k0 v0] outs IH]; intros acc k v; simpl; [auto|].
  destruct (String.eqb k0 "floating_ip"); [intros H; destruct (IH _ _ _ H); auto|].
  destruct (String.eqb k0 "private_key"); [intros H; destruct (IH _ _ _ H); auto|].
  intros H. destruct (IH _ _ _ H) as [Hs|Ho]; [|auto].
  destruct (dict_set_In _ _ _ _ _ Hs) as [[-> ->]|Hacc]; auto.
Qed.

Lemma NoDup_fst {A B} (l : list (A * B)) : NoDup (map fst l) -> NoDup l.
Proof.
  induction l as [|[a b] l IH]; simpl; intros Hnd; [constructor|].
  inversion Hnd as [|? ? Hnotin Hnd']; subst. constructor; [|auto].
  intros Hin. apply Hnotin. apply (in_map fst) in Hin. exact Hin.
Qed.

Lemma dict_items_perm {V} w (d : list (string * V)) :
  order_ok w -> NoDup (map fst d) -> Permutation (dict_items w d) d.
Proof.
  intros Ho Hnd. apply NoDup_Permutation.
  - apply NoDup_fst. rewrite (dict_items_keys w Ho d Hnd).
    apply (Permutation_NoDup (l := map fst d)); [|assumption].
    apply Permutation_sym, Ho, Hnd.
  - apply NoDup_fst, Hnd.
  - intros [k v]. apply In_dict_items; assumption.
Qed.

(** ** The templates *)

Lemma format_header user :
  Py.format header_template [("user", Py.PyStr user)] = Some (default_block user None).
Proof. reflexivity. Qed.

Lemma default_block_identity user key :
  default_block user None ++ "  IdentityFile " ++ key = default_block user (Some key).
Proof.
  unfold default_block. rewrite !append_assoc. reflexivity.
Qed.

Lemma format_floating_ip fip :
  Py.format floating_ip_template [("floating_ip", fip)] = Some (gateway_block (Py.str fip)).
Proof. reflexivity. Qed.

Lemma format_server_direct server ip user fip :
  Py.format server_template
    [("server", Py.PyStr server); ("ip", Py.PyStr ip);
     ("user", Py.PyStr user); ("floating_ip", fip)]
  = Some (direct_block (server, ip)).
Proof. reflexivity. Qed.

Lemma format_server_proxied server ip user fip :
  Py.format (server_template ++ proxy_template)
    [("server", Py.PyStr server); ("ip", Py.PyStr ip);
     ("user", Py.PyStr user); ("floating_ip", fip)]
  = Some (proxied_block user (Py.str fip) (server, ip)).
Proof.
  transitivity
    (Some (Py.nl ++ "Host " ++ server ++ Py.nl ++ "  Hostname " ++ ip ++ Py.nl
           ++ "  ProxyCommand ssh -W %h:%p -o StrictHostKeyChecking=no "
           ++ user ++ "@" ++ Py.str fip ++ Py.nl ++ Py.nl)).
  - reflexivity.
  - unfold proxied_block, direct_block, proxy_directive, fst, snd.
    rewrite !append_assoc. reflexivity.
Qed.

(** ** Writing the routing document *)

Lemma write_private_key_spec args pk ssh_config tr :
  write_private_key args pk ssh_config tr =
  (Ok (if Py.truthy pk then ssh_config ++ "  IdentityFile " ++ ssh_key_path_of args
       else ssh_config),
   tr +++ key_events args pk).
Proof.
  unfold write_private_key, key_events. destruct (Py.truthy pk).
  - unfold bind, LOG_debug, _ssh_add, emit. simpl.
    rewrite append_nil_r, <- !app_assoc. reflexivity.
  - unfold ret. rewrite app_nil_r. reflexivity.
Qed.

Lemma write_server_spec args fip item tr :
  write_server args fip item tr =
  (Ok tt, tr +++ [EvWrite (ssh_config_path_of args) "a"
                    (server_block (ursula_user args) fip item)]).
Proof.
  destruct item as [server ip]. unfold write_server, server_block.
  destruct (Py.truthy fip).
  - rewrite format_server_proxied. reflexivity.
  - rewrite format_server_direct. reflexivity.
Qed.

Lemma write_servers_spec args fip items : forall tr,
  for_each items (write_server args fip) tr =
  (Ok tt, tr +++ map (fun item => EvWrite (ssh_config_path_of args) "a"
                                    (server_block (ursula_user args) fip item)) items).
Proof.
  induction items as [|item items IH]; intros tr; simpl.
  - unfold ret. rewrite app_nil_r. reflexivity.
  - rewrite (bind_ok _ _ _ _ _ (write_server_spec args fip item tr)).
    rewrite IH, <- app_assoc. reflexivity.
Qed.

Lemma write_ssh_config_spec w args servers fip pk tr :
  write_ssh_config w args servers fip pk tr =
  (Ok tt, tr +++ routing_events w args servers fip pk).
Proof.
  unfold write_ssh_config, routing_events.
  rewrite format_header.
  rewrite (bind_ok _ _ tr (default_block (ursula_user args) None) tr) by reflexivity.
  rewrite (bind_ok _ _ _ _ _ (write_private_key_spec args pk _ tr)).
  assert (Hid : (if Py.truthy pk
                 then default_block (ursula_user args) None ++ "  IdentityFile "
                      ++ ssh_key_path_of args
                 else default_block (ursula_user args) None)
                = default_block (ursula_user args) (identity_of args pk)).
  { unfold identity_of. destruct (Py.truthy pk); [apply default_block_identity | reflexivity]. }
  rewrite Hid. clear Hid.
  assert (Hmsg : Py.percent "writing ssh_config to %s" [ssh_config_path_of args]
                 = Some ("writing ssh_config to " ++ ssh_config_path_of args)).
  { simpl. rewrite append_nil_r. reflexivity. }
  rewrite Hmsg. clear Hmsg.
  rewrite (bind_ok _ _ _ ("writing ssh_config to " ++ ssh_config_path_of args)
             (tr +++ key_events args pk)) by reflexivity.
  unfold bind at 1, LOG_debug at 1, emit at 1.
  unfold bind at 1, emit at 1.
  match goal with |- bind ?m ?k ?t = _ =>
    assert (Hgw : m t = (Ok tt, t +++ (if Py.truthy fip
                    then [EvWrite (ssh_config_path_of args) "a" (gateway_block (Py.str fip))]
                    else [])))
  end.
  { destruct (Py.truthy fip).
    - rewrite format_floating_ip. reflexivity.
    - unfold ret. rewrite app_nil_r. reflexivity. }
  rewrite (bind_ok _ _ _ _ _ Hgw). clear Hgw.
  rewrite (bind_ok _ _ _ _ _ (write_servers_spec args fip _ _)).
  destruct (isfile w (abspath w (ssh_config_path_of args))).
  - assert (Harg : Py.percent "-F %s" [abspath w (ssh_config_path_of args)]
                   = Some ("-F " ++ abspath w (ssh_config_path_of args))).
    { simpl. rewrite append_nil_r. reflexivity. }
    rewrite Harg. unfold bind, _append_envvar, emit, fmt, ret.
    rewrite <- !app_assoc. reflexivity.
  - unfold ret. rewrite app_nil_r, <- !app_assoc. reflexivity.
Qed.

(** ** Reading the file back *)

Lemma file_chunks_app path tr1 tr2 : forall acc,
  file_chunks path (tr1 +++ tr2) acc = file_chunks path tr2 (file_chunks path tr1 acc).
Proof.
  induction tr1 as [|e tr1 IH]; intros acc; simpl; [reflexivity|].
  destruct e; auto. destruct (String.eqb path0 path); auto.
Qed.

Lemma file_chunks_appends path (f : string * string -> string) items : forall acc,
  file_chunks path (map (fun item => EvWrite path "a" (f item)) items) acc
  = acc +++ map f items.
Proof.
  induction items as [|item items IH]; intros acc; simpl.
  - rewrite app_nil_r. reflexivity.
  - rewrite String.eqb_refl, IH, <- app_assoc. reflexivity.
Qed.

Lemma file_content_flatten path tr : forall acc,
  file_content path tr (flatten acc) = flatten (file_chunks path tr acc).
Proof.
  induction tr as [|e tr IH]; intros acc; simpl; [reflexivity|].
  destruct e; auto. destruct (String.eqb path0 path); auto.
  destruct (String.eqb mode "w").
  - rewrite <- IH. simpl. rewrite append_nil_r. reflexivity.
  - rewrite <- IH. f_equal. unfold flatten.
    induction acc as [|a acc IHa]; simpl.
    + rewrite append_nil_r. reflexivity.
    + rewrite append_assoc, IHa. reflexivity.
Qed.

(** The document, piece by piece. *)
Lemma file_chunks_routing w args servers fip pk acc :
  file_chunks (ssh_config_path_of args) (routing_events w args servers fip pk) acc =
  default_block (ursula_user args) (identity_of args pk)
  :: (if Py.truthy fip then [gateway_block (Py.str fip)] else [])
  +++ map (server_block (ursula_user args) fip) (dict_items w servers).
Proof.
  unfold routing_events. rewrite !file_chunks_app.
  set (pre := file_chunks _ (key_events args pk) acc). clearbody pre.
  simpl file_chunks at 4. rewrite String.eqb_refl. simpl.
  assert (Hgw : file_chunks (ssh_config_path_of args)
            (if Py.truthy fip
             then [EvWrite (ssh_config_path_of args) "a" (gateway_block (Py.str fip))]
             else [])
            [default_block (ursula_user args) (identity_of args pk)]
          = default_block (ursula_user args) (identity_of args pk)
            :: (if Py.truthy fip then [gateway_block (Py.str fip)] else [])).
  { destruct (Py.truthy fip); simpl; [rewrite String.eqb_refl|]; reflexivity. }
  rewrite Hgw, file_chunks_appends.
  destruct (isfile w (abspath w (ssh_config_path_of args))); reflexivity.
Qed.

Lemma routing_document_eq w args outs :
  routing_document w args outs =
  default_block (ursula_user args) (identity_of args (private_key_of outs Py.PyNone))
  :: (if Py.truthy (floating_ip_of outs Py.PyNone)
      then [gateway_block (Py.str (floating_ip_of outs Py.PyNone))] else [])
  +++ map (server_block (ursula_user args) (floating_ip_of outs Py.PyNone))
          (dict_items w (servers_of outs [])).
Proof.
  unfold routing_document. rewrite write_ssh_config_spec. simpl snd.
  apply file_chunks_routing.
Qed.

(** The document of the whole run is the one [routing_document] describes:
    whatever the readiness gate does afterwards, the file holds these pieces. *)
Lemma configure_routing_document w fuel args stack tr acc :
  file_chunks (ssh_config_path_of args) (snd (configure w fuel args stack tr)) acc
  = routing_document w args (outputs stack).
Proof.
  unfold configure.
  destruct (read_outputs_spec (outputs stack) [] Py.PyNone Py.PyNone tr)
    as (logs & Hread & Hlogs).
  rewrite (bind_ok _ _ _ _ _ Hread).
  rewrite (bind_ok _ _ _ _ _ (write_ssh_config_spec w args _ _ _ _)).
  unfold bind at 1, LOG_debug, emit.
  destruct (emits_readiness_gate w fuel (floating_ip_of (outputs stack) Py.PyNone)
              (servers_of (outputs stack) []) (ursula_user args) (ssh_key_path_of args)
              (((tr +++ logs) +++ routing_events w args (servers_of (outputs stack) [])
                   (floating_ip_of (outputs stack) Py.PyNone)
                   (private_key_of (outputs stack) Py.PyNone))
               +++ [EvLog "DEBUG" "waiting for SSH connectivity..."]))
    as (es & -> & Hes).
  rewrite !file_chunks_app, file_chunks_routing, routing_document_eq.
  assert (Hnowrite : forall es acc', forallb k_gate es = true ->
            file_chunks (ssh_config_path_of args) es acc' = acc').
  { clear. induction es as [|e es IH]; intros acc' H; simpl in *; [reflexivity|].
    apply andb_true_iff in H as [He Hes]. destruct e; try discriminate; auto. }
  rewrite Hnowrite by assumption. reflexivity.
Qed.

Lemma sample_world_order_ok env gets ssh : order_ok (sample_world env gets ssh).
Proof. intros ks _. apply Permutation_refl. Qed.

Lemma host_keys_servers w outs :
  order_ok w ->
  let hosts := dict_items w (servers_of outs []) in
  NoDup (map fst hosts) /\
  (forall k, In k (map fst hosts) <-> In k (host_keys outs)) /\
  (forall k ip, In (k, ip) hosts -> In (k, ip) outs) /\
  Permutation hosts (servers_of outs []).
Proof.
  intros Ho hosts.
  assert (Hnd : NoDup (map fst (servers_of outs []))).
  { apply servers_of_NoDup. constructor. }
  pose proof (dict_items_perm w _ Ho Hnd) as Hperm. fold hosts in Hperm.
  repeat split.
  - apply (Permutation_NoDup (l := map fst (servers_of outs []))); [|assumption].
    apply Permutation_sym, Permutation_map, Hperm.
  - intros Hin. apply (Permutation_in _ (Permutation_map fst Hperm)) in Hin.
    apply servers_of_keys in Hin as [[]|Hin]. exact Hin.
  - intros Hin. apply (Permutation_in _ (Permutation_sym (Permutation_map fst Hperm))).
    apply servers_of_keys. right. exact Hin.
  - intros k ip Hin. apply (Permutation_in _ Hperm) in Hin.
    apply servers_of_In in Hin as [[]|Hin]. exact Hin.
  - exact Hperm.
Qed.

Lemma proxied_block_mentions user v item :
  Py.contains (user ++ "@" ++ v) (proxied_block user v item) = true.
Proof.
  unfold proxied_block, proxy_directive.
  set (pre := direct_block item
              ++ "  ProxyCommand ssh -W %h:%p -o StrictHostKeyChecking=no ").
  match goal with |- Py.contains ?sub ?s = true =>
    replace s with (pre ++ sub ++ (Py.nl ++ Py.nl)) end.
  - apply contains_append.
  - subst pre. rewrite !append_assoc. reflexivity.
Qed.

(** C2, as the code has it.  When the outputs hold a floating ip that is
    not the empty string, the routing document opens with the default block,
    continues with the block of the [floating_ip] alias whose hostname is the
    floating ip, and then holds, for every host of the outputs, one block
    whose proxy command goes through the operator user at the floating ip. *)
Theorem floating_ip_routing w args outs v :
  order_ok w ->
  floating_ip_of outs Py.PyNone = Py.PyStr v ->
  v <> "" ->
  let user := ursula_user args in
  let hosts := dict_items w (servers_of outs []) in
  routing_document w args outs =
    default_block user (identity_of args (private_key_of outs Py.PyNone))
    :: gateway_block v :: map (proxied_block user v) hosts /\
  gateway_and_proxies user v (routing_document w args outs) /\
  Permutation hosts (servers_of outs []) /\
  (forall k, In k (map fst hosts) <-> In k (host_keys outs)) /\
  (forall item, In item hosts ->
     Py.contains (user ++ "@" ++ v) (proxied_block user v item) = true).
Proof.
  intros Ho Hfip Hv user hosts.
  assert (Hdoc : routing_document w args outs =
                 default_block user (identity_of args (private_key_of outs Py.PyNone))
                 :: gateway_block v :: map (proxied_block user v) hosts).
  { rewrite routing_document_eq, Hfip. unfold server_block.
    assert (Ht : Py.truthy (Py.PyStr v) = true) by (destruct v; [contradiction | reflexivity]).
    rewrite Ht. reflexivity. }
  destruct (host_keys_servers w outs Ho) as (_ & Hkeys & _ & Hperm).
  split; [exact Hdoc|]. split; [|split; [exact Hperm|split; [exact Hkeys|]]].
  - rewrite Hdoc. eexists _, _. reflexivity.
  - intros item _. apply proxied_block_mentions.
Qed.

(** The scenario of C2 in the sample surroundings: the document, in full. *)
Lemma floating_ip_routing_witness :
  routing_document plain_world (sample_args false) scenario_outputs =
    [default_block "ops" None;
     gateway_block "203.0.113.9";
     proxied_block "ops" "203.0.113.9" ("node1", "10.0.0.5");
     proxied_block "ops" "203.0.113.9" ("node2", "10.0.0.6")].
Proof.
  exact (proj1 (floating_ip_routing plain_world (sample_args false) scenario_outputs
                  "203.0.113.9" (sample_world_order_ok _ _ _) eq_refl
                  (fun H : "203.0.113.9" = "" => eq_ind "203.0.113.9"
                     (fun s => match s with EmptyString => False | _ => True end) I "" H))).
Defined.

(** C2 as stated fails on outputs whose floating ip is the empty string:
    the document then has the default block and a direct block for the
    host, no gateway block and no proxy command. *)
Lemma empty_floating_ip_counterexample :
  floating_ip_of empty_ip_outputs Py.PyNone = Py.PyStr "" /\
  routing_document plain_world (sample_args false) empty_ip_outputs =
    [default_block "ops" None; direct_block ("node1", "10.0.0.5")] /\
  ~ gateway_and_proxies "ops" "" (routing_document plain_world (sample_args false)
                                    empty_ip_outputs) /\
  Py.contains "ProxyCommand"
    (flatten (routing_document plain_world (sample_args false) empty_ip_outputs)) = false.
Proof.
  split; [reflexivity|]. split; [reflexivity|]. split; [|reflexivity].
  intros (identity & hosts & H).
  assert (Hdoc : routing_document plain_world (sample_args false) empty_ip_outputs =
                 [default_block "ops" None; direct_block ("node1", "10.0.0.5")])
    by reflexivity.
  rewrite Hdoc in H. injection H as _ Hgw _. discriminate Hgw.
Qed.

(** C3. When the outputs have no [floating_ip] key, the routing document is
    the default block followed by exactly one block per output key other
    than the reserved ones: no key twice, every key once; each block gives
    the address of that key in the outputs as a direct hostname, and has no
    proxy command. *)
Theorem direct_routing w args outs :
  order_ok w ->
  (forall v, ~ In ("floating_ip", v) outs) ->
  let hosts := dict_items w (servers_of outs []) in
  routing_document w args outs =
    default_block (ursula_user args) (identity_of args (private_key_of outs Py.PyNone))
    :: map direct_block hosts /\
  NoDup (map fst hosts) /\
  (forall k, In k (map fst hosts) <-> In k (host_keys outs)) /\
  (forall k ip, In (k, ip) hosts -> In (k, ip) outs) /\
  length hosts = length (nodup string_dec (host_keys outs)).
Proof.
  intros Ho Hno hosts.
  destruct (host_keys_servers w outs Ho) as (Hnd & Hkeys & Hval & _).
  fold hosts in Hnd, Hkeys, Hval.
  split; [|split; [exact Hnd|split; [exact Hkeys|split; [exact Hval|]]]].
  - rewrite routing_document_eq, (floating_ip_of_absent outs Py.PyNone Hno).
    reflexivity.
  - rewrite <- (length_map fst hosts). apply Permutation_length, NoDup_Permutation.
    + exact Hnd.
    + apply NoDup_nodup.
    + intros k. rewrite nodup_In. apply Hkeys.
Qed.

Lemma no_floating_ip_in_direct_outputs : forall v, ~ In ("floating_ip", v) direct_outputs.
Proof. intros v H. simpl in H. destruct H as [H|[H|[]]]; discriminate H. Qed.

(** C3 on two hosts, in the sample surroundings. *)
Lemma direct_routing_witness :
  routing_document plain_world (sample_args false) direct_outputs =
    [default_block "ops" None;
     direct_block ("node1", "10.0.0.5");
     direct_block ("node2", "10.0.0.6")].
Proof.
  exact (proj1 (direct_routing plain_world (sample_args false) direct_outputs
                  (sample_world_order_ok _ _ _) no_floating_ip_in_direct_outputs)).
Defined.

(** ** The connectivity probe and the readiness gate *)

Lemma test_ssh_connected w host user key tr :
  ssh_connect w host (attempts host tr) = Connected ->
  test_ssh w host user key tr =
  (Ok (Py.PyBool true), tr +++ successful_attempt host user key).
Proof.
  intros Hc. unfold test_ssh, bind at 1, connect. rewrite Hc.
  unfold bind, LOG_debug, emit, successful_attempt. simpl.
  rewrite <- app_assoc. reflexivity.
Qed.

Lemma test_ssh_failed w host user key tr :
  probe_fails (ssh_connect w host (attempts host tr)) = true ->
  test_ssh w host user key tr =
  (Ok Py.PyNone,
   tr +++ [EvSshConnect host user key (ssh_connect w host (attempts host tr));
           EvLog "DEBUG" (connect_exc_text (ssh_connect w host (attempts host tr)));
           EvLog "DEBUG" ("Connect to " ++ host ++ " failed. Retrying... ")]).
Proof.
  intros Hf. unfold test_ssh, bind at 1, connect.
  destruct (ssh_connect w host (attempts host tr)); try discriminate;
    unfold connect_failed, bind, LOG_debug, emit; simpl;
    rewrite <- !app_assoc; reflexivity.
Qed.

Lemma test_ssh_other w host user key tr e :
  ssh_connect w host (attempts host tr) = OtherConnectError e ->
  test_ssh w host user key tr =
  (Raise (ClientException e), tr +++ [EvSshConnect host user key (OtherConnectError e)]).
Proof.
  intros Hc. unfold test_ssh, bind at 1, connect. rewrite Hc. reflexivity.
Qed.

Lemma wait_ssh_connected w fuel host user key msg tr :
  ssh_connect w host (attempts host tr) = Connected ->
  wait_ssh w (S fuel) host user key msg tr =
  (Ok tt, tr +++ successful_attempt host user key).
Proof.
  intros Hc. simpl. rewrite (bind_ok _ _ _ _ _ (test_ssh_connected w host user key tr Hc)).
  reflexivity.
Qed.

Lemma wait_ssh_failed w fuel host user key msg tr :
  probe_fails (ssh_connect w host (attempts host tr)) = true ->
  wait_ssh w (S fuel) host user key msg tr =
  wait_ssh w fuel host user key msg
    (tr +++ failed_attempt host user key msg (ssh_connect w host (attempts host tr))).
Proof.
  intros Hf. simpl. rewrite (bind_ok _ _ _ _ _ (test_ssh_failed w host user key tr Hf)).
  simpl. unfold bind, LOG_debug, sleep, emit, failed_attempt.
  rewrite <- !app_assoc. reflexivity.
Qed.

Lemma attempts_failed host user key msg r tr :
  attempts host (tr +++ failed_attempt host user key msg r) = S (attempts host tr).
Proof.
  unfold attempts. rewrite count_app. simpl. rewrite String.eqb_refl. simpl. lia.
Qed.

Lemma count_failed_attempts p w host user key msg n : forall a,
  (forall r, count p (failed_attempt host user key msg r) = 1) ->
  count p (failed_attempts w host user key msg a n) = n.
Proof.
  induction n as [|n IH]; intros a Hp; [reflexivity|].
  cbn [failed_attempts]. rewrite count_app, Hp, IH by assumption. reflexivity.
Qed.

Lemma wait_ssh_retries w host user key msg N : forall fuel tr,
  (forall i, i < N -> probe_fails (ssh_connect w host (attempts host tr + i)) = true) ->
  ssh_connect w host (attempts host tr + N) = Connected ->
  N < fuel ->
  wait_ssh w fuel host user key msg tr =
  (Ok tt, tr +++ failed_attempts w host user key msg (attempts host tr) N
             +++ successful_attempt host user key).
Proof.
  induction N as [|N IH]; intros fuel tr Hfail Hok Hfuel;
    (destruct fuel as [|fuel]; [lia|]).
  - rewrite Nat.add_0_r in Hok. rewrite wait_ssh_connected by assumption. reflexivity.
  - rewrite wait_ssh_failed
      by (specialize (Hfail 0 (Nat.lt_0_succ N)); rewrite Nat.add_0_r in Hfail; exact Hfail).
    rewrite IH.
    + rewrite attempts_failed. cbn [failed_attempts]. rewrite <- !app_assoc. reflexivity.
    + intros i Hi. rewrite attempts_failed.
      replace (S (attempts host tr) + i) with (attempts host tr + S i) by lia.
      apply Hfail. lia.
    + rewrite attempts_failed.
      replace (S (attempts host tr) + N) with (attempts host tr + S N) by lia.
      exact Hok.
    + lia.
Qed.

(** The gate with a floating ip is the wait loop on that address. *)
Lemma readiness_gate_floating_ip w fuel v servers user key :
  v <> "" ->
  readiness_gate w fuel (Py.PyStr v) servers user key =
  wait_ssh w fuel v user key "waiting for SSH connectivity...".
Proof. intros Hv. unfold readiness_gate. destruct v; [contradiction | reflexivity]. Qed.

Lemma probed_app tr1 tr2 : probed (tr1 +++ tr2) = probed tr1 +++ probed tr2.
Proof. unfold probed. apply flat_map_app. Qed.

(** If a wait loop returns, it probed nothing but its host, and one probe
    of the host succeeded. *)
Lemma wait_ssh_returns w host user key msg fuel : forall tr tr',
  wait_ssh w fuel host user key msg tr = (Ok tt, tr') ->
  exists new, tr' = tr +++ new /\
              (forall h, In h (probed new) -> h = host) /\
              0 < count (is_connected_to host) new.
Proof.
  induction fuel as [|fuel IH]; intros tr tr' Hret; [discriminate|].
  destruct (ssh_connect w host (attempts host tr)) as [|e|e|e|e|e] eqn:Hc.
  1: { rewrite wait_ssh_connected in Hret by assumption. injection Hret as <-.
       exists (successful_attempt host user key). split; [reflexivity|]. split.
       - simpl. intros h [<-|[]]. reflexivity.
       - simpl. rewrite String.eqb_refl. simpl. lia. }
  5: { simpl in Hret.
       rewrite (bind_raise _ _ _ _ _ (test_ssh_other w host user key tr e Hc)) in Hret.
       discriminate. }
  all: rewrite wait_ssh_failed in Hret by (rewrite Hc; reflexivity);
    destruct (IH _ _ Hret) as (new & -> & Hprobed & Hcount);
    eexists; rewrite <- app_assoc; (split; [reflexivity|]); split;
    [ rewrite probed_app; intros h Hin; apply in_app_or in Hin as [Hin|Hin];
      [simpl in Hin; destruct Hin as [<-|[]]; reflexivity | apply Hprobed, Hin]
    | rewrite count_app; lia ].
Qed.

Lemma waiting_message ip :
  Py.format "waiting for {} SSH connectivity..." [("", Py.PyStr ip)]
  = Some ("waiting for " ++ ip ++ " SSH connectivity...").
Proof. reflexivity. Qed.

Lemma wait_hosts_returns w fuel user key ips : forall tr tr',
  for_each ips (fun ip =>
    msg <- fmt (Py.format "waiting for {} SSH connectivity..." [("", Py.PyStr ip)]) ;;
    wait_ssh w fuel ip user key msg) tr = (Ok tt, tr') ->
  exists new, tr' = tr +++ new /\
              (forall h, In h (probed new) -> In h ips) /\
              (forall ip, In ip ips -> 0 < count (is_connected_to ip) new).
Proof.
  induction ips as [|ip ips IH]; intros tr tr' Hret.
  - injection Hret as <-. exists []. rewrite app_nil_r.
    split; [reflexivity|]. split; intros ? [].
  - cbn [for_each] in Hret. unfold bind at 1 in Hret.
    rewrite waiting_message in Hret. unfold fmt, ret, bind at 1 in Hret.
    destruct (wait_ssh w fuel ip user key ("waiting for " ++ ip ++ " SSH connectivity...") tr)
      as [[[]|e|] tr1] eqn:Hw; try discriminate.
    destruct (wait_ssh_returns _ _ _ _ _ _ _ _ Hw) as (new1 & -> & Hp1 & Hc1).
    destruct (IH _ _ Hret) as (new2 & -> & Hp2 & Hc2).
    exists (new1 +++ new2). rewrite <- app_assoc. split; [reflexivity|]. split.
    + intros h. rewrite probed_app. intros Hin. apply in_app_or in Hin as [Hin|Hin].
      * left. symmetry. apply Hp1, Hin.
      * right. apply Hp2, Hin.
    + intros ip' [<-|Hin]; rewrite count_app; [lia|].
      specialize (Hc2 ip' Hin). lia.
Qed.










(** C4, as the code has it.  The gate returns only after every address it
    requires was probed with success at least once.  With a floating ip that
    is not the empty string, that address is the only one probed; with none,
    or with an empty one, each host address of the outputs has a successful
    probe of its own before the gate returns. *)
Theorem gate_returns_after_success w fuel fip servers user key tr tr' :
  readiness_gate w fuel fip servers user key tr = (Ok tt, tr') ->
  exists new,
    tr' = tr +++ new /\
    (forall v, fip = Py.PyStr v -> v <> "" ->
       (forall h, In h (probed new) -> h = v) /\
       0 < count (is_connected_to v) new) /\
    (fip = Py.PyNone \/ fip = Py.PyStr "" ->
       (forall h, In h (probed new) -> In h (map snd (dict_items w servers))) /\
       (forall k ip, In (k, ip) (dict_items w servers) ->
          0 < count (is_connected_to ip) new)).
Proof.
  intros Hret. unfold readiness_gate in Hret.
  destruct (Py.truthy fip) eqn:Ht.
  - destruct (wait_ssh_returns _ _ _ _ _ _ _ _ Hret) as (new & -> & Hp & Hc).
    exists new. split; [reflexivity|]. split.
    + intros v -> _. simpl in Hp, Hc. auto.
    + intros [->| ->]; discriminate.
  - destruct (wait_hosts_returns _ _ _ _ _ _ _ Hret) as (new & -> & Hp & Hc).
    exists new. split; [reflexivity|]. split.
    + intros v -> Hv. destruct v; [contradiction | discriminate].
    + intros _. split; [exact Hp|].
      intros k ip Hin. apply Hc. apply (in_map snd) in Hin. exact Hin.
Qed.

(** ** The claims on concrete runs *)

(** C4 in the sample surroundings with a floating ip: one probe, of the
    floating ip. *)
Lemma gate_returns_after_success_witness :
  exists new,
    snd (readiness_gate plain_world 1 (Py.PyStr "203.0.113.9")
           (servers_of scenario_outputs []) "ops" "envs/test/.ssh_key" []) = new /\
    (forall h, In h (probed new) -> h = "203.0.113.9") /\
    0 < count (is_connected_to "203.0.113.9") new.
Proof.
  destruct (gate_returns_after_success plain_world 1 (Py.PyStr "203.0.113.9")
              (servers_of scenario_outputs []) "ops" "envs/test/.ssh_key" []
              (successful_attempt "203.0.113.9" "ops" "envs/test/.ssh_key") eq_refl)
    as (new & Hnew & Hfip & _).
  exists new. split.
  - simpl in Hnew. simpl. exact Hnew.
  - apply (Hfip "203.0.113.9" eq_refl). discriminate.
Defined.

(** C4 as stated fails on outputs whose floating ip is the empty string:
    the gate returns after probing the host, and never probes the floating
    ip. *)
Lemma empty_floating_ip_gate_counterexample :
  floating_ip_of empty_ip_outputs Py.PyNone = Py.PyStr "" /\
  readiness_gate plain_world 1 (floating_ip_of empty_ip_outputs Py.PyNone)
    (servers_of empty_ip_outputs []) "ops" "envs/test/.ssh_key" []
  = (Ok tt, successful_attempt "10.0.0.5" "ops" "envs/test/.ssh_key") /\
  probed (successful_attempt "10.0.0.5" "ops" "envs/test/.ssh_key") = ["10.0.0.5"] /\
  count (is_connect_to "") (successful_attempt "10.0.0.5" "ops" "envs/test/.ssh_key") = 0.
Proof. repeat split. Qed.

(** C1 on three runs: an absent stack, an existing stack with the update
    flag, an existing stack without. *)
Lemma create_update_or_neither_witness :
  (count is_create (snd (_run_heat absent_world 3 (sample_args false) "template" [])) = 1 /\
   count is_update (snd (_run_heat absent_world 3 (sample_args false) "template" [])) = 0) /\
  (count is_update (snd (_run_heat existing_world 3 (sample_args true) "template" [])) = 1 /\
   count is_create (snd (_run_heat existing_world 3 (sample_args true) "template" [])) = 0) /\
  (count is_create (snd (_run_heat existing_world 3 (sample_args false) "template" [])) = 0 /\
   count is_update (snd (_run_heat existing_world 3 (sample_args false) "template" [])) = 0).
Proof.
  split; [|split].
  - exact (proj1 (create_update_or_neither absent_world 3 (sample_args false) "template"
                    (mkRequest "test" "template" None)
                    (after_prelude absent_world (sample_args false) "template") false
                    (after_lookup absent_world (sample_args false) "template")
                    eq_refl eq_refl) eq_refl).
  - exact (proj1 (proj2 (create_update_or_neither existing_world 3 (sample_args true)
                    "template" (mkRequest "test" "template" None)
                    (after_prelude existing_world (sample_args true) "template") true
                    (after_lookup existing_world (sample_args true) "template")
                    eq_refl eq_refl)) eq_refl eq_refl).
  - destruct (proj2 (proj2 (create_update_or_neither existing_world 3 (sample_args false)
                    "template" (mkRequest "test" "template" None)
                    (after_prelude existing_world (sample_args false) "template") true
                    (after_lookup existing_world (sample_args false) "template")
                    eq_refl eq_refl)) eq_refl eq_refl) as (Hc & Hu & _).
    exact (conj Hc Hu).
Defined.

(** C5 on a stack read as IN_PROGRESS, IN_PROGRESS, COMPLETE. *)
Lemma three_polls_then_fetch_witness :
  let tr3 := after_submit polling_world (sample_args false) "template" false in
  wait_stack polling_world 3 "test" tr3 =
  (Ok tt,
   tr3 +++ [EvStacksGet "test"; EvLog "DEBUG" "Waiting on stack..."; EvSleep 5;
            EvStacksGet "test"; EvLog "DEBUG" "Waiting on stack..."; EvSleep 5;
            EvStacksGet "test"]).
Proof.
  exact (proj1 (three_polls_then_fetch polling_world 3 (sample_args false) "template"
                  (mkRequest "test" "template" None)
                  (after_prelude polling_world (sample_args false) "template") false
                  (after_lookup polling_world (sample_args false) "template") "create"
                  (after_submit polling_world (sample_args false) "template" false)
                  in_progress_stack in_progress_stack complete_stack
                  eq_refl eq_refl eq_refl eq_refl eq_refl eq_refl eq_refl eq_refl eq_refl
                  (le_n 3))).
Defined.

(** C8 on a stack that has failed. *)
Lemma unexpected_status_is_fatal_witness :
  fst (_run_heat failed_world 3 (sample_args false) "template" []) =
  Raise (PyException "stack test returned an unexpected status (FAILED)").
Proof.
  assert (Hne : status failed_stack <> "COMPLETE") by discriminate.
  exact (f_equal fst
           (proj1 (unexpected_status_is_fatal failed_world 3 (sample_args false) "template"
                     (mkRequest "test" "template" None)
                     (after_prelude failed_world (sample_args false) "template") true
                     (after_lookup failed_world (sample_args false) "template") "create"
                     (after_submit failed_world (sample_args false) "template" true)
                     (after_submit failed_world (sample_args false) "template" true
                      +++ [EvStacksGet "test"])
                     failed_stack eq_refl eq_refl eq_refl eq_refl eq_refl Hne))).
Defined.

(** C6 with [OS_PASSWORD] unset: the message names [password]. *)
Lemma missing_credential_witness :
  _run_heat no_password_world 3 (sample_args false) "template" [] =
  (Raise (OpenStackConfigurationError
            ("password is missing, ensure your environment (probably the stackrc file) "
             ++ "is properly configured with OpenStack credentials")), []).
Proof.
  destruct (missing_credential_is_configuration_error no_password_world 3
              (sample_args false) "template" (sample_world_order_ok _ _ _) eq_refl
              (or_intror (or_introl eq_refl))) as (name & Hin & Hrun & _).
  simpl in Hin.
  destruct Hin as [Hin|[Hin|[Hin|[Hin|[Hin|[]]]]]]; try discriminate Hin.
  injection Hin as <-. exact Hrun.
Defined.

(** C7 in the sample surroundings, where the provider answers 404. *)
Lemma stack_lookup_not_found_witness :
  fst (stack_lookup plain_world "test" []) = Ok false.
Proof.
  exact (proj1 (stack_lookup_not_found_is_absent plain_world "test" [])
           not_found eq_refl eq_refl).
Defined.

Lemma empty_password_no_None k : ~ In (k, Py.PyNone) (CREDS_literal empty_password_world).
Proof.
  simpl. intros [H|[H|[H|[H|[H|[]]]]]]; discriminate H.
Qed.

(** C10 with [OS_PASSWORD] set to the empty string. *)
Lemma empty_credential_witness :
  _run_heat empty_password_world 3 (sample_args false) "template" [] =
  (Raise (ValueError "None is not in list"), []).
Proof.
  exact (proj2 (empty_credential_is_value_error empty_password_world
                  (sample_world_order_ok _ _ _))
           empty_password_no_None
           (ex_intro _ "password" (or_intror (or_introl eq_refl)))
           eq_refl 3 (sample_args false) "template").
Defined.

(** ** The gate as a whole, on distinct addresses *)

Lemma attempts_wait host user key msg w a N h tr :
  attempts h (tr +++ failed_attempts w host user key msg a N
                 +++ successful_attempt host user key)
  = attempts h tr + (if String.eqb host h then N + 1 else 0).
Proof.
  unfold attempts. rewrite !count_app. f_equal.
  destruct (String.eqb host h) eqn:Hh.
  - rewrite count_failed_attempts.
    + simpl. rewrite Hh. reflexivity.
    + intros r. simpl. rewrite Hh. reflexivity.
  - replace (count (is_connect_to h) (failed_attempts w host user key msg a N)) with 0.
    + simpl. rewrite Hh. reflexivity.
    + revert a. induction N as [|N IH]; intros a; [reflexivity|].
      cbn [failed_attempts]. rewrite count_app, <- IH. simpl. rewrite Hh. reflexivity.
Qed.

(** On pairwise distinct addresses, each failing [Nf ip] times before it
    answers, the loop over the hosts returns, having made [Nf ip + 1]
    attempts on each address [ip] and none on any other. *)
Lemma wait_hosts_attempts w fuel user key (Nf : string -> nat) ips : forall tr,
  NoDup ips ->
  (forall ip, In ip ips ->
     (forall i, i < Nf ip -> probe_fails (ssh_connect w ip (attempts ip tr + i)) = true) /\
     ssh_connect w ip (attempts ip tr + Nf ip) = Connected /\
     Nf ip < fuel) ->
  exists tr',
    for_each ips (fun ip =>
      msg <- fmt (Py.format "waiting for {} SSH connectivity..." [("", Py.PyStr ip)]) ;;
      wait_ssh w fuel ip user key msg) tr = (Ok tt, tr') /\
    (forall ip, In ip ips -> attempts ip tr' = attempts ip tr + Nf ip + 1) /\
    (forall h, ~ In h ips -> attempts h tr' = attempts h tr).
Proof.
  induction ips as [|ip ips IH]; intros tr Hnd Hips.
  - exists tr. split; [reflexivity|]. split; [intros ? []|reflexivity].
  - inversion Hnd as [|? ? Hnotin Hnd']; subst.
    destruct (Hips ip (or_introl eq_refl)) as (Hfail & Hok & Hfuel).
    pose proof (wait_ssh_retries w ip user key
                  ("waiting for " ++ ip ++ " SSH connectivity...") (Nf ip) fuel tr
                  Hfail Hok Hfuel) as Hw.
    set (tr1 := tr +++ failed_attempts w ip user key
                         ("waiting for " ++ ip ++ " SSH connectivity...")
                         (attempts ip tr) (Nf ip)
                   +++ successful_attempt ip user key) in *.
    assert (Hatt : forall h, attempts h tr1 =
                             attempts h tr + (if String.eqb ip h then Nf ip + 1 else 0)).
    { intros h. apply attempts_wait. }
    destruct (IH tr1 Hnd') as (tr' & Hrun & Hin & Hout).
    { intros ip' Hin'. destruct (Hips ip' (or_intror Hin')) as (Hf' & Ho' & Hl').
      assert (Hne : String.eqb ip ip' = false).
      { apply String.eqb_neq. intros ->. contradiction. }
      rewrite Hatt, Hne, Nat.add_0_r. auto. }
    exists tr'. split; [|split].
    + cbn [for_each]. unfold bind at 1. rewrite waiting_message.
      unfold fmt, ret, bind at 1. rewrite Hw. exact Hrun.
    + intros ip' [<-|Hin'].
      * rewrite (Hout ip Hnotin), Hatt, String.eqb_refl. lia.
      * rewrite (Hin ip' Hin'), Hatt.
        assert (Hne : String.eqb ip ip' = false).
        { apply String.eqb_neq. intros ->. contradiction. }
        rewrite Hne. lia.
    + intros h Hnot. rewrite Hout by (intros Hc; apply Hnot; right; exact Hc).
      rewrite Hatt.
      assert (Hne : String.eqb ip h = false).
      { apply String.eqb_neq. intros ->. apply Hnot. left. reflexivity. }
      rewrite Hne. lia.
Qed.

(** The same for the gate: the addresses it requires are the floating ip
    when there is one, and the addresses of the hosts otherwise. *)
Corollary readiness_gate_attempts w fuel fip servers user key (Nf : string -> nat) tr :
  let required :=
    if Py.truthy fip then [Py.str fip] else map snd (dict_items w servers) in
  NoDup required ->
  (forall ip, In ip required ->
     (forall i, i < Nf ip -> probe_fails (ssh_connect w ip (attempts ip tr + i)) = true) /\
     ssh_connect w ip (attempts ip tr + Nf ip) = Connected /\
     Nf ip < fuel) ->
  exists tr',
    readiness_gate w fuel fip servers user key tr = (Ok tt, tr') /\
    (forall ip, In ip required -> attempts ip tr' = attempts ip tr + Nf ip + 1) /\
    (forall h, ~ In h required -> attempts h tr' = attempts h tr).
Proof.
  intros required Hnd Hreq. unfold readiness_gate. subst required.
  destruct (Py.truthy fip).
  - destruct (Hreq (Py.str fip) (or_introl eq_refl)) as (Hfail & Hok & Hfuel).
    eexists. split; [apply wait_ssh_retries; eassumption|].
    split.
    + intros ip [<-|[]]. rewrite attempts_wait, String.eqb_refl. lia.
    + intros h Hnot. rewrite attempts_wait.
      assert (Hne : String.eqb (Py.str fip) h = false).
      { apply String.eqb_neq. intros Heq. apply Hnot. left. exact Heq. }
      rewrite Hne. lia.
  - apply wait_hosts_attempts; assumption.
Qed.

(** ** A whole run *)

(** The scenario from end to end: the stack is absent, is created, is read
    as IN_PROGRESS twice and then as COMPLETE with two nodes and a floating
    ip; the run returns, has asked for the stack five times, and leaves the
    routing document of the scenario behind. *)
Example scenario_run :
  let run := _run_heat polling_world 3 (sample_args false) "template" [] in
  fst run = Ok tt /\
  count is_get (snd run) = 5 /\
  count is_create (snd run) = 1 /\
  probed (snd run) = ["203.0.113.9"] /\
  file_content "envs/test/.ssh_config" (snd run) "" =
    flatten [default_block "ops" None;
             gateway_block "203.0.113.9";
             proxied_block "ops" "203.0.113.9" ("node1", "10.0.0.5");
             proxied_block "ops" "203.0.113.9" ("node2", "10.0.0.6")].
Proof. vm_compute. repeat split. Qed.

(** The document of a run with a private key names the key file in its
    default block, and the key was written, restricted and added before. *)
Example private_key_routing :
  routing_events plain_world (sample_args false) [("node1", "10.0.0.5")]
    Py.PyNone (Py.PyStr "KEY") =
  [EvLog "DEBUG" "writing ssh_key to envs/test/.ssh_key";
   EvWrite "envs/test/.ssh_key" "w" "KEY";
   EvChmod "envs/test/.ssh_key" 384;
   EvSshAdd "envs/test/.ssh_key";
   EvLog "DEBUG" "writing ssh_config to envs/test/.ssh_config";
   EvWrite "envs/test/.ssh_config" "w" (default_block "ops" (Some "envs/test/.ssh_key"));
   EvWrite "envs/test/.ssh_config" "a" (direct_block ("node1", "10.0.0.5"));
   EvAppendEnvvar "ANSIBLE_SSH_ARGS" "-F /srv/envs/test/.ssh_config"].
Proof. reflexivity. Qed.

(** * Further properties of the heat run *)

(** ** Loops without a bound *)

(** X1. The polling loop has no bound of its own: while the provider keeps
    answering IN_PROGRESS the loop neither returns nor raises; whatever
    number of iterations it is given, it is still polling when they are used
    up, having asked once and slept once per iteration. *)
Theorem polling_has_no_bound w name fuel : forall tr,
  (forall i, exists s,
      stacks_get w (count is_get tr + i) = inr s /\ status s = "IN_PROGRESS") ->
  fst (wait_stack w fuel name tr) = OutOfFuel /\
  count is_get (snd (wait_stack w fuel name tr)) = count is_get tr + fuel /\
  count is_sleep (snd (wait_stack w fuel name tr)) = count is_sleep tr + fuel.
Proof.
  induction fuel as [|fuel IH]; intros tr Hstuck.
  - simpl. rewrite !Nat.add_0_r. auto.
  - destruct (Hstuck 0) as (s & Hs & Hss). rewrite Nat.add_0_r in Hs.
    rewrite (wait_stack_in_progress w fuel name tr s Hs Hss).
    destruct (IH (tr +++ [EvStacksGet name; EvLog "DEBUG" "Waiting on stack..."; EvSleep 5]))
      as (Hr & Hg & Hsl).
    + intros i. rewrite count_get_poll.
      replace (S (count is_get tr) + i) with (count is_get tr + S i) by lia.
      apply Hstuck.
    + split; [exact Hr|]. rewrite Hg, Hsl, count_get_poll, count_app. simpl. lia.
Qed.

Lemma polling_has_no_bound_witness :
  fst (wait_stack stuck_world 7 "test" []) = OutOfFuel /\
  count is_get (snd (wait_stack stuck_world 7 "test" [])) = 7.
Proof.
  destruct (polling_has_no_bound stuck_world "test" 7 []
              (fun i => ex_intro _ in_progress_stack (conj eq_refl eq_refl)))
    as (Hr & Hg & _).
  exact (conj Hr Hg).
Defined.

(** X2. Neither has the wait loop of the readiness gate: while every probe
    of the address fails with an exception [test_ssh] catches, the loop is
    still probing after any number of iterations, one attempt and one sleep
    each. *)
Theorem probing_has_no_bound w host user key msg fuel : forall tr,
  (forall i, probe_fails (ssh_connect w host (attempts host tr + i)) = true) ->
  fst (wait_ssh w fuel host user key msg tr) = OutOfFuel /\
  attempts host (snd (wait_ssh w fuel host user key msg tr)) = attempts host tr + fuel /\
  count is_sleep (snd (wait_ssh w fuel host user key msg tr)) = count is_sleep tr + fuel.
Proof.
  induction fuel as [|fuel IH]; intros tr Hfail.
  - simpl. rewrite !Nat.add_0_r. auto.
  - pose proof (Hfail 0) as H0. rewrite Nat.add_0_r in H0.
    rewrite (wait_ssh_failed w fuel host user key msg tr H0).
    destruct (IH (tr +++ failed_attempt host user key msg
                              (ssh_connect w host (attempts host tr)))) as (Hr & Ha & Hs).
    + intros i. rewrite attempts_failed.
      replace (S (attempts host tr) + i) with (attempts host tr + S i) by lia.
      apply Hfail.
    + split; [exact Hr|]. rewrite Ha, Hs, attempts_failed, count_app. simpl. lia.
Qed.

Lemma probing_has_no_bound_witness :
  fst (wait_ssh unreachable_world 4 "10.0.0.5" "ops" "envs/test/.ssh_key" "waiting" [])
  = OutOfFuel /\
  attempts "10.0.0.5"
    (snd (wait_ssh unreachable_world 4 "10.0.0.5" "ops" "envs/test/.ssh_key" "waiting" []))
  = 4.
Proof.
  destruct (probing_has_no_bound unreachable_world "10.0.0.5" "ops" "envs/test/.ssh_key"
              "waiting" 4 [] (fun i => eq_refl)) as (Hr & Ha & _).
  exact (conj Hr Ha).
Defined.

(** ** Errors that end the run *)

(** X3. An exception of [ssh.connect] that is not one of the four
    [test_ssh] names is not retried: after any number of caught failures it
    leaves the wait loop at once, with no further log line, sleep or
    attempt. *)
Theorem uncaught_probe_error_ends_wait w host user key msg N fuel tr e :
  (forall i, i < N -> probe_fails (ssh_connect w host (attempts host tr + i)) = true) ->
  ssh_connect w host (attempts host tr + N) = OtherConnectError e ->
  N < fuel ->
  wait_ssh w fuel host user key msg tr =
  (Raise (ClientException e),
   tr +++ failed_attempts w host user key msg (attempts host tr) N
      +++ [EvSshConnect host user key (OtherConnectError e)]).
Proof.
  revert fuel tr. induction N as [|N IH]; intros fuel tr Hfail Herr Hfuel;
    (destruct fuel as [|fuel]; [lia|]).
  - rewrite Nat.add_0_r in Herr. simpl.
    rewrite (bind_raise _ _ _ _ _ (test_ssh_other w host user key tr e Herr)).
    reflexivity.
  - rewrite wait_ssh_failed
      by (specialize (Hfail 0 (Nat.lt_0_succ N)); rewrite Nat.add_0_r in Hfail; exact Hfail).
    rewrite IH.
    + rewrite attempts_failed. cbn [failed_attempts]. rewrite <- !app_assoc. reflexivity.
    + intros i Hi. rewrite attempts_failed.
      replace (S (attempts host tr) + i) with (attempts host tr + S i) by lia.
      apply Hfail. lia.
    + rewrite attempts_failed.
      replace (S (attempts host tr) + N) with (attempts host tr + S N) by lia.
      exact Herr.
    + lia.
Qed.

Lemma broken_key_fails_once i :
  i < 1 -> probe_fails (ssh_connect broken_key_world "10.0.0.5"
                          (attempts "10.0.0.5" [] + i)) = true.
Proof. intros Hi. destruct i as [|i]; [reflexivity | lia]. Qed.

Lemma uncaught_probe_error_witness :
  fst (wait_ssh broken_key_world 9 "10.0.0.5" "ops" "envs/test/.ssh_key" "waiting" [])
  = Raise (ClientException key_error).
Proof.
  exact (f_equal fst
           (uncaught_probe_error_ends_wait broken_key_world "10.0.0.5" "ops"
              "envs/test/.ssh_key" "waiting" 1 9 [] key_error broken_key_fails_once eq_refl
              (le_S 2 8 (le_S 2 7 (le_S 2 6 (le_S 2 5 (le_S 2 4 (le_S 2 3 (le_S 2 2 (le_n 2)))))))))).
Defined.

(** X4. When the provider answers the lookup with an error other than
    not-found, the run ends there: with [Exception] carrying the text of the
    error when the error has a code, with an [AttributeError] (raised by
    reading [e.code]) when it has none; the lookup was the last event, and
    nothing was created or updated. *)
Theorem lookup_error_ends_run w fuel args hot STACK tr1 e :
  prelude w args hot [] = (Ok STACK, tr1) ->
  stacks_get w 0 = inl e ->
  exc_code e <> Some 404 ->
  let tr := tr1 +++ [EvLog "DEBUG" ("Checking for existence of heat stack: "
                                      ++ stack_name_of args);
                     EvStacksGet (stack_name_of args)] in
  snd (_run_heat w fuel args hot []) = tr /\
  (forall c, exc_code e = Some c ->
     fst (_run_heat w fuel args hot []) = Raise (PyException (exc_text e))) /\
  (exc_code e = None ->
     exists m, fst (_run_heat w fuel args hot []) = Raise (AttributeError m)) /\
  count is_create tr = 0 /\ count is_update tr = 0.
Proof.
  intros Hp Hget Hcode tr.
  destruct (prelude_counts _ _ _ _ _ Hp) as (Hg1 & Hc1 & Hu1 & _).
  assert (Hrun : _run_heat w fuel args hot [] =
                 (match exc_code e with
                  | None => Raise (AttributeError (no_code_text w (ClientException e)))
                  | Some _ => Raise (PyException (exc_text e))
                  end, tr)).
  { rewrite run_heat_stages, (bind_ok _ _ _ _ _ Hp). unfold bind at 1.
    rewrite stack_lookup_cases, Hg1, Hget.
    destruct (exc_code e) as [c|]; [|reflexivity].
    destruct (Nat.eqb_spec c 404) as [->|Hne]; [contradiction|reflexivity]. }
  rewrite Hrun. simpl. split; [reflexivity|]. split; [|split; [|split]].
  - intros c ->. reflexivity.
  - intros ->. eexists. reflexivity.
  - subst tr. rewrite count_app, Hc1. reflexivity.
  - subst tr. rewrite count_app, Hu1. reflexivity.
Qed.

Lemma forbidden_is_not_404 : exc_code forbidden <> Some 404.
Proof. discriminate. Qed.

Lemma lookup_error_witness :
  fst (_run_heat forbidden_world 3 (sample_args false) "template" [])
  = Raise (PyException "Forbidden").
Proof.
  exact (proj1 (proj2 (lookup_error_ends_run forbidden_world 3 (sample_args false)
                         "template" (mkRequest "test" "template" None)
                         (after_prelude forbidden_world (sample_args false) "template")
                         forbidden eq_refl eq_refl forbidden_is_not_404))
           403 eq_refl).
Defined.

(** X5. When the provider rejects the create, or the update, the exception
    leaves the run as it is: the submission is the last event, so there is
    no pause and no poll after it. *)
Theorem rejected_submission_ends_run w fuel args hot STACK tr1 stack_exists tr2 e :
  prelude w args hot [] = (Ok STACK, tr1) ->
  stack_lookup w (stack_name_of args) tr1 = (Ok stack_exists, tr2) ->
  (if stack_exists
   then heat_stack_update args = true /\ stacks_update w = Some e
   else stacks_create w = Some e) ->
  _run_heat w fuel args hot [] =
  (Raise (ClientException e),
   tr2 +++ (if stack_exists
            then [EvLog "DEBUG" "Updating stack"; EvStacksUpdate (req_stack_name STACK) STACK]
            else [EvLog "DEBUG" "Creating stack"; EvStacksCreate STACK])) /\
  count is_get (snd (_run_heat w fuel args hot [])) = 1.
Proof.
  intros Hp Hl Hrej.
  destruct (prelude_counts _ _ _ _ _ Hp) as (Hg1 & _).
  pose proof (stack_lookup_gets _ _ _ _ _ Hl) as Hg2. rewrite Hg1 in Hg2.
  assert (Hrun : _run_heat w fuel args hot [] =
    (Raise (ClientException e),
     tr2 +++ (if stack_exists
              then [EvLog "DEBUG" "Updating stack"; EvStacksUpdate (req_stack_name STACK) STACK]
              else [EvLog "DEBUG" "Creating stack"; EvStacksCreate STACK]))).
  { rewrite (run_heat_from_lookup _ _ _ _ _ _ _ _ Hp Hl). apply bind_raise.
    unfold submit, bind, LOG_debug, emit. destruct stack_exists.
    - destruct Hrej as (-> & ->). simpl. rewrite <- app_assoc. reflexivity.
    - rewrite Hrej. simpl. rewrite <- app_assoc. reflexivity. }
  split; [exact Hrun|]. rewrite Hrun. simpl. rewrite count_app, Hg2.
  destruct stack_exists; reflexivity.
Qed.

Lemma rejected_submission_witness :
  fst (_run_heat rejecting_world 3 (sample_args false) "template" [])
  = Raise (ClientException forbidden) /\
  count is_get (snd (_run_heat rejecting_world 3 (sample_args false) "template" [])) = 1.
Proof.
  destruct (rejected_submission_ends_run rejecting_world 3 (sample_args false) "template"
              (mkRequest "test" "template" None)
              (after_prelude rejecting_world (sample_args false) "template") false
              (after_lookup rejecting_world (sample_args false) "template")
              forbidden eq_refl eq_refl eq_refl) as (Hrun & Hg).
  exact (conj (f_equal fst Hrun) Hg).
Defined.

(** X6. Whatever fails before the lookup (the import, the credentials, the
    stack parameters, keystone or its service catalog) ends the run with
    that exception, before any call about the stack, any file and any
    connection. *)
Theorem failure_before_lookup_touches_nothing w fuel args hot x tr1 :
  prelude w args hot [] = (Raise x, tr1) ->
  _run_heat w fuel args hot [] = (Raise x, tr1) /\
  count is_get tr1 = 0 /\ count is_create tr1 = 0 /\ count is_update tr1 = 0 /\
  count k_file tr1 = 0 /\ count is_connect tr1 = 0.
Proof.
  intros Hp. split.
  - rewrite run_heat_stages. apply bind_raise. exact Hp.
  - pose proof (emits_prelude w args hot) as He.
    assert (Htr : tr1 = snd (prelude w args hot [])) by (rewrite Hp; reflexivity).
    subst tr1. repeat split; rewrite (emits_count k_prelude) by (assumption || kinds);
      reflexivity.
Qed.

Lemma failure_before_lookup_witness :
  _run_heat unauthorized_world 3 (sample_args false) "template" [] =
  (Raise (ClientException (mkExc (Some 401) "Unauthorized")),
   after_prelude unauthorized_world (sample_args false) "template").
Proof.
  exact (proj1 (failure_before_lookup_touches_nothing unauthorized_world 3
                  (sample_args false) "template" _ _ eq_refl)).
Defined.

(** ** The outputs *)

Lemma assoc_dict_set_same {V} k (v : V) d : assoc k (dict_set k v d) = Some v.
Proof.
  induction d as [|[k0 v0] d IH]; simpl.
  - rewrite String.eqb_refl. reflexivity.
  - destruct (String.eqb_spec k0 k) as [->|Hne]; simpl.
    + rewrite String.eqb_refl. reflexivity.
    + apply String.eqb_neq in Hne. rewrite Hne. exact IH.
Qed.

Lemma assoc_dict_set_other {V} k k' (v : V) d :
  k' <> k -> assoc k' (dict_set k v d) = assoc k' d.
Proof.
  intros Hne. induction d as [|[k0 v0] d IH]; simpl.
  - destruct (String.eqb_spec k k'); [congruence | reflexivity].
  - destruct (String.eqb_spec k0 k) as [->|Hne0]; simpl.
    + destruct (String.eqb_spec k k'); [congruence | reflexivity].
    + destruct (String.eqb_spec k0 k'); [reflexivity | exact IH].
Qed.

Lemma servers_of_assoc k outs : forall acc,
  reserved k = false ->
  assoc k (servers_of outs acc) =
  match last_value k outs with Some v => Some v | None => assoc k acc end.
Proof.
  intros acc Hk. revert acc.
  induction outs as [|[k0 v0] outs IH]; intros acc; simpl; [reflexivity|].
  unfold reserved in Hk. apply orb_false_iff in Hk as [Hf Hp].
  destruct (String.eqb_spec k0 "floating_ip") as [->|Hnf].
  - rewrite IH. rewrite String.eqb_sym, Hf. destruct (last_value k outs); reflexivity.
  - destruct (String.eqb_spec k0 "private_key") as [->|Hnp].
    + rewrite IH. rewrite String.eqb_sym, Hp. destruct (last_value k outs); reflexivity.
    + rewrite IH. destruct (last_value k outs) as [v|]; [reflexivity|].
      destruct (String.eqb_spec k0 k) as [->|Hne].
      * apply assoc_dict_set_same.
      * apply assoc_dict_set_other. congruence.
Qed.

Lemma floating_ip_of_last outs : forall acc,
  floating_ip_of outs acc =
  match last_value "floating_ip" outs with Some v => Py.PyStr v | None => acc end.
Proof.
  induction outs as [|[k0 v0] outs IH]; intros acc; simpl; [reflexivity|].
  rewrite IH. destruct (last_value "floating_ip" outs); [reflexivity|].
  destruct (String.eqb k0 "floating_ip"); reflexivity.
Qed.

(** X7. When the outputs name a key more than once, the last entry wins:
    the host rule of a key carries the address of its last entry, and the
    floating ip is that of the last [floating_ip] entry. *)
Theorem last_output_wins w outs :
  order_ok w ->
  (forall k ip, In (k, ip) (dict_items w (servers_of outs [])) <->
                reserved k = false /\ last_value k outs = Some ip) /\
  floating_ip_of outs Py.PyNone =
    match last_value "floating_ip" outs with
    | Some v => Py.PyStr v
    | None => Py.PyNone
    end.
Proof.
  intros Ho. split; [|apply floating_ip_of_last].
  intros k ip.
  assert (Hnd : NoDup (map fst (servers_of outs []))).
  { apply servers_of_NoDup. constructor. }
  rewrite (In_dict_items w Ho _ k ip Hnd). split.
  - intros Hin.
    assert (Hk : reserved k = false).
    { apply (in_map fst) in Hin. apply servers_of_keys in Hin as [[]|Hin].
      unfold host_keys in Hin. apply filter_In in Hin as [_ Hin].
      apply negb_true_iff in Hin. exact Hin. }
    split; [exact Hk|].
    apply (In_assoc _ _ _ Hnd) in Hin. rewrite (servers_of_assoc k outs [] Hk) in Hin.
    destruct (last_value k outs); [exact Hin | discriminate].
  - intros (Hk & Hlast). apply assoc_In.
    rewrite (servers_of_assoc k outs [] Hk), Hlast. reflexivity.
Qed.

Lemma last_output_wins_witness :
  routing_document plain_world (sample_args false) repeated_outputs =
  [default_block "ops" None;
   direct_block ("node1", "10.0.0.7");
   direct_block ("node2", "10.0.0.6")] /\
  In ("node1", "10.0.0.7") (dict_items plain_world (servers_of repeated_outputs [])).
Proof.
  split; [reflexivity|].
  exact (proj2 (proj1 (last_output_wins plain_world repeated_outputs
                         (sample_world_order_ok _ _ _)) "node1" "10.0.0.7")
           (conj eq_refl eq_refl)).
Defined.

(** X8. The routing file is written afresh: after the outputs were read and
    the document written, the file holds the document and nothing else,
    whatever it held before and whatever the run did up to there; later
    steps, the readiness gate included, do not touch it. *)
Theorem routing_file_is_written_afresh w fuel args stack tr previous :
  file_content (ssh_config_path_of args) (snd (configure w fuel args stack tr)) previous
  = flatten (routing_document w args (outputs stack)).
Proof.
  replace previous with (flatten [previous]) at 1 by apply append_nil_r.
  rewrite file_content_flatten, configure_routing_document. reflexivity.
Qed.

(** ** What every event of a run has in common *)

Lemma emits_bind_ok q {A B} (m : M A) (k : A -> M B) :
  emits q m ->
  (forall a, (exists tr tr', m tr = (Ok a, tr')) -> emits q (k a)) ->
  emits q (bind m k).
Proof.
  intros Hm Hk tr. unfold bind. destruct (Hm tr) as (es & Hes & Hq).
  destruct (m tr) as [[a | e |] tr1] eqn:Hmtr; simpl in Hes; subst tr1.
  - destruct (Hk a (ex_intro _ tr (ex_intro _ _ Hmtr)) (tr +++ es)) as (es' & Hes' & Hq').
    exists (es +++ es'). rewrite Hes', app_assoc, forallb_app, Hq, Hq'. auto.
  - exists es. auto.
  - exists es. auto.
Qed.

Lemma emits_ext q {A} (m m' : M A) : (forall tr, m tr = m' tr) -> emits q m' -> emits q m.
Proof. intros Heq Hm tr. rewrite Heq. apply Hm. Qed.

(** As [emits_step], for a kind that compares names with those of the run. *)
Ltac run_step :=
  match goal with
  | |- emits _ (bind _ _) => apply emits_bind; [| intros ?]
  | |- emits _ (ret _) => apply emits_ret
  | |- emits _ (raise _) => apply emits_raise
  | |- emits _ out_of_fuel => apply emits_out_of_fuel
  | |- emits _ (fmt _) => apply emits_fmt
  | |- emits _ (try_except _ _) => apply emits_try_except; [| intros ?]
  | |- emits _ (for_each _ _) => apply emits_for_each; intros ?
  | |- emits _ (match ?x with _ => _ end) => destruct x
  | |- emits _ _ =>
      apply emits_emit; cbn [event_of_run];
      rewrite ?String.eqb_refl, ?orb_true_r; reflexivity
  end.

Lemma run_emits_test_ssh w args host :
  emits (event_of_run args)
        (test_ssh w host (ursula_user args) (ssh_key_path_of args)).
Proof.
  unfold test_ssh, connect_failed. apply emits_bind.
  - intros tr. eexists [_]. unfold connect. split; [reflexivity|].
    cbn [forallb event_of_run]. rewrite !String.eqb_refl. reflexivity.
  - intros r. repeat run_step.
Qed.

Lemma run_emits_wait_ssh w args fuel host msg :
  emits (event_of_run args)
        (wait_ssh w fuel host (ursula_user args) (ssh_key_path_of args) msg).
Proof.
  induction fuel as [|fuel IH]; simpl.
  - apply emits_out_of_fuel.
  - apply emits_bind; [apply run_emits_test_ssh | intros r].
    destruct (negb (Py.truthy r)); repeat run_step. exact IH.
Qed.

Lemma run_emits_stacks_get_call w args :
  emits (event_of_run args) (stacks_get_call w (stack_name_of args)).
Proof.
  intros tr. exists [EvStacksGet (stack_name_of args)]. unfold stacks_get_call.
  destruct (stacks_get w (count is_get tr)); simpl; rewrite String.eqb_refl; auto.
Qed.

Lemma run_emits_wait_stack w args fuel :
  emits (event_of_run args) (wait_stack w fuel (stack_name_of args)).
Proof.
  induction fuel as [|fuel IH]; simpl.
  - apply emits_out_of_fuel.
  - apply emits_bind; [apply run_emits_stacks_get_call | intros st].
    destruct (String.eqb (status st) "IN_PROGRESS"); repeat run_step. exact IH.
Qed.

Lemma build_request_name w args hot STACK :
  (exists tr tr', build_request w args hot tr = (Ok STACK, tr')) ->
  req_stack_name STACK = stack_name_of args.
Proof.
  intros (tr & tr' & H). unfold build_request in H.
  destruct (heat_parameters args) as [[|p ps]|];
    try (injection H as <- _; reflexivity).
  destruct (format_parameters w (p :: ps)); [discriminate|].
  injection H as <- _. reflexivity.
Qed.

Lemma run_emits_submit w args STACK stack_exists :
  req_stack_name STACK = stack_name_of args ->
  emits (event_of_run args) (submit w args STACK stack_exists).
Proof.
  intros Hname. unfold submit.
  destruct (stack_exists && heat_stack_update args); [|destruct (negb stack_exists)].
  - apply emits_bind; [run_step | intros _].
    apply emits_bind; [|intros _; repeat run_step].
    apply emits_emit. cbn [event_of_run]. rewrite Hname, String.eqb_refl. reflexivity.
  - apply emits_bind; [run_step | intros _].
    apply emits_bind; [|intros _; repeat run_step].
    apply emits_emit. cbn [event_of_run]. rewrite Hname, String.eqb_refl. reflexivity.
  - apply emits_ret.
Qed.

Lemma run_emits_configure w args fuel stack :
  emits (event_of_run args) (configure w fuel args stack).
Proof.
  unfold configure. apply emits_bind.
  - apply emits_weaken with (q := k_log); [|apply emits_read_outputs].
    intros []; simpl; congruence.
  - intros [[servers fip] pk]. apply emits_bind; [|intros _; apply emits_bind; [|intros _]].
    + unfold write_ssh_config, write_private_key, write_server. repeat run_step.
    + run_step.
    + unfold readiness_gate. destruct (Py.truthy fip).
      * apply run_emits_wait_ssh.
      * repeat run_step. apply run_emits_wait_ssh.
Qed.

(** X9. Every event of a run belongs to it: each get, create and update
    names the stack of the run (the given stack name, or else the last
    component of the environment path); each connection attempt is made as
    the operator user with the [.ssh_key] path of the environment as key
    file, whether or not a key was written there; and the only files written
    are the [.ssh_key] and the [.ssh_config] of the environment. *)
Theorem events_belong_to_the_run w fuel args hot tr :
  exists es,
    snd (_run_heat w fuel args hot tr) = tr +++ es /\
    forallb (event_of_run args) es = true.
Proof.
  revert tr. change (emits (event_of_run args) (_run_heat w fuel args hot)).
  apply emits_ext with
    (m' := STACK <- prelude w args hot ;;
           stack_exists <- stack_lookup w (stack_name_of args) ;;
           stack_action <- submit w args STACK stack_exists ;;
           complete w fuel args stack_action);
    [apply run_heat_stages|].
  apply emits_bind_ok.
  - apply emits_weaken with (q := k_prelude); [|apply emits_prelude].
    intros []; unfold k_prelude, k_log, k_auth; simpl; congruence.
  - intros STACK Hstack.
    assert (Hname : req_stack_name STACK = stack_name_of args).
    { destruct Hstack as (tr & tr' & H). unfold prelude, bind in H.
      destruct (import_heat w tr) as [[[]|?|] t1]; try discriminate.
      destruct (check_creds w t1) as [[[]|?|] t2]; try discriminate.
      destruct (build_request w args hot t2) as [[req|?|] t3] eqn:Hb; try discriminate.
      destruct (login w t3) as [[[]|?|] t4]; try discriminate.
      injection H as <- _. apply (build_request_name w args hot).
      exists t2, t3. exact Hb. }
    apply emits_bind; [|intros stack_exists; apply emits_bind; [|intros action]].
    + unfold stack_lookup. apply emits_try_except; [|intros e; repeat run_step].
      apply emits_bind; [run_step | intros msg].
      apply emits_bind; [run_step | intros _].
      apply emits_bind; [apply run_emits_stacks_get_call | intros _].
      repeat run_step.
    + apply run_emits_submit, Hname.
    + unfold complete.
      apply emits_bind; [apply run_emits_wait_stack | intros _].
      apply emits_bind; [|intros stack; apply run_emits_configure].
      unfold fetch_stack.
      apply emits_bind; [apply run_emits_stacks_get_call | intros st].
      repeat run_step.
Qed.

(** * The rest of [shell.py] *)

(** ** The environment of the process *)

Lemma env_append_lookup key value env :
  assoc key (Shell.env_append key value env) =
  Some (match assoc key env with Some old => old ++ " " ++ value | None => value end).
Proof.
  unfold Shell.env_append, Shell.env_set.
  destruct (assoc key env); apply assoc_dict_set_same.
Qed.

Lemma env_append_other key value env k :
  k <> key -> assoc k (Shell.env_append key value env) = assoc k env.
Proof.
  intros Hne. unfold Shell.env_append, Shell.env_set.
  destruct (assoc key env); apply assoc_dict_set_other; exact Hne.
Qed.

(** X10. [_append_envvar] only ever adds: the variable ends up holding
    its old value, a space and the new one, or the new value alone when it
    was not set; no other variable changes; and two appends in a row are
    one append of the two values joined by a space. *)
Theorem append_envvar_only_adds key value env :
  assoc key (Shell.env_append key value env) =
    Some (match assoc key env with Some old => old ++ " " ++ value | None => value end) /\
  (forall k, k <> key -> assoc k (Shell.env_append key value env) = assoc k env) /\
  (forall value' k,
     assoc k (Shell.env_append key value' (Shell.env_append key value env)) =
     assoc k (Shell.env_append key (value ++ " " ++ value') env)).
Proof.
  split; [apply env_append_lookup|]. split; [intros k; apply env_append_other|].
  intros value' k. destruct (String.eqb_spec k key) as [->|Hne].
  - rewrite !env_append_lookup. destruct (assoc key env) as [old|]; [|reflexivity].
    rewrite !append_assoc. reflexivity.
  - rewrite !env_append_other by assumption. reflexivity.
Qed.

Lemma append_envvar_only_adds_witness :
  assoc "HOME" (Shell.env_append "ANSIBLE_SSH_ARGS" "-F f" [("HOME", "/root")]) =
  assoc "HOME" [("HOME", "/root")].
Proof.
  exact (proj1 (proj2 (append_envvar_only_adds "ANSIBLE_SSH_ARGS" "-F f"
                         [("HOME", "/root")]))
           "HOME" ltac:(discriminate)).
Defined.

(** X11. [_set_default_env] raises nothing of its own (creating the
    directory is taken to succeed).  It leaves [ANSIBLE_SSH_ARGS] holding
    what it held before followed by the three control-master options, sets
    the three fixed variables, changes no other variable, and creates the
    control-master directory exactly when it is missing. *)
Theorem set_default_env_effect h st :
  exists env',
    Shell._set_default_env h st =
      (Ok tt,
       Shell.mkState env'
         (Shell.acts st
          +++ (if Shell.path_exists h (Shell.expanduser h "~/.ssh/controlmasters")
               then []
               else [Shell.Makedirs (Shell.expanduser h "~/.ssh/controlmasters")]))) /\
    assoc "ANSIBLE_SSH_ARGS" env' =
      Some (match assoc "ANSIBLE_SSH_ARGS" (Shell.os_environ st) with
            | Some old => old ++ " " ++ default_ssh_args
            | None => default_ssh_args
            end) /\
    assoc "PYTHONUNBUFFERED" env' = Some "1" /\
    assoc "PYTHONIOENCODING" env' = Some "UTF-8" /\
    assoc "ANSIBLE_FORCE_COLOR" env' = Some "yes" /\
    (forall k,
       k <> "ANSIBLE_SSH_ARGS" -> k <> "PYTHONUNBUFFERED" ->
       k <> "PYTHONIOENCODING" -> k <> "ANSIBLE_FORCE_COLOR" ->
       assoc k env' = assoc k (Shell.os_environ st)).
Proof.
  destruct st as [env tr].
  exists (Shell.env_append "ANSIBLE_SSH_ARGS" "-o ControlPersist=300"
            (Shell.env_append "ANSIBLE_SSH_ARGS"
               "-o ControlPath=~/.ssh/controlmasters/u-%r@%h:%p"
               (Shell.env_append "ANSIBLE_SSH_ARGS" "-o ControlMaster=auto"
                  (Shell.env_set "ANSIBLE_FORCE_COLOR" "yes"
                     (Shell.env_set "PYTHONIOENCODING" "UTF-8"
                        (Shell.env_set "PYTHONUNBUFFERED" "1" env)))))).
  split.
  - unfold Shell._set_default_env, Shell.sbind, Shell._set_envvar, Shell._append_envvar,
      Shell.modify_environ, Shell.do, Shell.sret.
    destruct (Shell.path_exists h (Shell.expanduser h "~/.ssh/controlmasters"));
      cbn [negb Shell.os_environ Shell.acts]; rewrite ?app_nil_r; reflexivity.
  - cbn [Shell.os_environ]. split; [|split; [|split; [|split]]].
    + rewrite !env_append_lookup.
      unfold Shell.env_set. rewrite !assoc_dict_set_other by discriminate.
      simpl. destruct (assoc "ANSIBLE_SSH_ARGS" env) as [old|]; [|reflexivity].
      unfold default_ssh_args. rewrite !append_assoc. reflexivity.
    + rewrite !env_append_other by discriminate. unfold Shell.env_set.
      rewrite !assoc_dict_set_other by discriminate. apply assoc_dict_set_same.
    + rewrite !env_append_other by discriminate. unfold Shell.env_set.
      rewrite !assoc_dict_set_other by discriminate. apply assoc_dict_set_same.
    + rewrite !env_append_other by discriminate. unfold Shell.env_set.
      apply assoc_dict_set_same.
    + intros k H1 H2 H3 H4. simpl.
      rewrite !env_append_other by assumption. unfold Shell.env_set.
      rewrite !assoc_dict_set_other by assumption. reflexivity.
Qed.

Lemma set_default_env_effect_witness :
  exists env',
    fst (Shell._set_default_env (versioned_host "2.4.0")
           (start_state [("HOME", "/root")])) = Ok tt /\
    Shell.os_environ (snd (Shell._set_default_env (versioned_host "2.4.0")
                             (start_state [("HOME", "/root")]))) = env' /\
    assoc "HOME" env' = Some "/root".
Proof.
  destruct (set_default_env_effect (versioned_host "2.4.0")
              (start_state [("HOME", "/root")]))
    as (env' & Hrun & _ & _ & _ & _ & Hother).
  exists env'. rewrite Hrun. split; [reflexivity|]. split; [reflexivity|].
  apply (Hother "HOME"); discriminate.
Defined.

(** ** The version check *)

Lemma all_digits_cons c d :
  all_digits (String c d) = true ->
  Shell.classify c = Shell.Digit /\ all_digits d = true.
Proof.
  unfold all_digits. simpl. intros H. apply andb_true_iff in H as [Hc Hd].
  split; [|exact Hd]. destruct (Shell.classify c); try discriminate. reflexivity.
Qed.

Lemma parse_from_digits d : forall s run,
  all_digits d = true ->
  Shell.parse_from (d ++ s) Shell.Digit run = Shell.parse_from s Shell.Digit (run ++ d).
Proof.
  induction d as [|c d IH]; intros s run Hd.
  - simpl. rewrite append_nil_r. reflexivity.
  - apply all_digits_cons in Hd as [Hc Hd]. simpl. rewrite Hc. simpl.
    rewrite IH by assumption. rewrite append_assoc. reflexivity.
Qed.

Lemma parse_two_numbers a b :
  all_digits a = true -> a <> "" -> all_digits b = true -> b <> "" ->
  Shell.parse_version (a ++ "." ++ b) =
  [Shell.CInt (Shell.int_of_digits 0 a); Shell.CInt (Shell.int_of_digits 0 b)].
Proof.
  intros Ha Hane Hb Hbne. unfold Shell.parse_version.
  destruct a as [|ca a]; [contradiction|]. destruct b as [|cb b]; [contradiction|].
  apply all_digits_cons in Ha as [Hca Ha]. apply all_digits_cons in Hb as [Hcb Hb].
  cbn [append Shell.parse_from]. rewrite Hca. cbn [Shell.same_class Shell.component_of app].
  rewrite parse_from_digits by assumption.
  cbn [append Shell.parse_from].
  change (Shell.classify ".") with Shell.Dot. cbn [Shell.same_class Shell.component_of app].
  rewrite Hcb. cbn [Shell.same_class Shell.component_of app].
  rewrite <- (append_nil_r b) at 1. rewrite parse_from_digits by assumption.
  reflexivity.
Qed.

(** A version that is not the empty string is parsed, and compared. *)
Lemma check_ansible_version_parsed h :
  Shell.ansible_version h <> "" ->
  Shell._check_ansible_version h =
  (if negb (Shell.version_ge (Shell.ansible_version h) Shell.MINIMUM_ANSIBLE_VERSION) then
     Shell.sbind
       (Shell.sfmt (Py.percent Shell.version_error_template
                      [Shell.ansible_version h; Shell.MINIMUM_ANSIBLE_VERSION]))
       (fun msg => Shell.sraise (PyException msg))
   else Shell.sret tt).
Proof.
  intros Hne. unfold Shell._check_ansible_version.
  destruct (Shell.ansible_version h); [contradiction | reflexivity].
Qed.

(** X12. For a version made of two numbers, [_check_ansible_version]
    compares them as numbers, not as text: it passes exactly when the
    version is at least 1.9, so 1.10 passes and 1.8 does not; when it does
    not pass, the exception names the version found and the version
    required. *)
Theorem version_check_compares_numbers h st a b :
  all_digits a = true -> a <> "" -> all_digits b = true -> b <> "" ->
  Shell.ansible_version h = a ++ "." ++ b ->
  let major := Shell.int_of_digits 0 a in
  let minor := Shell.int_of_digits 0 b in
  (1 < major \/ (major = 1 /\ 9 <= minor) ->
   Shell._check_ansible_version h st = (Ok tt, st)) /\
  (major = 0 \/ (major = 1 /\ minor < 9) ->
   Shell._check_ansible_version h st =
   (Raise (PyException (version_error_text (a ++ "." ++ b))), st)).
Proof.
  intros Ha Hane Hb Hbne Hv major minor.
  rewrite check_ansible_version_parsed
    by (rewrite Hv; destruct a; [contradiction | discriminate]).
  unfold Shell.version_ge. rewrite Hv.
  rewrite (parse_two_numbers a b Ha Hane Hb Hbne).
  change (Shell.parse_version Shell.MINIMUM_ANSIBLE_VERSION)
    with [Shell.CInt 1; Shell.CInt 9].
  cbn [Shell.cmp_version Shell.cmp_component]. fold major minor.
  split.
  - intros [Hgt | [Heq Hge]].
    + apply Nat.compare_gt_iff in Hgt. rewrite Hgt. reflexivity.
    + rewrite Heq. cbn [Nat.compare].
      destruct (Nat.compare_spec minor 9) as [_|Hlt|_]; try reflexivity. lia.
  - intros [Hz | [Heq Hlt]].
    + rewrite Hz. reflexivity.
    + rewrite Heq. cbn [Nat.compare]. apply Nat.compare_lt_iff in Hlt.
      rewrite Hlt. reflexivity.
Qed.

Lemma version_check_witness :
  Shell._check_ansible_version (versioned_host "1.10") (start_state []) =
    (Ok tt, start_state []) /\
  Shell._check_ansible_version (versioned_host "1.8") (start_state []) =
    (Raise (PyException (version_error_text "1.8")), start_state []).
Proof.
  split.
  - apply (proj1 (version_check_compares_numbers (versioned_host "1.10") (start_state [])
                    "1" "10" eq_refl ltac:(discriminate) eq_refl ltac:(discriminate)
                    eq_refl)).
    right. split; [reflexivity|]. simpl. lia.
  - apply (proj2 (version_check_compares_numbers (versioned_host "1.8") (start_state [])
                    "1" "8" eq_refl ltac:(discriminate) eq_refl ltac:(discriminate)
                    eq_refl)).
    right. split; [reflexivity|]. simpl. lia.
Defined.

Lemma parse_from_text s : forall k run,
  k = Shell.Lower \/ k = Shell.Other -> run <> "" ->
  exists r tail, Shell.parse_from s k run = Shell.CStr r :: tail.
Proof.
  induction s as [|c s IH]; intros k run Hk Hrun.
  - simpl. destruct run as [|c0 run]; [contradiction|].
    destruct Hk as [-> | ->]; eexists _, _; reflexivity.
  - simpl. destruct (Shell.same_class (Shell.classify c) k).
    + apply IH; [assumption|]. destruct run; discriminate.
    + destruct run as [|c0 run]; [contradiction|].
      destruct Hk as [-> | ->]; eexists _, _; reflexivity.
Qed.

(** X13. A version that begins with a character other than a digit or a
    dot always passes the check, whatever follows: its first component is a
    string, and Python 2 orders every string above the number 1. *)
Theorem version_with_leading_text_passes h st c rest :
  Shell.ansible_version h = String c rest ->
  Shell.classify c = Shell.Lower \/ Shell.classify c = Shell.Other ->
  Shell._check_ansible_version h st = (Ok tt, st).
Proof.
  intros Hv Hc.
  rewrite check_ansible_version_parsed by (rewrite Hv; discriminate).
  unfold Shell.version_ge. rewrite Hv.
  unfold Shell.parse_version. cbn [Shell.parse_from].
  assert (Hs : Shell.same_class (Shell.classify c) Shell.Dot = false)
    by (destruct (Shell.classify c); reflexivity).
  rewrite Hs. cbn [Shell.component_of app].
  destruct (parse_from_text rest (Shell.classify c) (String c "")) as (r & tail & ->).
  - exact Hc.
  - discriminate.
  - reflexivity.
Qed.

Lemma version_with_leading_text_witness :
  Shell._check_ansible_version (versioned_host "v0.1") (start_state []) =
  (Ok tt, start_state []).
Proof.
  exact (version_with_leading_text_passes (versioned_host "v0.1") (start_state [])
           "v" "0.1" eq_refl (or_introl eq_refl)).
Defined.

(** ** Waiting for vagrant *)

Lemma started_app env tr l :
  Shell.started (Shell.mkState env (tr +++ l)) =
  Shell.started (Shell.mkState env tr) + length (filter Shell.is_popen l).
Proof. unfold Shell.started. simpl. rewrite filter_app, length_app. reflexivity. Qed.

Lemma file_written_app path tr1 tr2 : forall acc,
  Shell.file_written path (tr1 +++ tr2) acc =
  Shell.file_written path tr2 (Shell.file_written path tr1 acc).
Proof.
  induction tr1 as [|a tr1 IH]; intros acc; simpl; [reflexivity|].
  destruct a; auto.
Qed.

Lemma write_box_spec h file box st :
  Shell.write_box h file box st =
  (Ok tt, Shell.mkState (Shell.os_environ st)
            (Shell.acts st +++ box_acts h (Shell.os_environ st) file (Shell.started st) box)).
Proof.
  destruct st as [env tr]. unfold Shell.write_box, Shell.sbind at 1, Shell.Popen_call.
  cbn [Shell.os_environ Shell.acts]. unfold box_acts.
  generalize (Shell.stdout (Shell.popen h (Shell.started (Shell.mkState env tr))
                              ["vagrant"; "ssh-config"; box])) as lines.
  intros lines.
  assert (Hfor : forall tr0,
    Shell.sfor lines (fun line =>
        Shell.sbind (Shell.sfmt (Py.percent ("%s" ++ Py.nl) [Shell.rstrip line]))
          (fun text => Shell.do (Shell.FileWrite file text)))
      (Shell.mkState env tr0)
    = (Ok tt, Shell.mkState env
                (tr0 +++ map (fun line => Shell.FileWrite file (Shell.rstrip line ++ Py.nl))
                             lines))).
  { induction lines as [|line lines IH]; intros tr0.
    - simpl. unfold Shell.sret. rewrite app_nil_r. reflexivity.
    - cbn [Shell.sfor map]. unfold Shell.sbind at 1. unfold Shell.sbind at 1.
      cbn. unfold Shell.sbind. rewrite IH. rewrite <- app_assoc. reflexivity. }
  unfold Shell.sbind at 1. rewrite Hfor. cbn. rewrite <- app_assoc. reflexivity.
Qed.

Lemma round_spec h file boxes : forall st,
  Shell.sfor boxes (Shell.write_box h file) st =
  (Ok tt, Shell.mkState (Shell.os_environ st)
            (Shell.acts st
             +++ round_acts h (Shell.os_environ st) file (Shell.started st) boxes)).
Proof.
  induction boxes as [|box boxes IH]; intros st.
  - simpl. unfold Shell.sret. rewrite app_nil_r. destruct st; reflexivity.
  - cbn [Shell.sfor round_acts]. unfold Shell.sbind. rewrite write_box_spec, IH.
    cbn [Shell.os_environ Shell.acts].
    assert (Hs : Shell.started
                   (Shell.mkState (Shell.os_environ st)
                      (Shell.acts st
                       +++ box_acts h (Shell.os_environ st) file (Shell.started st) box))
                 = S (Shell.started st)).
    { rewrite started_app. unfold box_acts. cbn [filter Shell.is_popen].
      assert (Hnone : forall (f : string -> string) ls,
                 filter Shell.is_popen (map (fun line => Shell.FileWrite file (f line)) ls) = []).
      { intros f ls. induction ls; simpl; auto. }
      rewrite (Hnone (fun line => Shell.rstrip line ++ Py.nl)). simpl.
      destruct st; unfold Shell.started; simpl. lia. }
    rewrite Hs, <- app_assoc. reflexivity.
Qed.

Lemma round_acts_written h env file boxes : forall n acc,
  Shell.file_written file (round_acts h env file n boxes) acc = acc ++ round_text h n boxes.
Proof.
  induction boxes as [|box boxes IH]; intros n acc.
  - simpl. rewrite append_nil_r. reflexivity.
  - cbn [round_acts round_text]. rewrite file_written_app, IH.
    unfold box_acts, box_text. cbn [Shell.file_written].
    generalize (Shell.stdout (Shell.popen h n ["vagrant"; "ssh-config"; box])) as lines.
    intros lines. rewrite <- append_assoc. f_equal.
    revert acc. induction lines as [|line lines IHl]; intros acc.
    + simpl. rewrite append_nil_r. reflexivity.
    + cbn [map Shell.file_written flatten fold_right]. rewrite String.eqb_refl.
      rewrite IHl. unfold flatten. rewrite <- !append_assoc. reflexivity.
Qed.

Lemma round_acts_popen h env file boxes : forall n,
  length (filter Shell.is_popen (round_acts h env file n boxes)) = length boxes.
Proof.
  induction boxes as [|box boxes IH]; intros n; [reflexivity|].
  cbn [round_acts]. rewrite filter_app, length_app, IH. unfold box_acts.
  cbn [filter Shell.is_popen].
  assert (Hnone : forall ls,
             filter Shell.is_popen
               (map (fun line => Shell.FileWrite file (Shell.rstrip line ++ Py.nl)) ls) = []).
  { intros ls. induction ls; simpl; auto. }
  rewrite Hnone. reflexivity.
Qed.

Lemma round_acts_sleep h env file boxes : forall n,
  count_acts is_sleep_act (round_acts h env file n boxes) = 0.
Proof.
  unfold count_acts. induction boxes as [|box boxes IH]; intros n; [reflexivity|].
  cbn [round_acts]. rewrite filter_app, length_app, IH. unfold box_acts.
  cbn [filter is_sleep_act].
  generalize (Shell.stdout (Shell.popen h n ["vagrant"; "ssh-config"; box])) as ls.
  intros ls. induction ls; simpl; auto.
Qed.

(** X14. When the configuration vagrant reports says "not yet ready for
    SSH" for [k] rounds and no longer in the next, and the interpreter has
    room for more than [k] levels of the recursion, [_vagrant_ssh_config]
    returns 0 after [k + 1] rounds and [k] pauses; the file holds the report
    of the last round only; and, each level of the recursion doing so when
    it resumes, the [-F] option with the file was appended to
    [ANSIBLE_SSH_ARGS] [k + 1] times. *)
Theorem vagrant_ssh_config_rounds h environment boxes k : forall room st,
  (forall j, j < k ->
     Py.contains "not yet ready for SSH"
       (round_text h (Shell.started st + j * length boxes) boxes) = true) ->
  Py.contains "not yet ready for SSH"
    (round_text h (Shell.started st + k * length boxes) boxes) = false ->
  k < room ->
  let file := Shell.vagrant_ssh_config_file h environment in
  exists st',
    Shell._vagrant_ssh_config h room environment boxes st = (Ok 0%Z, st') /\
    Shell.os_environ st' =
      Nat.iter (S k) (Shell.env_append "ANSIBLE_SSH_ARGS" ("-F " ++ file))
               (Shell.os_environ st) /\
    Shell.started st' = Shell.started st + S k * length boxes /\
    count_acts is_sleep_act (Shell.acts st') =
      count_acts is_sleep_act (Shell.acts st) + k /\
    Shell.file_written file (Shell.acts st') "" =
      round_text h (Shell.started st + k * length boxes) boxes.
Proof.
  induction k as [|k IH]; intros room st Hnot Hready Hroom file;
    (destruct room as [|room]; [lia|]).
  - rewrite Nat.add_0_r in Hready.
    cbn [Shell._vagrant_ssh_config]. fold file.
    unfold Shell.sbind at 1, Shell.do at 1. unfold Shell.sbind at 1.
    rewrite round_spec. cbn [Shell.os_environ Shell.acts].
    unfold Shell.sbind at 1, Shell.get_acts. cbn [Shell.acts].
    rewrite started_app. cbn [filter Shell.is_popen length]. rewrite Nat.add_0_r.
    replace (Shell.started (Shell.mkState (Shell.os_environ st) (Shell.acts st)))
      with (Shell.started st) by (destruct st; reflexivity).
    rewrite !file_written_app. cbn [Shell.file_written]. rewrite String.eqb_refl.
    rewrite round_acts_written. cbn [append]. rewrite Hready.
    unfold Shell.sbind, Shell.sret, Shell.sfmt, Shell._append_envvar, Shell.modify_environ.
    cbn. rewrite append_nil_r.
    eexists. split; [reflexivity|]. cbn [Shell.os_environ Shell.acts].
    split; [reflexivity|]. split; [|split].
    + unfold Shell.started. cbn [Shell.acts]. rewrite !filter_app, !length_app.
      rewrite round_acts_popen. simpl. lia.
    + unfold count_acts. rewrite !filter_app, !length_app.
      fold (count_acts is_sleep_act (round_acts h (Shell.os_environ st) file
                                      (Shell.started st) boxes)).
      rewrite round_acts_sleep. simpl. lia.
    + rewrite !file_written_app. cbn [Shell.file_written]. rewrite String.eqb_refl.
      rewrite round_acts_written, Nat.add_0_r. reflexivity.
  - pose proof (Hnot 0 (Nat.lt_0_succ k)) as H0. rewrite Nat.add_0_r in H0.
    cbn [Shell._vagrant_ssh_config]. fold file.
    unfold Shell.sbind at 1, Shell.do at 1. unfold Shell.sbind at 1.
    rewrite round_spec. cbn [Shell.os_environ Shell.acts].
    unfold Shell.sbind at 1, Shell.get_acts. cbn [Shell.acts].
    rewrite started_app. cbn [filter Shell.is_popen length]. rewrite Nat.add_0_r.
    replace (Shell.started (Shell.mkState (Shell.os_environ st) (Shell.acts st)))
      with (Shell.started st) by (destruct st; reflexivity).
    rewrite !file_written_app. cbn [Shell.file_written]. rewrite String.eqb_refl.
    rewrite round_acts_written. cbn [append]. rewrite H0.
    set (st1 := Shell.mkState (Shell.os_environ st)
                  (((Shell.acts st +++ [Shell.OpenWrite file])
                    +++ round_acts h (Shell.os_environ st) file (Shell.started st) boxes)
                   +++ [Shell.Log "DEBUG" "waiting for Vagrant to be ready for SSH";
                        Shell.Sleep 5])).
    assert (Hstarted1 : Shell.started st1 = Shell.started st + length boxes).
    { unfold st1, Shell.started. cbn [Shell.acts]. rewrite !filter_app, !length_app.
      rewrite round_acts_popen. simpl. lia. }
    destruct (IH room st1) as (st' & Hrun & Henv & Hst & Hsl & Hfile).
    + intros j Hj. rewrite Hstarted1.
      replace (Shell.started st + length boxes + j * length boxes)
        with (Shell.started st + S j * length boxes) by lia.
      apply Hnot. lia.
    + rewrite Hstarted1.
      replace (Shell.started st + length boxes + k * length boxes)
        with (Shell.started st + S k * length boxes) by lia.
      exact Hready.
    + lia.
    + fold file in Hrun, Henv, Hfile.
      unfold Shell.sbind at 1. unfold Shell.sbind at 1. unfold Shell.sbind at 1.
      unfold Shell.do at 1. unfold Shell.sbind at 1. unfold Shell.do at 1.
      cbn [Shell.os_environ Shell.acts]. unfold Shell.sbind at 1.
      rewrite <- !app_assoc. cbn [app].
      unfold st1 in Hrun. rewrite <- !app_assoc in Hrun. cbn [app] in Hrun.
      rewrite Hrun.
      unfold Shell.sbind, Shell.sret, Shell.sfmt, Shell._append_envvar, Shell.modify_environ.
      cbn. rewrite append_nil_r.
      eexists. split; [reflexivity|]. cbn [Shell.os_environ Shell.acts].
      split; [rewrite Henv; reflexivity|]. split; [|split].
      * unfold Shell.started in *. cbn [Shell.acts]. lia.
      * rewrite Hsl. unfold st1, count_acts. cbn [Shell.acts].
        rewrite !filter_app, !length_app.
        fold (count_acts is_sleep_act (round_acts h (Shell.os_environ st) file
                                        (Shell.started st) boxes)).
        rewrite round_acts_sleep. simpl. lia.
      * rewrite Hfile, Hstarted1. f_equal. lia.
Qed.

Lemma slow_vagrant_not_ready j :
  j < 2 ->
  Py.contains "not yet ready for SSH"
    (round_text slow_vagrant_host (Shell.started (start_state []) + j * length ["box1"])
       ["box1"]) = true.
Proof. intros Hj. destruct j as [|[|j]]; [reflexivity | reflexivity | lia]. Qed.

Lemma vagrant_ssh_config_rounds_witness :
  exists st',
    Shell._vagrant_ssh_config slow_vagrant_host 5 "envs/test" ["box1"] (start_state [])
    = (Ok 0%Z, st') /\
    assoc "ANSIBLE_SSH_ARGS" (Shell.os_environ st') =
    Some ("-F /srv/envs/test/.ssh_config -F /srv/envs/test/.ssh_config "
          ++ "-F /srv/envs/test/.ssh_config").
Proof.
  destruct (vagrant_ssh_config_rounds slow_vagrant_host "envs/test" ["box1"] 2 5
              (start_state []) slow_vagrant_not_ready eq_refl
              (le_S 3 4 (le_S 3 3 (le_n 3)))) as (st' & Hrun & Henv & _).
  exists st'. split; [exact Hrun|]. rewrite Henv. reflexivity.
Defined.

(** ** The exit status of vagrant *)

(** *** What a piece of code can return and raise *)

Lemma only_sret {A} (P : A -> Prop) E a : P a -> only P E (Shell.sret a).
Proof. intros Ha st. exact Ha. Qed.

Lemma only_sraise {A} (P : A -> Prop) (E : exn -> Prop) x : E x -> only P E (Shell.sraise x).
Proof. intros Hx st. exact Hx. Qed.

Lemma only_sout_of_fuel {A} (P : A -> Prop) E : only P E Shell.sout_of_fuel.
Proof. intros st. exact I. Qed.

Lemma only_any {A} (P : A -> Prop) E (m : Shell.Sh A) :
  (forall st, exists a, fst (m st) = Ok a /\ P a) -> only P E m.
Proof. intros H st. destruct (H st) as (a & -> & Ha). exact Ha. Qed.

Lemma only_sbind {A B} (P : A -> Prop) (Q : B -> Prop) E (m : Shell.Sh A) k :
  only P E m -> (forall a, P a -> only Q E (k a)) -> only Q E (Shell.sbind m k).
Proof.
  intros Hm Hk st. unfold Shell.sbind. specialize (Hm st).
  destruct (m st) as [[a|x|] st1]; simpl in *; [apply (Hk a Hm) | exact Hm | exact I].
Qed.

Lemma only_weaken {A} (P P' : A -> Prop) (E E' : exn -> Prop) (m : Shell.Sh A) :
  (forall a, P a -> P' a) -> (forall x, E x -> E' x) -> only P E m -> only P' E' m.
Proof.
  intros HP HE Hm st. specialize (Hm st).
  destruct (fst (m st)); auto.
Qed.

Lemma only_sfor {A} E (xs : list A) body :
  (forall x, only (fun _ => True) E (body x)) ->
  only (fun _ => True) E (Shell.sfor xs body).
Proof.
  intros Hb. induction xs as [|x xs IH]; simpl.
  - apply only_sret. exact I.
  - apply (only_sbind (fun _ => True)); [apply Hb | intros _ _; exact IH].
Qed.

Lemma only_quiet {A} E (m : Shell.Sh A) :
  (forall st, exists a, fst (m st) = Ok a) -> only (fun _ => True) E m.
Proof. intros H st. destruct (H st) as (a & ->). exact I. Qed.

(** Decomposes a goal [only P E m] along the structure of [m], for the
    steps that cannot fail. *)
Ltac quiet_step :=
  match goal with
  | |- only _ _ (Shell.sbind _ _) =>
      apply (only_sbind (fun _ => True)); [| intros ? _]
  | |- only _ _ (Shell.do _) => apply only_quiet; intros ?; eexists; reflexivity
  | |- only _ _ Shell.get_environ => apply only_quiet; intros ?; eexists; reflexivity
  | |- only _ _ Shell.get_acts => apply only_quiet; intros ?; eexists; reflexivity
  | |- only _ _ (Shell.modify_environ _) => apply only_quiet; intros ?; eexists; reflexivity
  | |- only _ _ (Shell._set_envvar _ _) => apply only_quiet; intros ?; eexists; reflexivity
  | |- only _ _ (Shell._append_envvar _ _) => apply only_quiet; intros ?; eexists; reflexivity
  | |- only _ _ (Shell.Popen_call _ _) => apply only_quiet; intros ?; eexists; reflexivity
  | |- only _ _ (Shell.Popen_shell_call _ _) =>
      apply only_quiet; intros ?; eexists; reflexivity
  | |- only _ _ (Shell.sfmt (Some _)) => apply only_quiet; intros ?; eexists; reflexivity
  | |- only _ _ (Shell.print_output _) => apply only_sfor; intros ?
  | |- only _ _ (Shell.sfor _ _) => apply only_sfor; intros ?
  | |- only (fun _ => True) _ (Shell.sret _) => apply only_sret; exact I
  | |- only _ _ Shell.sout_of_fuel => apply only_sout_of_fuel
  end.

(** A step that cannot fail, followed by the rest. *)
Ltac quiet_bind :=
  apply (only_sbind (fun _ => True)); [solve [repeat quiet_step] | intros ? _].

(** *** What comes to an end *)

Lemma ends_sret {A} (a : A) : ends (Shell.sret a).
Proof. intros st. discriminate. Qed.

Lemma ends_sraise {A} x : ends (@Shell.sraise A x).
Proof. intros st. discriminate. Qed.

Lemma ends_sbind {A B} (m : Shell.Sh A) (k : A -> Shell.Sh B) :
  ends m -> (forall a, ends (k a)) -> ends (Shell.sbind m k).
Proof.
  intros Hm Hk st. unfold Shell.sbind. specialize (Hm st).
  destruct (m st) as [[a|x|] st1]; simpl in *; [apply Hk | discriminate | contradiction].
Qed.

Lemma ends_quiet {A} (m : Shell.Sh A) :
  (forall st, exists a, fst (m st) = Ok a) -> ends m.
Proof. intros H st. destruct (H st) as (a & ->). discriminate. Qed.

Lemma ends_sfor {A} (xs : list A) body :
  (forall x, ends (body x)) -> ends (Shell.sfor xs body).
Proof.
  intros Hb. induction xs as [|x xs IH]; simpl.
  - apply ends_sret.
  - apply ends_sbind; [apply Hb | intros _; exact IH].
Qed.

Lemma ends_sfmt o : ends (Shell.sfmt o).
Proof. intros st. destruct o; discriminate. Qed.

(** Decomposes a goal [ends m] along the structure of [m]. *)
Ltac ends_step :=
  match goal with
  | |- ends (Shell.sbind _ _) => apply ends_sbind; [| intros ?]
  | |- ends (Shell.do _) => apply ends_quiet; intros ?; eexists; reflexivity
  | |- ends Shell.get_environ => apply ends_quiet; intros ?; eexists; reflexivity
  | |- ends Shell.get_acts => apply ends_quiet; intros ?; eexists; reflexivity
  | |- ends (Shell.modify_environ _) => apply ends_quiet; intros ?; eexists; reflexivity
  | |- ends (Shell._set_envvar _ _) => apply ends_quiet; intros ?; eexists; reflexivity
  | |- ends (Shell._append_envvar _ _) => apply ends_quiet; intros ?; eexists; reflexivity
  | |- ends (Shell.Popen_call _ _) => apply ends_quiet; intros ?; eexists; reflexivity
  | |- ends (Shell.sfmt _) => apply ends_sfmt
  | |- ends (Shell.print_output _) => apply ends_sfor; intros ?
  | |- ends (Shell.sfor _ _) => apply ends_sfor; intros ?
  | |- ends (Shell.sret _) => apply ends_sret
  | |- ends (Shell.sraise _) => apply ends_sraise
  | |- ends (if ?b then _ else _) => destruct b
  end.

(** *** The levels of [_vagrant_ssh_config] *)

(** What one level does before it calls itself or resumes. *)
Lemma ssh_config_round_spec h file boxes st :
  Shell.ssh_config_round h file boxes st =
  (Ok (Py.contains "not yet ready for SSH" (round_text h (Shell.started st) boxes)),
   Shell.mkState (Shell.os_environ st)
     (Shell.acts st
      +++ (Shell.OpenWrite file
           :: round_acts h (Shell.os_environ st) file (Shell.started st) boxes
           +++ (if Py.contains "not yet ready for SSH"
                     (round_text h (Shell.started st) boxes)
                then [Shell.Log "DEBUG" "waiting for Vagrant to be ready for SSH";
                      Shell.Sleep 5]
                else [])))).
Proof.
  unfold Shell.ssh_config_round.
  unfold Shell.sbind at 1, Shell.do at 1. unfold Shell.sbind at 1.
  rewrite round_spec. cbn [Shell.os_environ Shell.acts].
  unfold Shell.sbind at 1, Shell.get_acts. cbn [Shell.acts].
  rewrite started_app. cbn [filter Shell.is_popen length]. rewrite Nat.add_0_r.
  replace (Shell.started (Shell.mkState (Shell.os_environ st) (Shell.acts st)))
    with (Shell.started st) by (destruct st; reflexivity).
  rewrite !file_written_app. cbn [Shell.file_written]. rewrite String.eqb_refl.
  rewrite round_acts_written. cbn [append].
  destruct (Py.contains "not yet ready for SSH" (round_text h (Shell.started st) boxes)).
  - unfold Shell.sbind, Shell.do, Shell.sret. cbn [Shell.os_environ Shell.acts].
    rewrite <- !app_assoc. reflexivity.
  - unfold Shell.sret. rewrite app_nil_r, <- !app_assoc. reflexivity.
Qed.

Lemma In_firstn {A} (a : A) l : forall n, In a (firstn n l) -> In a l.
Proof.
  induction l as [|b l IH]; intros [|n] Hin; simpl in Hin; try contradiction.
  destruct Hin as [<-|Hin]; [left; reflexivity | right; exact (IH n Hin)].
Qed.

(** The level on which the limit strikes does a part of its work; then it
    either finishes, when vagrant is ready and the level is through in
    time, or raises the interpreter's exception. *)
Lemma overflow_level_cases h file boxes finish st :
  exists part,
    (forall p, filter p
                 (Shell.OpenWrite file
                  :: round_acts h (Shell.os_environ st) file (Shell.started st) boxes
                  +++ [Shell.Log "DEBUG" "waiting for Vagrant to be ready for SSH";
                       Shell.Sleep 5]) = [] ->
               filter p part = []) /\
    ((Shell.overflow_level h file boxes finish st =
        finish (Shell.mkState (Shell.os_environ st) (Shell.acts st +++ part)) /\
      Py.contains "not yet ready for SSH" (round_text h (Shell.started st) boxes) = false) \/
     Shell.overflow_level h file boxes finish st =
       (Raise (ClientException (Shell.recursion_error h)),
        Shell.mkState (Shell.os_environ st) (Shell.acts st +++ part))).
Proof.
  unfold Shell.overflow_level. rewrite ssh_config_round_spec.
  cbn [Shell.acts Shell.os_environ].
  rewrite skipn_app, skipn_all, Nat.sub_diag. cbn [skipn app].
  set (waits := Py.contains "not yet ready for SSH" (round_text h (Shell.started st) boxes)).
  set (work := Shell.OpenWrite file
               :: round_acts h (Shell.os_environ st) file (Shell.started st) boxes
               +++ (if waits then [Shell.Log "DEBUG" "waiting for Vagrant to be ready for SSH";
                                   Shell.Sleep 5] else [])).
  assert (Hall : forall p,
            filter p (Shell.OpenWrite file
                      :: round_acts h (Shell.os_environ st) file (Shell.started st) boxes
                      +++ [Shell.Log "DEBUG" "waiting for Vagrant to be ready for SSH";
                           Shell.Sleep 5]) = [] ->
            forall a, In a work -> p a = false).
  { intros p Hp a Hin.
    assert (Hin' : In a (Shell.OpenWrite file
                         :: round_acts h (Shell.os_environ st) file (Shell.started st) boxes
                         +++ [Shell.Log "DEBUG" "waiting for Vagrant to be ready for SSH";
                              Shell.Sleep 5])).
    { unfold work in Hin. destruct Hin as [<-|Hin]; [left; reflexivity|]. right.
      apply in_app_iff. apply in_app_iff in Hin as [Hin|Hin]; [left; exact Hin|].
      right. destruct waits; [exact Hin | destruct Hin]. }
    destruct (p a) eqn:Hpa; [|reflexivity].
    assert (Hf : In a (filter p (Shell.OpenWrite file
                         :: round_acts h (Shell.os_environ st) file (Shell.started st) boxes
                         +++ [Shell.Log "DEBUG" "waiting for Vagrant to be ready for SSH";
                              Shell.Sleep 5]))).
    { apply filter_In. split; assumption. }
    rewrite Hp in Hf. destruct Hf. }
  assert (Hnone : forall p (l : list Shell.act),
            (forall a, In a l -> p a = false) -> filter p l = []).
  { intros p l Hl. induction l as [|a l IH]; [reflexivity|].
    cbn [filter]. rewrite (Hl a (or_introl eq_refl)). apply IH.
    intros a' Hin. apply Hl. right. exact Hin. }
  destruct (negb waits && Nat.leb (length work) (Shell.overflow_acts h)) eqn:Hc.
  - exists work. split.
    + intros p Hp. apply Hnone, (Hall p Hp).
    + left. split; [reflexivity|].
      apply andb_true_iff in Hc as [Hw _]. destruct waits; [discriminate | reflexivity].
  - exists (firstn (Shell.overflow_acts h) work). split.
    + intros p Hp. apply Hnone. intros a Hin. apply (Hall p Hp).
      exact (In_firstn a work _ Hin).
    + right. reflexivity.
Qed.

Lemma finish_ok file st :
  Shell.sbind (Shell.sfmt (Py.percent "-F %s" [file]))
    (fun arg => Shell.sbind (Shell._append_envvar "ANSIBLE_SSH_ARGS" arg)
                  (fun _ => Shell.sret 0%Z)) st =
  (Ok 0%Z, Shell.mkState (Shell.env_append "ANSIBLE_SSH_ARGS" ("-F " ++ file)
                            (Shell.os_environ st)) (Shell.acts st)).
Proof.
  unfold Shell.sbind, Shell.sfmt, Shell._append_envvar, Shell.modify_environ, Shell.sret.
  cbn. rewrite append_nil_r. reflexivity.
Qed.

Lemma only_vagrant_ssh_config h environment boxes (E : exn -> Prop) room :
  E (ClientException (Shell.recursion_error h)) ->
  only (fun rc => rc = 0%Z) E (Shell._vagrant_ssh_config h room environment boxes).
Proof.
  intros HE. induction room as [|room IH].
  - intros st. cbn [Shell._vagrant_ssh_config].
    destruct (overflow_level_cases h (Shell.vagrant_ssh_config_file h environment) boxes
                (Shell.sbind
                   (Shell.sfmt (Py.percent "-F %s"
                                  [Shell.vagrant_ssh_config_file h environment]))
                   (fun arg => Shell.sbind (Shell._append_envvar "ANSIBLE_SSH_ARGS" arg)
                                 (fun _ => Shell.sret 0%Z))) st)
      as (part & _ & [(-> & _) | ->]).
    + rewrite finish_ok. reflexivity.
    + exact HE.
  - cbn [Shell._vagrant_ssh_config].
    quiet_bind.
    apply (only_sbind (fun _ => True)).
    { apply only_quiet. intros st. rewrite round_spec. eexists. reflexivity. }
    intros _ _. quiet_bind.
    apply (only_sbind (fun _ => True)).
    { match goal with |- context [Py.contains ?x ?y] => destruct (Py.contains x y) end.
      - repeat quiet_bind.
        apply (only_sbind (fun _ => True)); [|intros _ _; quiet_step].
        apply (only_weaken (fun rc => rc = 0%Z) _ E E); auto.
      - quiet_step. }
    intros _ _.
    assert (Harg : exists s, Py.percent "-F %s" [Shell.vagrant_ssh_config_file h environment]
                             = Some s) by (eexists; reflexivity).
    destruct Harg as (s & ->).
    repeat quiet_bind.
    apply only_sret. reflexivity.
Qed.

(** The wait for vagrant is bounded by the interpreter: when vagrant is
    still not ready on the level where the limit strikes, the exception of
    the interpreter leaves [_vagrant_ssh_config], and [ANSIBLE_SSH_ARGS] is
    as it was, no level having resumed. *)
Lemma vagrant_ssh_config_overflow h environment boxes : forall room st,
  (forall j, j <= room ->
     Py.contains "not yet ready for SSH"
       (round_text h (Shell.started st + j * length boxes) boxes) = true) ->
  exists st',
    Shell._vagrant_ssh_config h room environment boxes st =
      (Raise (ClientException (Shell.recursion_error h)), st') /\
    Shell.os_environ st' = Shell.os_environ st.
Proof.
  induction room as [|room IH]; intros st Hnot.
  - cbn [Shell._vagrant_ssh_config].
    pose proof (Hnot 0 (le_n 0)) as H0. rewrite Nat.add_0_r in H0.
    destruct (overflow_level_cases h (Shell.vagrant_ssh_config_file h environment) boxes
                (Shell.sbind
                   (Shell.sfmt (Py.percent "-F %s"
                                  [Shell.vagrant_ssh_config_file h environment]))
                   (fun arg => Shell.sbind (Shell._append_envvar "ANSIBLE_SSH_ARGS" arg)
                                 (fun _ => Shell.sret 0%Z))) st)
      as (part & _ & [(_ & Hready) | ->]).
    + rewrite H0 in Hready. discriminate.
    + eexists. split; reflexivity.
  - pose proof (Hnot 0 (Nat.le_0_l _)) as H0. rewrite Nat.add_0_r in H0.
    cbn [Shell._vagrant_ssh_config].
    set (file := Shell.vagrant_ssh_config_file h environment).
    unfold Shell.sbind at 1, Shell.do at 1. unfold Shell.sbind at 1.
    rewrite round_spec. cbn [Shell.os_environ Shell.acts].
    unfold Shell.sbind at 1, Shell.get_acts. cbn [Shell.acts].
    rewrite started_app. cbn [filter Shell.is_popen length]. rewrite Nat.add_0_r.
    replace (Shell.started (Shell.mkState (Shell.os_environ st) (Shell.acts st)))
      with (Shell.started st) by (destruct st; reflexivity).
    rewrite !file_written_app. cbn [Shell.file_written]. rewrite String.eqb_refl.
    rewrite round_acts_written. cbn [append]. rewrite H0.
    set (st1 := Shell.mkState (Shell.os_environ st)
                  (((Shell.acts st +++ [Shell.OpenWrite file])
                    +++ round_acts h (Shell.os_environ st) file (Shell.started st) boxes)
                   +++ [Shell.Log "DEBUG" "waiting for Vagrant to be ready for SSH";
                        Shell.Sleep 5])).
    assert (Hstarted1 : Shell.started st1 = Shell.started st + length boxes).
    { unfold st1, Shell.started. cbn [Shell.acts]. rewrite !filter_app, !length_app.
      rewrite round_acts_popen. simpl. lia. }
    destruct (IH st1) as (st' & Hrun & Henv).
    + intros j Hj. rewrite Hstarted1.
      replace (Shell.started st + length boxes + j * length boxes)
        with (Shell.started st + S j * length boxes) by lia.
      apply Hnot. lia.
    + fold file in Hrun.
      unfold Shell.sbind at 1. unfold Shell.sbind at 1. unfold Shell.sbind at 1.
      unfold Shell.do at 1. unfold Shell.sbind at 1. unfold Shell.do at 1.
      cbn [Shell.os_environ Shell.acts]. unfold Shell.sbind at 1.
      rewrite <- !app_assoc. cbn [app].
      unfold st1 in Hrun. rewrite <- !app_assoc in Hrun. cbn [app] in Hrun.
      rewrite Hrun.
      exists st'. split; [reflexivity | exact Henv].
Qed.

Example never_ready_vagrant :
  fst (Shell._run_vagrant never_ready_host "envs/test" (start_state [])) =
  Raise (ClientException (mkExc None "maximum recursion depth exceeded")).
Proof. reflexivity. Qed.

Lemma ends_write_box h file box : ends (Shell.write_box h file box).
Proof.
  unfold Shell.write_box. cbn [Py.truthy Shell.returncode_unwaited]. repeat ends_step.
Qed.

Lemma ends_vagrant_ssh_config h environment boxes room :
  ends (Shell._vagrant_ssh_config h room environment boxes).
Proof.
  induction room as [|room IH].
  - intros st. cbn [Shell._vagrant_ssh_config].
    destruct (overflow_level_cases h (Shell.vagrant_ssh_config_file h environment) boxes
                (Shell.sbind
                   (Shell.sfmt (Py.percent "-F %s"
                                  [Shell.vagrant_ssh_config_file h environment]))
                   (fun arg => Shell.sbind (Shell._append_envvar "ANSIBLE_SSH_ARGS" arg)
                                 (fun _ => Shell.sret 0%Z))) st)
      as (part & _ & [(-> & _) | ->]).
    + rewrite finish_ok. discriminate.
    + discriminate.
  - cbn [Shell._vagrant_ssh_config]. cbv zeta.
    apply ends_sbind; [ends_step | intros _].
    apply ends_sbind; [apply ends_sfor; intros box; apply ends_write_box | intros _].
    apply ends_sbind; [ends_step | intros tr].
    apply ends_sbind.
    + destruct (Py.contains _ _); [|apply ends_sret].
      apply ends_sbind; [ends_step | intros _].
      apply ends_sbind; [ends_step | intros _].
      apply ends_sbind; [exact IH | intros _; apply ends_sret].
    + intros _. repeat ends_step.
Qed.

(** What [_run_vagrant] can return and raise. *)
Lemma only_run_vagrant h environment :
  only (fun rc => rc = 0%Z) (vagrant_error h) (Shell._run_vagrant h environment).
Proof.
  unfold Shell._run_vagrant.
  assert (Hfmt : Py.percent "%s/vagrant.yml" [environment] = Some (environment ++ "/vagrant.yml"))
    by reflexivity.
  rewrite Hfmt.
  assert (Hload : forall path,
            only (fun _ => True) (vagrant_error h) (Shell.load_vms h path)).
  { intros path st. unfold Shell.load_vms.
    destruct (Shell.yaml_vms h path) as [e|vms] eqn:Hy; simpl; [|exact I].
    left. eauto. }
  quiet_bind.
  apply (only_sbind (fun _ => True)).
  - destruct (Shell.path_isfile h a); [|apply Hload].
    quiet_bind. apply Hload.
  - intros vms _. cbv zeta. repeat quiet_bind.
    cbn [Py.truthy Shell.returncode_unwaited].
    repeat quiet_bind.
    assert (Hline : exists s, Py.percent "$ export SETTINGS_FILE=%s" [a] = Some s)
      by (eexists; reflexivity).
    destruct Hline as (s & ->).
    repeat quiet_bind.
    apply (only_sbind (fun rc => rc = 0%Z)).
    + apply only_vagrant_ssh_config. right. reflexivity.
    + intros rc ->. apply only_sret. reflexivity.
Qed.

Lemma ends_run_vagrant h environment : ends (Shell._run_vagrant h environment).
Proof.
  unfold Shell._run_vagrant. cbv zeta. cbn [Py.truthy Shell.returncode_unwaited].
  apply ends_sbind; [ends_step | intros file].
  apply ends_sbind.
  { destruct (Shell.path_isfile h file).
    - apply ends_sbind; [ends_step | intros _].
      unfold Shell.load_vms. destruct (Shell.yaml_vms h file); ends_step.
    - unfold Shell.load_vms. destruct (Shell.yaml_vms h "vagrant.yml"); ends_step. }
  intros vms.
  apply ends_sbind; [ends_step | intros env].
  apply ends_sbind; [ends_step | intros _].
  apply ends_sbind; [ends_step | intros proc].
  apply ends_sbind; [repeat ends_step | intros _].
  do 3 (apply ends_sbind; [ends_step | intros _]).
  apply ends_sbind; [ends_step | intros line].
  do 2 (apply ends_sbind; [ends_step | intros _]).
  apply ends_sbind; [apply ends_vagrant_ssh_config | intros rc].
  repeat ends_step.
Qed.

(** X15. The exit status of vagrant is never looked at: [returncode] is read
    before the process was waited for.  So [_run_vagrant] can return nothing
    but 0, whatever became of [vagrant up], and neither of its two
    [raise Exception] statements is ever reached.  With processes and files
    taken to be there, two exceptions can leave it: that of loading the
    settings file, and the [RuntimeError] of the interpreter when vagrant
    is not ready for more rounds than the recursion of
    [_vagrant_ssh_config] has room for.  One of the three always happens:
    the wait for vagrant is bounded by the recursion limit. *)
Theorem run_vagrant_ignores_exit_status h environment st :
  match fst (Shell._run_vagrant h environment st) with
  | Ok rc => rc = 0%Z
  | Raise x =>
      (exists path e, Shell.yaml_vms h path = inl e /\ x = ClientException e) \/
      x = ClientException (Shell.recursion_error h)
  | OutOfFuel => False
  end.
Proof.
  pose proof (only_run_vagrant h environment st) as Hr.
  pose proof (ends_run_vagrant h environment st) as He.
  destruct (fst (Shell._run_vagrant h environment st)); [exact Hr | exact Hr | contradiction].
Qed.

(** * [run] and [main] *)

(** ** Counting acts *)

Lemma adds_sret p {A} (a : A) : adds p 0 (Shell.sret a).
Proof. intros st. simpl. lia. Qed.

Lemma adds_sraise p {A} n x : adds p n (@Shell.sraise A x).
Proof. intros st. simpl. lia. Qed.

Lemma adds_sout_of_fuel p {A} n : adds p n (@Shell.sout_of_fuel A).
Proof. intros st. simpl. lia. Qed.

Lemma adds_sfmt p o : adds p 0 (Shell.sfmt o).
Proof. intros st. destruct o; simpl; lia. Qed.

Lemma adds_do p a : p a = false -> adds p 0 (Shell.do a).
Proof.
  intros Ha st. unfold count_acts, Shell.do. simpl.
  rewrite filter_app. simpl. rewrite Ha, app_nil_r. lia.
Qed.

Lemma adds_modify p f : adds p 0 (Shell.modify_environ f).
Proof. intros st. simpl. lia. Qed.

Lemma adds_get_environ p : adds p 0 Shell.get_environ.
Proof. intros st. simpl. lia. Qed.

Lemma adds_get_acts p : adds p 0 Shell.get_acts.
Proof. intros st. simpl. lia. Qed.

Lemma adds_popen p h command :
  (forall env, p (Shell.Popen command env) = false) -> adds p 0 (Shell.Popen_call h command).
Proof.
  intros Hc st. unfold count_acts, Shell.Popen_call. simpl.
  rewrite filter_app. simpl. rewrite Hc, app_nil_r. lia.
Qed.

Lemma adds_sbind p {A B} (P : A -> Prop) n (m : Shell.Sh A) (k : A -> Shell.Sh B) :
  adds p 0 m -> only P (fun _ => True) m -> (forall a, P a -> adds p n (k a)) ->
  adds p n (Shell.sbind m k).
Proof.
  intros Hm HP Hk st. unfold Shell.sbind.
  specialize (Hm st). specialize (HP st).
  destruct (m st) as [[a|x|] st1]; simpl in *.
  - rewrite (Hk a HP st1). lia.
  - lia.
  - lia.
Qed.

Lemma adds_then p {A B} n (m : Shell.Sh A) (k : A -> Shell.Sh B) :
  adds p 0 m -> (forall a, adds p n (k a)) -> adds p n (Shell.sbind m k).
Proof.
  intros Hm Hk. apply (adds_sbind p (fun _ => True)); [exact Hm | | intros a _; apply Hk].
  intros st. destruct (fst (m st)); exact I.
Qed.

Lemma adds_sfor p {A} (xs : list A) body :
  (forall x, adds p 0 (body x)) -> adds p 0 (Shell.sfor xs body).
Proof.
  intros Hb. induction xs as [|x xs IH]; simpl.
  - apply adds_sret.
  - apply adds_then; [apply Hb | intros _; exact IH].
Qed.

Lemma adds_print_output p proc :
  (forall s, p (Shell.Print s) = false) -> adds p 0 (Shell.print_output proc).
Proof. intros Hp. apply adds_sfor. intros line. apply adds_do, Hp. Qed.

Lemma adds_load_vms p h path : adds p 0 (Shell.load_vms h path).
Proof.
  unfold Shell.load_vms. destruct (Shell.yaml_vms h path); [apply adds_sraise | apply adds_sret].
Qed.

(** Decomposes a goal [adds p n m] along the structure of [m]. *)
Ltac adds_step :=
  match goal with
  | |- adds _ _ (Shell.sbind _ _) => apply adds_then; [| intros ?]
  | |- adds _ _ (Shell.do _) => apply adds_do; first [reflexivity | solve [auto]]
  | |- adds _ _ (Shell.modify_environ _) => apply adds_modify
  | |- adds _ _ (Shell._set_envvar _ _) => apply adds_modify
  | |- adds _ _ (Shell._append_envvar _ _) => apply adds_modify
  | |- adds _ _ Shell.get_environ => apply adds_get_environ
  | |- adds _ _ Shell.get_acts => apply adds_get_acts
  | |- adds _ _ (Shell.sret _) => apply adds_sret
  | |- adds _ _ (Shell.sraise _) => apply adds_sraise
  | |- adds _ _ Shell.sout_of_fuel => apply adds_sout_of_fuel
  | |- adds _ _ (Shell.sfmt _) => apply adds_sfmt
  | |- adds _ _ (Shell.load_vms _ _) => apply adds_load_vms
  | |- adds _ _ (Shell.print_output _) => apply adds_print_output; reflexivity
  | |- adds _ _ (Shell.Popen_call _ _) => apply adds_popen; reflexivity
  | |- adds _ _ (Shell.sfor _ _) => apply adds_sfor; intros ?
  | |- adds _ _ (if ?b then _ else _) => destruct b
  end.

Lemma adds_set_default_env p h :
  (forall path, p (Shell.Makedirs path) = false) -> adds p 0 (Shell._set_default_env h).
Proof. intros Hp. unfold Shell._set_default_env. cbv zeta. repeat adds_step. Qed.

Lemma adds_prepare p h a extra :
  (forall path, p (Shell.Makedirs path) = false) -> adds p 0 (Shell.prepare h a extra).
Proof.
  intros Hp. unfold Shell.prepare. cbv zeta.
  apply adds_then; [apply adds_set_default_env, Hp | intros _].
  repeat adds_step.
Qed.

Lemma started_prepare h a extra st :
  Shell.started (snd (Shell.prepare h a extra st)) = Shell.started st.
Proof.
  pose proof (adds_prepare Shell.is_popen h a extra (fun _ => eq_refl) st) as Hs.
  unfold count_acts in Hs. unfold Shell.started. rewrite Hs.
  destruct (fst _); lia.
Qed.

(** ** Ansible is started last *)

Lemma print_output_spec proc st :
  Shell.print_output proc st =
  (Ok tt, Shell.mkState (Shell.os_environ st)
            (Shell.acts st
             +++ map (fun line => Shell.Print (Shell.rstrip line)) (Shell.stdout proc))).
Proof.
  unfold Shell.print_output. revert st.
  induction (Shell.stdout proc) as [|line ls IH]; intros st; simpl.
  - rewrite app_nil_r. destruct st; reflexivity.
  - unfold Shell.sbind. simpl. rewrite IH. simpl. rewrite <- app_assoc. reflexivity.
Qed.

Lemma no_popen_in_prints (ls : list string) :
  filter Shell.is_popen (map (fun line => Shell.Print (Shell.rstrip line)) ls) = [].
Proof. induction ls; simpl; auto. Qed.

(** [_run_ansible] starts the playbook and returns its exit status. *)
Lemma run_ansible_ok h inventory playbook user module_path sudo extra st :
  let command := Shell.ansible_command inventory playbook user module_path sudo extra in
  exists st',
    Shell._run_ansible h inventory playbook user module_path sudo extra st =
      (Ok (Shell.exit_status (Shell.popen h (Shell.started st) command)), st') /\
    Shell.started st' = S (Shell.started st) /\
    Shell.os_environ st' = Shell.os_environ st /\
    In (Shell.Popen command (Shell.os_environ st)) (Shell.acts st').
Proof.
  intros command. unfold Shell._run_ansible. fold command.
  unfold Shell.sbind, Shell.get_environ, Shell.Popen_call.
  cbn [fst snd Shell.do Shell.os_environ Shell.acts].
  rewrite print_output_spec. cbn [Shell.os_environ Shell.acts Shell.sret].
  rewrite started_app. cbn [filter Shell.is_popen length]. rewrite Nat.add_0_r.
  replace (Shell.started (Shell.mkState (Shell.os_environ st) (Shell.acts st)))
    with (Shell.started st) by reflexivity.
  eexists. split; [reflexivity|]. split; [|split; [reflexivity|]].
  - unfold Shell.started. cbn [Shell.acts]. rewrite !filter_app. simpl.
    rewrite no_popen_in_prints. rewrite !length_app. simpl. lia.
  - cbn [Shell.acts]. rewrite !in_app_iff. left. right. left. reflexivity.
Qed.

Lemma no_ansible_in_prints (ls : list string) :
  filter is_ansible (map (fun line => Shell.Print (Shell.rstrip line)) ls) = [].
Proof. induction ls; simpl; auto. Qed.

Lemma adds_run_ansible h inventory playbook user module_path sudo extra :
  adds is_ansible 1 (Shell._run_ansible h inventory playbook user module_path sudo extra).
Proof.
  unfold Shell._run_ansible. cbv zeta.
  apply adds_then; [adds_step | intros env].
  apply adds_then; [adds_step | intros _].
  intros st. unfold Shell.sbind, Shell.Popen_call.
  rewrite print_output_spec. cbn [fst snd Shell.sret Shell.os_environ Shell.acts].
  unfold count_acts. rewrite !filter_app, no_ansible_in_prints, !length_app.
  simpl. lia.
Qed.

Lemma module_command_args inventory module module_args module_hosts user module_path
      sudo extra :
  Shell.module_command inventory module module_args module_hosts user module_path sudo extra
  = Some (["ansible"; module_hosts; "--inventory-file"; inventory;
           "--module-name"; module; "--user"; user; "--module-path"; module_path]
          +++ (if sudo then ["--become"; "--become-method"; "sudo"] else [])
          +++ extra
          +++ ["--args='" ++ module_args ++ "'"]).
Proof. reflexivity. Qed.

Lemma module_text_is_ansible hosts rest env :
  is_ansible (Shell.PopenShell (Shell.join " " ("ansible" :: hosts :: rest)) env) = true.
Proof.
  cbn. match goal with |- prefix "" ?x = true => destruct x; reflexivity end.
Qed.

Lemma adds_run_module h inventory module module_args module_hosts user module_path sudo
      extra :
  adds is_ansible 1
       (Shell._run_module h inventory module module_args module_hosts user module_path
                          sudo extra).
Proof.
  unfold Shell._run_module. rewrite module_command_args.
  apply adds_then; [adds_step | intros env].
  apply adds_then; [adds_step | intros _].
  intros st. unfold Shell.sbind, Shell.Popen_shell_call.
  rewrite print_output_spec. cbn [fst snd Shell.sret Shell.os_environ Shell.acts].
  unfold count_acts. rewrite !filter_app, no_ansible_in_prints, !length_app.
  cbn [app filter]. rewrite module_text_is_ansible. simpl. lia.
Qed.

Lemma no_ansible_in_heat tr : filter is_ansible (map Shell.Heat tr) = [].
Proof. induction tr; simpl; auto. Qed.

Lemma adds_run_heat h fuel a hot : adds is_ansible 0 (Shell.run_heat h fuel a hot).
Proof.
  intros st. unfold Shell.run_heat.
  destruct (_run_heat _ _ _ _ _) as [r tr]. cbn [fst snd].
  unfold count_acts. cbn [Shell.acts]. rewrite filter_app, no_ansible_in_heat, app_nil_r.
  destruct r; lia.
Qed.

Lemma adds_provision_heat h fuel a extra :
  adds is_ansible 0 (Shell.provision_heat h fuel a extra).
Proof.
  unfold Shell.provision_heat.
  repeat adds_step; apply adds_run_heat.
Qed.

Lemma adds_write_box h file box : adds is_ansible 0 (Shell.write_box h file box).
Proof.
  unfold Shell.write_box. cbn [Py.truthy Shell.returncode_unwaited].
  repeat adds_step.
Qed.

Lemma no_ansible_in_round_acts h env file boxes : forall n,
  filter is_ansible (round_acts h env file n boxes) = [].
Proof.
  induction boxes as [|box boxes IH]; intros n; [reflexivity|].
  cbn [round_acts]. rewrite filter_app, IH, app_nil_r. unfold box_acts.
  cbn [filter is_ansible].
  generalize (Shell.stdout (Shell.popen h n ["vagrant"; "ssh-config"; box])) as ls.
  intros ls. induction ls; simpl; auto.
Qed.

Lemma adds_vagrant_ssh_config h environment boxes : forall room,
  adds is_ansible 0 (Shell._vagrant_ssh_config h room environment boxes).
Proof.
  induction room as [|room IH].
  { intros st. cbn [Shell._vagrant_ssh_config].
    destruct (overflow_level_cases h (Shell.vagrant_ssh_config_file h environment) boxes
                (Shell.sbind
                   (Shell.sfmt (Py.percent "-F %s"
                                  [Shell.vagrant_ssh_config_file h environment]))
                   (fun arg => Shell.sbind (Shell._append_envvar "ANSIBLE_SSH_ARGS" arg)
                                 (fun _ => Shell.sret 0%Z))) st)
      as (part & Hpart & Hcase).
    assert (Hnone : filter is_ansible part = []).
    { apply Hpart. cbn [filter is_ansible].
      rewrite filter_app, no_ansible_in_round_acts. reflexivity. }
    destruct Hcase as [(-> & _) | ->]; [rewrite finish_ok|];
      cbn [fst snd Shell.acts]; unfold count_acts;
      rewrite filter_app, Hnone, app_nil_r; lia. }
  cbn [Shell._vagrant_ssh_config]. cbv zeta.
  apply adds_then; [adds_step | intros _].
  apply adds_then; [apply adds_sfor; intros box; apply adds_write_box | intros _].
  apply adds_then; [adds_step | intros tr].
  apply adds_then.
  - destruct (Py.contains _ _); [|apply adds_sret].
    apply adds_then; [adds_step | intros _].
    apply adds_then; [adds_step | intros _].
    apply adds_then; [exact IH | intros _; apply adds_sret].
  - intros _. repeat adds_step.
Qed.

Lemma adds_run_vagrant h environment :
  adds is_ansible 0 (Shell._run_vagrant h environment).
Proof.
  unfold Shell._run_vagrant. cbv zeta. cbn [Py.truthy Shell.returncode_unwaited].
  apply adds_then; [adds_step | intros file].
  apply adds_then; [repeat adds_step | intros vms].
  apply adds_then; [adds_step | intros env].
  apply adds_then; [adds_step | intros _].
  apply adds_then; [adds_step | intros proc].
  apply adds_then; [adds_step | intros _].
  do 3 (apply adds_then; [adds_step | intros _]).
  apply adds_then; [adds_step | intros line].
  do 2 (apply adds_then; [adds_step | intros _]).
  apply adds_then; [apply adds_vagrant_ssh_config | intros rc].
  repeat adds_step.
Qed.

Lemma adds_vagrant_copy_yml h environment :
  adds is_ansible 0 (Shell._vagrant_copy_yml h environment).
Proof.
  unfold Shell._vagrant_copy_yml. repeat adds_step.
  destruct (Shell.copy2 h _ _); repeat adds_step.
Qed.

Lemma adds_provision_vagrant h a extra :
  adds is_ansible 0 (Shell.provision_vagrant h a extra).
Proof.
  unfold Shell.provision_vagrant. cbv zeta.
  apply adds_then; [apply adds_run_vagrant | intros rc].
  destruct (negb _); [apply adds_sret|].
  apply adds_then; [apply adds_vagrant_copy_yml | intros _; apply adds_sret].
Qed.

(** The vagrant branch never makes [run] return early. *)
Lemma only_provision_vagrant h a extra :
  only (fun r => fst (fst r) = 0%Z) (fun _ => True) (Shell.provision_vagrant h a extra).
Proof.
  unfold Shell.provision_vagrant. cbv zeta.
  apply (only_sbind (fun rc => rc = 0%Z)).
  - apply (only_weaken _ _ _ _ _ (fun rc H => H) (fun _ _ => I)
                       (only_run_vagrant h (Shell.environment a))).
  - intros rc ->. cbn [Z.eqb negb].
    apply (only_sbind (fun _ => True)).
    + intros st. destruct (fst _); exact I.
    + intros _ _. apply only_sret. reflexivity.
Qed.

Lemma adds_playbook_or_module h inventory a extra :
  adds is_ansible 1 (Shell.run_playbook_or_module h inventory a extra).
Proof.
  unfold Shell.run_playbook_or_module. cbv zeta.
  destruct (Py.truthy (Shell.module _)); [|apply adds_run_ansible].
  destruct (negb _); [apply adds_sraise | apply adds_run_module].
Qed.

Lemma adds_run h fuel a extra : adds is_ansible 1 (Shell.run h fuel a extra).
Proof.
  unfold Shell.run.
  apply adds_then; [apply adds_prepare; reflexivity | intros [[a' inventory] extra']].
  apply (adds_sbind is_ansible (fun r => fst (fst r) = 0%Z)).
  - destruct (Shell.is_str _ _); [apply adds_provision_vagrant | apply adds_sret].
  - destruct (Shell.is_str _ _); [apply only_provision_vagrant | intros st; reflexivity].
  - intros [[rc a''] extra''] Hrc. cbn [fst] in Hrc. subst rc. cbn [Z.eqb negb].
    apply adds_then.
    + destruct (Shell.is_str _ _); [apply adds_provision_heat | apply adds_sret].
    + intros [a3 extra3]. apply adds_playbook_or_module.
Qed.


Lemma provisioner_set_environment v a :
  Shell.provisioner (Shell.set_environment v a) = Shell.provisioner a.
Proof. reflexivity. Qed.

(** ** The checks of [run] *)

Lemma set_default_env_ok h st :
  exists st1, Shell._set_default_env h st = (Ok tt, st1).
Proof.
  unfold Shell._set_default_env, Shell.sbind, Shell._set_envvar, Shell._append_envvar,
    Shell.modify_environ, Shell.do, Shell.sret.
  destruct (negb _); eexists; reflexivity.
Qed.

Lemma percent_environment s :
  Py.percent "Environment '%s' does not exist" [s] =
  Some ("Environment '" ++ s ++ "' does not exist").
Proof. reflexivity. Qed.

Lemma percent_inventory s :
  Py.percent "Inventory file '%s' does not exist" [s] =
  Some ("Inventory file '" ++ s ++ "' does not exist").
Proof. reflexivity. Qed.

(** X17. When the environment directory does not exist, [run] raises
    naming it, having done nothing but set the default environment of the
    process: no process was started and [URSULA_ENV] was not set. *)
Theorem run_missing_environment h fuel a extra st :
  Shell.path_exists h (Shell.environment a) = false ->
  Shell.run h fuel a extra st =
  (Raise (PyException ("Environment '" ++ Shell.environment a ++ "' does not exist")),
   snd (Shell._set_default_env h st)).
Proof.
  intros He. unfold Shell.run, Shell.prepare.
  destruct (set_default_env_ok h st) as (st0 & Hd).
  unfold Shell.sbind at 1 2. rewrite Hd, He. cbn [negb snd].
  rewrite percent_environment. reflexivity.
Qed.

Lemma run_missing_environment_witness :
  Shell.run no_environment_host 5 (sample_cli Py.PyNone) [] (start_state []) =
  (Raise (PyException "Environment 'envs/test/' does not exist"),
   snd (Shell._set_default_env no_environment_host (start_state []))).
Proof.
  exact (run_missing_environment no_environment_host 5 (sample_cli Py.PyNone) []
           (start_state []) eq_refl).
Defined.

Lemma prepare_ok h a extra st :
  Shell.path_exists h (Shell.environment a) = true ->
  Shell.path_exists h (inventory_of (Shell.environment a)) = true ->
  Shell.path_isfile h (inventory_of (Shell.environment a)) = true ->
  exists st1,
    Shell.prepare h a extra st =
      (Ok (Shell.set_environment (stripped (Shell.environment a)) a,
           inventory_of (Shell.environment a),
           if Shell.ursula_test a then extra +++ ["--syntax-check"; "--list-tasks"]
           else extra), st1) /\
    Shell.started st1 = Shell.started st /\
    assoc "URSULA_ENV" (Shell.os_environ st1) =
      Some (Shell.path_abspath h (stripped (Shell.environment a))).
Proof.
  intros He Hi Hf.
  pose proof (started_prepare h a extra st) as Hs.
  assert (Hp : exists st1,
    Shell.prepare h a extra st =
      (Ok (Shell.set_environment (stripped (Shell.environment a)) a,
           inventory_of (Shell.environment a),
           if Shell.ursula_test a then extra +++ ["--syntax-check"; "--list-tasks"]
           else extra), st1) /\
    assoc "URSULA_ENV" (Shell.os_environ st1) =
      Some (Shell.path_abspath h (stripped (Shell.environment a)))).
  { unfold Shell.prepare. cbv zeta.
    destruct (set_default_env_ok h st) as (st0 & Hd).
    unfold Shell.sbind at 1. rewrite Hd, He. cbn [negb].
    cbn [Shell.environment Shell.set_environment].
    fold (stripped (Shell.environment a)).
    fold (inventory_of (Shell.environment a)).
    rewrite Hi, Hf. cbn [negb orb].
    unfold Shell.sbind, Shell._set_envvar, Shell._append_envvar, Shell.modify_environ.
    cbn [fst snd Shell.os_environ Shell.acts].
    cbn [Shell.ursula_ssh_config Shell.ursula_forward Shell.ursula_test
         Shell.set_environment].
    destruct (Shell.path_isfile h (Shell.path_abspath h _));
      destruct (Shell.ursula_forward a);
      cbn [Shell.sfmt Py.percent option_map Shell.sret fst snd Shell.os_environ Shell.acts];
      (eexists; split; [reflexivity|]);
      cbn [Shell.os_environ];
      rewrite ?env_append_other by discriminate;
      apply assoc_dict_set_same. }
  destruct Hp as (st1 & Hp & Hu). exists st1.
  rewrite Hp in Hs. cbn [snd] in Hs.
  split; [exact Hp|]. split; [exact Hs | exact Hu].
Qed.

(** X18. When the environment directory is there but its inventory is not
    a file, [run] raises naming the inventory, which is [hosts] under the
    environment path without its trailing slashes; [URSULA_ENV] is set by
    then, and no process was started. *)
Theorem run_missing_inventory h fuel a extra st :
  Shell.path_exists h (Shell.environment a) = true ->
  Shell.path_exists h (inventory_of (Shell.environment a))
    && Shell.path_isfile h (inventory_of (Shell.environment a)) = false ->
  fst (Shell.run h fuel a extra st) =
    Raise (PyException ("Inventory file '" ++ inventory_of (Shell.environment a)
                        ++ "' does not exist")) /\
  Shell.started (snd (Shell.run h fuel a extra st)) = Shell.started st /\
  assoc "URSULA_ENV" (Shell.os_environ (snd (Shell.run h fuel a extra st))) =
    Some (Shell.path_abspath h (stripped (Shell.environment a))).
Proof.
  intros He Hi.
  assert (Hn : negb (Shell.path_exists h (inventory_of (Shell.environment a)))
               || negb (Shell.path_isfile h (inventory_of (Shell.environment a))) = true).
  { destruct (Shell.path_exists h (inventory_of (Shell.environment a)));
      destruct (Shell.path_isfile h (inventory_of (Shell.environment a)));
      try discriminate; reflexivity. }
  pose proof (started_prepare h a extra st) as Hs.
  assert (Hp : exists st1,
    Shell.prepare h a extra st =
      (Raise (PyException ("Inventory file '" ++ inventory_of (Shell.environment a)
                           ++ "' does not exist")), st1) /\
    assoc "URSULA_ENV" (Shell.os_environ st1) =
      Some (Shell.path_abspath h (stripped (Shell.environment a)))).
  { unfold Shell.prepare. cbv zeta.
    destruct (set_default_env_ok h st) as (st0 & Hd).
    unfold Shell.sbind at 1. rewrite Hd, He. cbn [negb].
    cbn [Shell.environment Shell.set_environment].
    fold (stripped (Shell.environment a)).
    fold (inventory_of (Shell.environment a)).
    rewrite Hn, percent_inventory.
    unfold Shell.sbind, Shell._set_envvar, Shell.modify_environ.
    cbn [Shell.sfmt Shell.sret Shell.sraise fst snd Shell.os_environ Shell.acts].
    eexists. split; [reflexivity|]. apply assoc_dict_set_same. }
  destruct Hp as (st1 & Hp & Hu).
  rewrite Hp in Hs. cbn [snd] in Hs.
  unfold Shell.run, Shell.sbind. rewrite Hp. cbn [fst snd].
  split; [reflexivity|]. split; [exact Hs | exact Hu].
Qed.

Lemma run_missing_inventory_witness :
  fst (Shell.run no_inventory_host 5 (sample_cli Py.PyNone) [] (start_state [])) =
    Raise (PyException "Inventory file 'envs/test/hosts' does not exist") /\
  Shell.started (snd (Shell.run no_inventory_host 5 (sample_cli Py.PyNone) []
                        (start_state []))) = 0 /\
  assoc "URSULA_ENV"
    (Shell.os_environ (snd (Shell.run no_inventory_host 5 (sample_cli Py.PyNone) []
                              (start_state [])))) = Some "/srv/envs/test".
Proof.
  exact (run_missing_inventory no_inventory_host 5 (sample_cli Py.PyNone) []
           (start_state []) eq_refl eq_refl).
Defined.

(** ** The playbook run *)

Lemma user_after_default name v a :
  Shell.ursula_user (Shell.default_user name (Shell.set_environment v a)) =
  if Py.truthy (Shell.ursula_user a) then Shell.ursula_user a else Py.PyStr name.
Proof.
  unfold Shell.default_user. cbn [Shell.ursula_user Shell.set_environment].
  destruct (Py.truthy (Shell.ursula_user a)); reflexivity.
Qed.

(** [run] without provisioner and module: the playbook, as the given user
    or else as root. *)
Lemma run_plain h fuel a extra st :
  Shell.provisioner a = Py.PyNone ->
  Shell.adhoc a = Py.PyNone -> Shell.module a = Py.PyNone ->
  Shell.path_exists h (Shell.environment a) = true ->
  Shell.path_exists h (inventory_of (Shell.environment a)) = true ->
  Shell.path_isfile h (inventory_of (Shell.environment a)) = true ->
  let user := if Py.truthy (Shell.ursula_user a)
              then Py.str (Shell.ursula_user a) else "root" in
  let command :=
    Shell.ansible_command (inventory_of (Shell.environment a)) (Shell.playbook a) user
      "./library" (Shell.ursula_sudo a)
      (if Shell.ursula_test a then extra +++ ["--syntax-check"; "--list-tasks"]
       else extra) in
  exists st' env,
    Shell.run h fuel a extra st =
      (Ok (Shell.exit_status (Shell.popen h (Shell.started st) command)), st') /\
    Shell.started st' = S (Shell.started st) /\
    In (Shell.Popen command env) (Shell.acts st') /\
    assoc "URSULA_ENV" env = Some (Shell.path_abspath h (stripped (Shell.environment a))).
Proof.
  intros Hprov Hadhoc Hmod He Hi Hf user command.
  destruct (prepare_ok h a extra st He Hi Hf) as (st1 & Hp & Hs1 & Hu).
  unfold Shell.run. unfold Shell.sbind at 1. rewrite Hp.
  rewrite provisioner_set_environment, Hprov.
  cbn [Shell.is_str]. unfold Shell.sbind at 1. cbn [Shell.sret Z.eqb negb].
  rewrite provisioner_set_environment, Hprov. cbn [Shell.is_str].
  unfold Shell.sbind at 1. cbn [Shell.sret].
  unfold Shell.run_playbook_or_module.
  assert (Had : Shell.adhoc (Shell.default_user "root"
                  (Shell.set_environment (stripped (Shell.environment a)) a)) = Py.PyNone).
  { unfold Shell.default_user. destruct (negb _); exact Hadhoc. }
  assert (Hmo : Shell.module (Shell.default_user "root"
                  (Shell.set_environment (stripped (Shell.environment a)) a)) = Py.PyNone).
  { unfold Shell.default_user. destruct (negb _); exact Hmod. }
  assert (Hpb : Shell.playbook (Shell.default_user "root"
                  (Shell.set_environment (stripped (Shell.environment a)) a))
                = Shell.playbook a).
  { unfold Shell.default_user. destruct (negb _); reflexivity. }
  assert (Hsu : Shell.ursula_sudo (Shell.default_user "root"
                  (Shell.set_environment (stripped (Shell.environment a)) a))
                = Shell.ursula_sudo a).
  { unfold Shell.default_user. destruct (negb _); reflexivity. }
  rewrite Had. cbn [Py.truthy]. rewrite Hmo. cbn [Py.truthy].
  rewrite Hpb, Hsu, user_after_default.
  assert (Huser : Py.str (if Py.truthy (Shell.ursula_user a)
                          then Shell.ursula_user a else Py.PyStr "root") = user).
  { unfold user. destruct (Py.truthy (Shell.ursula_user a)); reflexivity. }
  rewrite Huser.
  destruct (run_ansible_ok h (inventory_of (Shell.environment a)) (Shell.playbook a) user
              "./library" (Shell.ursula_sudo a)
              (if Shell.ursula_test a then extra +++ ["--syntax-check"; "--list-tasks"]
               else extra) st1) as (st' & Hr & Hs' & _ & Hin).
  rewrite Hs1 in Hr.
  exists st', (Shell.os_environ st1).
  split; [exact Hr|]. split; [rewrite Hs', Hs1; reflexivity|].
  split; [exact Hin | exact Hu].
Qed.

(** ** [main] *)

Lemma initialize_logger_ok h level st :
  exists st0,
    Shell._initialize_logger h level st = (Ok tt, st0) /\
    Shell.os_environ st0 = Shell.os_environ st /\
    Shell.started st0 = Shell.started st.
Proof.
  unfold Shell._initialize_logger, Shell.init_logfile, Shell.sbind, Shell.do, Shell.sret.
  destruct (negb _); eexists; (split; [reflexivity|]); split; try reflexivity;
    unfold Shell.started; cbn [Shell.acts]; rewrite !filter_app; simpl;
    rewrite ?app_nil_r; reflexivity.
Qed.

Lemma adds_initialize_logger h level : adds is_ansible 0 (Shell._initialize_logger h level).
Proof.
  unfold Shell._initialize_logger, Shell.init_logfile. cbv zeta. repeat adds_step.
Qed.

Lemma adds_check_ansible_version h : adds is_ansible 0 (Shell._check_ansible_version h).
Proof.
  unfold Shell._check_ansible_version. cbv zeta.
  destruct (Shell.LooseVersion (Shell.ansible_version h));
    [destruct (Shell.LooseVersion Shell.MINIMUM_ANSIBLE_VERSION)|];
    repeat adds_step.
Qed.

Lemma version_ge_not_empty v :
  Shell.version_ge v Shell.MINIMUM_ANSIBLE_VERSION = true -> v <> "".
Proof. intros Hv ->. discriminate. Qed.

(** X19. Started through [main] on a machine with a recent ansible, with
    no provisioner and no module, and with the environment directory and
    its inventory in place, the program runs the playbook once and exits
    with the exit status of [ansible-playbook]; the playbook runs as the
    user given, or else as [ubuntu] (the default [root] of [run] is never
    reached from [main]), on the inventory [hosts] of the environment, and
    with [URSULA_ENV] naming the environment in its process environment. *)
Theorem main_plain_run h fuel a extra st :
  Shell.version_ge (Shell.ansible_version h) Shell.MINIMUM_ANSIBLE_VERSION = true ->
  Shell.vagrant a = false ->
  Shell.provisioner a = Py.PyNone ->
  Shell.adhoc a = Py.PyNone -> Shell.module a = Py.PyNone ->
  Shell.path_exists h (Shell.environment a) = true ->
  Shell.path_exists h (inventory_of (Shell.environment a)) = true ->
  Shell.path_isfile h (inventory_of (Shell.environment a)) = true ->
  let user := if Py.truthy (Shell.ursula_user a)
              then Py.str (Shell.ursula_user a) else "ubuntu" in
  let command :=
    Shell.ansible_command (inventory_of (Shell.environment a)) (Shell.playbook a) user
      "./library" (Shell.ursula_sudo a)
      (if Shell.ursula_test a then extra +++ ["--syntax-check"; "--list-tasks"]
       else extra) in
  exists st' env,
    Shell.main h fuel a extra st =
      (Ok (Shell.exit_status (Shell.popen h (Shell.started st) command)), st') /\
    Shell.started st' = S (Shell.started st) /\
    In (Shell.Popen command env) (Shell.acts st') /\
    assoc "URSULA_ENV" env = Some (Shell.path_abspath h (stripped (Shell.environment a))).
Proof.
  intros Hver Hvag Hprov Hadhoc Hmod He Hi Hf user command.
  unfold Shell.main, Shell.stry.
  destruct (initialize_logger_ok h (if Shell.ursula_debug a then "DEBUG" else "INFO") st)
    as (st0 & Hl & _ & Hs0).
  unfold Shell.sbind at 1. rewrite Hl, Hvag.
  unfold Shell.sbind at 1. cbn [Shell.sret].
  unfold Shell.sbind at 1.
  rewrite (check_ansible_version_parsed h (version_ge_not_empty _ Hver)), Hver.
  cbn [negb Shell.sret]. rewrite Hprov. cbn [Shell.is_str].
  subst user command. rewrite <- Hs0.
  destruct (Py.truthy (Shell.ursula_user a)) eqn:Hu; cbn [negb].
  - destruct (run_plain h fuel a extra st0 Hprov Hadhoc Hmod He Hi Hf)
      as (st' & env & Hr & Hs & Hin & Henv).
    rewrite Hu in Hr, Hin. rewrite Hr. exists st', env. repeat split; assumption.
  - destruct (run_plain h fuel (Shell.set_ursula_user (Py.PyStr "ubuntu") a) extra st0
                Hprov Hadhoc Hmod He Hi Hf)
      as (st' & env & Hr & Hs & Hin & Henv).
    cbn [Shell.ursula_user Shell.set_ursula_user Py.truthy Py.str Shell.environment
         Shell.playbook Shell.ursula_sudo Shell.ursula_test] in Hr, Hin, Henv.
    rewrite Hr. exists st', env. repeat split; assumption.
Qed.

Lemma main_plain_run_witness :
  exists st' env,
    Shell.main ansible_host 5 (sample_cli Py.PyNone) ["-v"] (start_state []) =
      (Ok 3%Z, st') /\
    Shell.started st' = 1 /\
    In (Shell.Popen ["ansible-playbook"; "--inventory-file"; "envs/test/hosts";
                     "--user"; "ubuntu"; "--module-path"; "./library"; "site.yml"; "-v"]
                    env) (Shell.acts st') /\
    assoc "URSULA_ENV" env = Some "/srv/envs/test".
Proof.
  exact (main_plain_run ansible_host 5 (sample_cli Py.PyNone) ["-v"] (start_state [])
           eq_refl eq_refl eq_refl eq_refl eq_refl eq_refl eq_refl eq_refl).
Defined.

(** X20. With an ansible whose version is not the empty string and is
    older than required, [main] ends with exit status -1 right after the
    version check: the last thing it did was to log the error naming both
    versions; the environment of the process is as it was, and no process
    was started.  (An empty version string is not parsed: the comparison
    then raises an [AttributeError], and that is what is logged.) *)
Theorem main_old_ansible_exits h fuel a extra st :
  Shell.ansible_version h <> "" ->
  Shell.version_ge (Shell.ansible_version h) Shell.MINIMUM_ANSIBLE_VERSION = false ->
  exists st',
    Shell.main h fuel a extra st = (Ok (-1)%Z, st') /\
    Shell.os_environ st' = Shell.os_environ st /\
    Shell.started st' = Shell.started st /\
    last_act st' = Some (Shell.Log "ERROR" (version_error_text (Shell.ansible_version h))).
Proof.
  intros Hne Hver. unfold Shell.main, Shell.stry.
  destruct (initialize_logger_ok h (if Shell.ursula_debug a then "DEBUG" else "INFO") st)
    as (st0 & Hl & He0 & Hs0).
  unfold Shell.sbind at 1. rewrite Hl.
  rewrite (check_ansible_version_parsed h Hne), Hver. cbn [negb].
  assert (Hmsg : Py.percent Shell.version_error_template
                   [Shell.ansible_version h; Shell.MINIMUM_ANSIBLE_VERSION]
                 = Some (version_error_text (Shell.ansible_version h))) by reflexivity.
  rewrite Hmsg.
  destruct (Shell.vagrant a);
    unfold Shell.sbind, Shell.do, Shell.sret, Shell.sraise, Shell.sfmt;
    cbn [fst snd Shell.os_environ Shell.acts text_of];
    (eexists; split; [reflexivity|]); cbn [Shell.os_environ];
    (split; [exact He0|]); split.
  - unfold Shell.started in *. cbn [Shell.acts]. rewrite !filter_app. simpl.
    rewrite !app_nil_r. exact Hs0.
  - unfold last_act. cbn [Shell.acts]. rewrite map_app. simpl. apply last_last.
  - unfold Shell.started in *. cbn [Shell.acts]. rewrite !filter_app. simpl.
    rewrite !app_nil_r. exact Hs0.
  - unfold last_act. cbn [Shell.acts]. rewrite map_app. simpl. apply last_last.
Qed.

Lemma main_old_ansible_exits_witness :
  exists st',
    Shell.main (versioned_host "1.8") 5 (sample_cli Py.PyNone) [] (start_state []) =
      (Ok (-1)%Z, st') /\
    Shell.os_environ st' = [] /\
    Shell.started st' = 0 /\
    last_act st' = Some (Shell.Log "ERROR" (version_error_text "1.8")).
Proof.
  exact (main_old_ansible_exits (versioned_host "1.8") 5 (sample_cli Py.PyNone) []
           (start_state []) ltac:(discriminate) eq_refl).
Defined.

(** X21. [main] never ends with an exception: whatever is raised becomes
    exit status -1.  There are two ways for it to end: ansible was started,
    exactly once; or ansible was not started, the exit status is -1, and
    the last thing done was to log the error. *)
Theorem main_exit_status h fuel a extra st :
  match fst (Shell.main h fuel a extra st) with
  | Ok rc =>
      ansible_runs (snd (Shell.main h fuel a extra st)) = S (ansible_runs st) \/
      (rc = (-1)%Z /\
       ansible_runs (snd (Shell.main h fuel a extra st)) = ansible_runs st /\
       exists msg, last_act (snd (Shell.main h fuel a extra st))
                   = Some (Shell.Log "ERROR" msg))
  | Raise _ => False
  | OutOfFuel => ansible_runs (snd (Shell.main h fuel a extra st)) = ansible_runs st
  end.
Proof.
  unfold Shell.main, Shell.stry.
  match goal with |- context [match ?b st with _ => _ end] => set (body := b) end.
  assert (Hb : adds is_ansible 1 body).
  { subst body.
    apply adds_then; [apply adds_initialize_logger | intros _].
    apply adds_then; [repeat adds_step | intros a'].
    apply adds_then; [apply adds_check_ansible_version | intros _].
    apply adds_run. }
  specialize (Hb st). unfold ansible_runs.
  destruct (body st) as [[rc|e|] st1]; cbn [fst snd] in *.
  - left. lia.
  - right. split; [reflexivity|]. split.
    + unfold Shell.sbind. cbn [snd Shell.do Shell.sret].
      unfold count_acts in *. cbn [Shell.acts]. rewrite filter_app. simpl.
      rewrite app_nil_r. lia.
    + exists (text_of e). unfold Shell.sbind. cbn [snd Shell.do Shell.sret].
      unfold last_act. cbn [Shell.acts]. rewrite map_app. simpl. apply last_last.
  - lia.
Qed.

(** ** Modules *)

Lemma module_command_last inventory module module_args module_hosts user module_path
      sudo extra command :
  Shell.module_command inventory module module_args module_hosts user module_path sudo extra
  = Some command ->
  last command "" = "--args='" ++ module_args ++ "'".
Proof.
  rewrite module_command_args. intros H. injection H as <-.
  rewrite app_assoc.
  exact (last_last
           (["ansible"; module_hosts; "--inventory-file"; inventory;
             "--module-name"; module; "--user"; user; "--module-path"; module_path]
            +++ (if sudo then ["--become"; "--become-method"; "sudo"] else []) +++ extra)
           _ "").
Qed.

(** [_run_module] starts the module through the shell and returns its exit
    status. *)
Lemma run_module_ok h inventory module module_args module_hosts user module_path sudo
      extra st :
  exists command st',
    Shell.module_command inventory module module_args module_hosts user module_path sudo
                         extra = Some command /\
    Shell._run_module h inventory module module_args module_hosts user module_path sudo
                      extra st =
      (Ok (Shell.exit_status (Shell.popen_shell h (Shell.started st)
                                (Shell.join " " command))), st') /\
    Shell.started st' = S (Shell.started st) /\
    In (Shell.PopenShell (Shell.join " " command) (Shell.os_environ st)) (Shell.acts st').
Proof.
  unfold Shell._run_module. rewrite module_command_args.
  eexists. 
  unfold Shell.sbind, Shell.get_environ, Shell.Popen_shell_call.
  cbn [fst snd Shell.do Shell.os_environ Shell.acts].
  rewrite print_output_spec. cbn [Shell.os_environ Shell.acts Shell.sret].
  rewrite started_app. cbn [filter Shell.is_popen length]. rewrite Nat.add_0_r.
  replace (Shell.started (Shell.mkState (Shell.os_environ st) (Shell.acts st)))
    with (Shell.started st) by reflexivity.
  eexists. split; [reflexivity|]. split; [reflexivity|]. split.
  - unfold Shell.started. cbn [Shell.acts]. rewrite !filter_app. simpl.
    rewrite no_popen_in_prints. rewrite !length_app. simpl. lia.
  - cbn [Shell.acts]. rewrite !in_app_iff. left. right. left. reflexivity.
Qed.

Lemma default_user_fields name a :
  Shell.adhoc (Shell.default_user name a) = Shell.adhoc a /\
  Shell.module (Shell.default_user name a) = Shell.module a /\
  Shell.module_args (Shell.default_user name a) = Shell.module_args a /\
  Shell.module_hosts (Shell.default_user name a) = Shell.module_hosts a /\
  Shell.ursula_sudo (Shell.default_user name a) = Shell.ursula_sudo a.
Proof. unfold Shell.default_user. destruct (negb _); repeat split. Qed.

(** X22. [--adhoc] is [--module=shell] with the command as its arguments,
    whatever [--module] and [--module-args] say: without provisioner, [run]
    hands one string to the shell, the words of the [ansible] command for
    the module [shell] joined by spaces, on the hosts given or else on
    [all], ending with the command between single quotes as it was typed;
    its exit status is what [run] returns. *)
Theorem adhoc_runs_the_shell_module h fuel a extra st c :
  Shell.provisioner a = Py.PyNone ->
  Shell.adhoc a = Py.PyStr c -> c <> "" ->
  Shell.path_exists h (Shell.environment a) = true ->
  Shell.path_exists h (inventory_of (Shell.environment a)) = true ->
  Shell.path_isfile h (inventory_of (Shell.environment a)) = true ->
  let user := if Py.truthy (Shell.ursula_user a)
              then Py.str (Shell.ursula_user a) else "root" in
  let hosts := if Py.truthy (Shell.module_hosts a)
               then Py.str (Shell.module_hosts a) else "all" in
  exists command st' env,
    Shell.module_command (inventory_of (Shell.environment a)) "shell" c hosts user
      "./library" (Shell.ursula_sudo a)
      (if Shell.ursula_test a then extra +++ ["--syntax-check"; "--list-tasks"]
       else extra) = Some command /\
    last command "" = "--args='" ++ c ++ "'" /\
    Shell.run h fuel a extra st =
      (Ok (Shell.exit_status (Shell.popen_shell h (Shell.started st)
                                (Shell.join " " command))), st') /\
    Shell.started st' = S (Shell.started st) /\
    In (Shell.PopenShell (Shell.join " " command) env) (Shell.acts st').
Proof.
  intros Hprov Hadhoc Hc He Hi Hf user hosts.
  destruct (prepare_ok h a extra st He Hi Hf) as (st1 & Hp & Hs1 & Hu).
  unfold Shell.run. unfold Shell.sbind at 1. rewrite Hp.
  rewrite provisioner_set_environment, Hprov.
  cbn [Shell.is_str]. unfold Shell.sbind at 1. cbn [Shell.sret Z.eqb negb].
  rewrite provisioner_set_environment, Hprov. cbn [Shell.is_str].
  unfold Shell.sbind at 1. cbn [Shell.sret].
  unfold Shell.run_playbook_or_module.
  destruct (default_user_fields "root"
              (Shell.set_environment (stripped (Shell.environment a)) a))
    as (Had & _ & _ & Hmh & Hsu).
  cbn [Shell.adhoc Shell.module_hosts Shell.ursula_sudo Shell.set_environment]
    in Had, Hmh, Hsu.
  rewrite Had, Hadhoc.
  assert (Ht : Py.truthy (Py.PyStr c) = true) by (destruct c; [contradiction | reflexivity]).
  rewrite Ht. cbn [Shell.module Shell.module_args Shell.module_hosts Shell.set_module].
  change (Py.truthy (Py.PyStr "shell")) with true. cbv iota.
  rewrite Ht. cbn [negb].
  rewrite Hmh.
  assert (Huser : Py.str (if Py.truthy (Shell.ursula_user a)
                          then Shell.ursula_user a else Py.PyStr "root") = user).
  { unfold user. destruct (Py.truthy (Shell.ursula_user a)); reflexivity. }
  assert (Hrun : forall a2,
            Shell.module a2 = Py.PyStr "shell" -> Shell.module_args a2 = Py.PyStr c ->
            Py.str (Shell.module_hosts a2) = hosts ->
            Py.str (Shell.ursula_user a2) = user ->
            Shell.ursula_sudo a2 = Shell.ursula_sudo a ->
            exists command st' env,
              Shell.module_command (inventory_of (Shell.environment a)) "shell" c hosts user
                "./library" (Shell.ursula_sudo a)
                (if Shell.ursula_test a then extra +++ ["--syntax-check"; "--list-tasks"]
                 else extra) = Some command /\
              last command "" = "--args='" ++ c ++ "'" /\
              Shell._run_module h (inventory_of (Shell.environment a))
                (Py.str (Shell.module a2)) (Py.str (Shell.module_args a2))
                (Py.str (Shell.module_hosts a2)) (Py.str (Shell.ursula_user a2))
                "./library" (Shell.ursula_sudo a2)
                (if Shell.ursula_test a then extra +++ ["--syntax-check"; "--list-tasks"]
                 else extra) st1 =
                (Ok (Shell.exit_status (Shell.popen_shell h (Shell.started st)
                                          (Shell.join " " command))), st') /\
              Shell.started st' = S (Shell.started st) /\
              In (Shell.PopenShell (Shell.join " " command) env) (Shell.acts st')).
  { intros a2 H1 H2 H3 H4 H5. rewrite H1, H2, H3, H4, H5. cbn [Py.str].
    destruct (run_module_ok h (inventory_of (Shell.environment a)) "shell" c hosts user
                "./library" (Shell.ursula_sudo a)
                (if Shell.ursula_test a then extra +++ ["--syntax-check"; "--list-tasks"]
                 else extra) st1) as (command & st' & Hcmd & Hr & Hs' & Hin).
    exists command, st', (Shell.os_environ st1).
    split; [exact Hcmd|]. split.
    - exact (module_command_last _ _ _ _ _ _ _ _ _ Hcmd).
    - rewrite <- Hs1. split; [exact Hr|]. split; [rewrite Hs'; reflexivity | exact Hin]. }
  destruct (Py.truthy (Shell.module_hosts a)) eqn:Hh; cbn [negb]; apply Hrun;
    cbn [Shell.module Shell.module_args Shell.module_hosts Shell.ursula_user
         Shell.ursula_sudo Shell.set_module Shell.set_module_hosts];
    rewrite ?Hmh, ?user_after_default;
    try reflexivity; try exact Huser; exact Hsu.
Qed.

Lemma adhoc_runs_the_shell_module_witness :
  exists command st' env,
    Shell.module_command "envs/test/hosts" "shell" "uptime" "all" "root" "./library"
                         false [] = Some command /\
    last command "" = "--args='uptime'" /\
    Shell.run ansible_host 5 adhoc_cli [] (start_state []) =
      (Ok (Shell.exit_status (Shell.popen_shell ansible_host 0 (Shell.join " " command))),
       st') /\
    Shell.started st' = 1 /\
    In (Shell.PopenShell (Shell.join " " command) env) (Shell.acts st').
Proof.
  exact (adhoc_runs_the_shell_module ansible_host 5 adhoc_cli [] (start_state []) "uptime"
           eq_refl eq_refl ltac:(discriminate) eq_refl eq_refl eq_refl).
Defined.


